(** * The article scraper: fetch / extract / classify pipeline

    A shallow embedding of [fixed_scraper.py] (class [FixedWebScraper]),
    of the progress-reporting subclass and the job runner of [web_app.py]
    and of the sibling extractor of [configurable_scraper.py].

    Conventions of the embedding:
    - a Python [str] is a list of Unicode code points ([N]);
    - a parsed page (a [BeautifulSoup] object) is a tree of tags and text;
    - the libraries the program calls but does not contain (the CSS
      engine, [urljoin], the Unicode tables) are fields of a class;
    - the network, the random generator, the stop button and the disk are
      oracles of an [environment]; the program threads a [world] holding the
      oracle cursors, the trace of observable effects and the module-level
      variables of [web_app.py];
    - delays are rationals ([Q]) standing for Python floats. *)

From Stdlib Require Import String Ascii.
From Stdlib Require Import ZArith NArith QArith List Bool Lia.
From Stdlib Require DecimalString.
Import ListNotations.

Set Warnings "-register-all".

Set Implicit Arguments.
Local Open Scope Z_scope.

(* ================================================================== *)
(** * Python strings *)
(* ================================================================== *)

Module PyStr.

Definition char := N.
Definition str := list char.

(** An ASCII literal of the source as a [str]. *)
Definition lit (s : String.string) : str :=
  map N_of_ascii (String.list_ascii_of_string s).

Definition char_eqb (a b : char) : bool := N.eqb a b.

Fixpoint eqb (a b : str) : bool :=
  match a, b with
  | [], [] => true
  | x :: a', y :: b' => char_eqb x y && eqb a' b'
  | _, _ => false
  end.

(** [len(s)] *)
Definition len (s : str) : Z := Z.of_nat (length s).

(** Truth value of a string: the empty string is false. *)
Definition truthy (s : str) : bool :=
  match s with [] => false | _ :: _ => true end.

(** The code points [str.isspace] accepts (CPython's whitespace table). *)
Definition isspace (c : char) : bool :=
  (((9 <=? c) && (c <=? 13)) || ((28 <=? c) && (c <=? 32))
   || (c =? 133) || (c =? 160) || (c =? 5760)
   || ((8192 <=? c) && (c <=? 8202))
   || (c =? 8232) || (c =? 8233) || (c =? 8239) || (c =? 8287)
   || (c =? 12288))%N.

Fixpoint lstrip (s : str) : str :=
  match s with
  | c :: s' => if isspace c then lstrip s' else s
  | [] => []
  end.

Definition rstrip (s : str) : str := rev (lstrip (rev s)).

(** [s.strip()] *)
Definition strip (s : str) : str := rstrip (lstrip s).

(** [s.replace(c, '')] for a one-character [c]. *)
Definition remove_char (c : char) (s : str) : str :=
  filter (fun x => negb (char_eqb x c)) s.

(** [s.startswith(p)] *)
Fixpoint startswith (s p : str) : bool :=
  match p, s with
  | [], _ => true
  | x :: p', y :: s' => char_eqb x y && startswith s' p'
  | _ :: _, [] => false
  end.

(** [s.endswith(p)] *)
Definition endswith (s p : str) : bool := startswith (rev s) (rev p).

(** [p in s] *)
Fixpoint contains (s p : str) : bool :=
  startswith s p || match s with [] => false | _ :: s' => contains s' p end.

(** [s[:n]] for [n >= 0] *)
Definition prefix (n : nat) (s : str) : str := firstn n s.

(** [s[:m]] for any integer [m]: a negative [m] counts from the end. *)
Definition upto (m : Z) (s : str) : str :=
  if m <? 0 then firstn (Z.to_nat (Z.of_nat (length s) + m)) s
  else firstn (Z.to_nat m) s.

(** [s[n:]] for [n >= 0] *)
Definition from (n : nat) (s : str) : str := skipn n s.

Fixpoint take_while (p : char -> bool) (s : str) : str :=
  match s with
  | c :: s' => if p c then c :: take_while p s' else []
  | [] => []
  end.

Fixpoint drop_while (p : char -> bool) (s : str) : str :=
  match s with
  | c :: s' => if p c then drop_while p s' else s
  | [] => []
  end.

(** [s.split()[0]] on a string that is not empty after [strip]: the
    first whitespace-delimited token. *)
Definition first_token (s : str) : str :=
  take_while (fun c => negb (isspace c)) (lstrip s).

(** [sep.join(parts)] *)
Fixpoint join (sep : str) (parts : list str) : str :=
  match parts with
  | [] => []
  | [p] => p
  | p :: rest => p ++ sep ++ join sep rest
  end.

(** [str(n)] for an integer: decimal digits, a minus sign when negative. *)
Definition of_int (n : Z) : str := lit (DecimalString.NilZero.string_of_int (Z.to_int n)).

Definition comma : char := 44%N.
Definition space : str := [32%N].
Definition newline : str := [10%N].
Definition ellipsis : str := lit "..."%string.

End PyStr.

Import PyStr.

(* ================================================================== *)
(** * Parsed pages *)
(* ================================================================== *)

Module Soup.

(** A parsed document: text nodes and tags.  The [BeautifulSoup] object
    itself is the root tag, whose children are the top-level nodes. *)
Inductive node : Type :=
| Text (s : str)
| Tag (name : str) (attrs : list (str * str)) (children : list node).

Definition soup (top : list node) : node := Tag (lit "[document]"%string) [] top.

Definition is_tag (n : node) : bool :=
  match n with Tag _ _ _ => true | Text _ => false end.

Definition named (names : list str) (n : node) : bool :=
  match n with
  | Tag nm _ _ => existsb (PyStr.eqb nm) names
  | Text _ => false
  end.

(** The text strings below a node, in document order. *)
Fixpoint strings (n : node) : list str :=
  match n with
  | Text s => [s]
  | Tag _ _ cs => flat_map strings cs
  end.

(** The tags strictly below a node, in document order. *)
Fixpoint descendants (n : node) : list node :=
  match n with
  | Text _ => []
  | Tag _ _ cs =>
      flat_map (fun c => (if is_tag c then [c] else []) ++ descendants c) cs
  end.

(** [n.find_all(names)] *)
Definition find_all (names : list str) (n : node) : list node :=
  filter (named names) (descendants n).

(** [n.find(name)] *)
Definition find (name : str) (n : node) : option node :=
  hd_error (find_all [name] n).

(** [n.text], that is [n.get_text()]: every string, concatenated. *)
Definition text (n : node) : str := concat (strings n).

(** [n.get_text(sep, strip=True)]: every string stripped, the empty ones
    dropped, joined by [sep]. *)
Definition get_text_strip (sep : str) (n : node) : str :=
  join sep (filter truthy (map strip (strings n))).

(** [n.string]: the single string of a tag with exactly one child,
    looking through single-child tags. *)
Fixpoint string_of (n : node) : option str :=
  match n with
  | Text s => Some s
  | Tag _ _ [c] => string_of c
  | Tag _ _ _ => None
  end.

(** [n.get(key)] on the attribute dictionary of a tag. *)
Fixpoint lookup (key : str) (attrs : list (str * str)) : option str :=
  match attrs with
  | [] => None
  | (k, v) :: rest => if PyStr.eqb k key then Some v else lookup key rest
  end.

Definition get (key : str) (n : node) : option str :=
  match n with
  | Tag _ attrs _ => lookup key attrs
  | Text _ => None
  end.

(** The tree after [t.decompose()] on every tag of [find_all(names)]. *)
Fixpoint decompose_all (names : list str) (n : node) : node :=
  match n with
  | Text s => Text s
  | Tag nm attrs cs =>
      Tag nm attrs
        (flat_map (fun c => if named names c then []
                            else [decompose_all names c]) cs)
  end.

End Soup.

Import Soup.

(* ================================================================== *)
(** * What the program takes from its libraries *)
(* ================================================================== *)

(** The CSS engine behind [select] and [select_one], [urllib]'s [urljoin],
    [str.lower] and the Unicode table of decimal digits are not part of the
    repository: the program is modelled over any implementation of them. *)
Class Libraries : Type := {
  (** [soup.select(selector)]: the matching tags in document order, or
      [None] when the engine raises (a selector it cannot parse). *)
  select : str -> node -> option (list node);
  (** [urljoin(base, href)] *)
  urljoin : str -> str -> str;
  (** [s.lower()] *)
  lower : str -> str;
  (** The value of a decimal digit (Unicode category Nd) beyond ASCII. *)
  unicode_digit : char -> option N
}.

(** [soup.select_one(selector)]: the first match. *)
Definition select_one `{Libraries} (selector : str) (n : node)
  : option (option node) :=
  option_map (@hd_error node) (select selector n).

(** What [\d] matches and what [int] reads: ASCII digits and the digits of
    the Unicode table. *)
Definition digit_value `{Libraries} (c : char) : option N :=
  if ((48 <=? c) && (c <=? 57))%N then Some (c - 48)%N
  else if (c <? 128)%N then None
  else unicode_digit c.

Definition is_digit `{Libraries} (c : char) : bool :=
  match digit_value c with Some _ => true | None => false end.

Definition not_digit `{Libraries} (c : char) : bool := negb (is_digit c).

(** [re.findall(r'\d+', text)[0]] when there is a match, the empty string
    when [findall] returns the empty list. *)
Definition first_digit_run `{Libraries} (text : str) : str :=
  take_while is_digit (drop_while not_digit text).

(** [int(digits)] on a run of decimal digits. *)
Definition int_of_digits `{Libraries} (digits : str) : Z :=
  fold_left
    (fun acc c => 10 * acc + Z.of_N (match digit_value c with
                                    | Some d => d
                                    | None => 0%N
                                    end))
    digits 0.

(* ================================================================== *)
(** * Configuration and records *)
(* ================================================================== *)

(** The keys of the [selectors] dictionary the program looks up. *)
Inductive field : Type :=
| f_title | f_author | f_publish_time
| f_read_count | f_like_count | f_collect_count
| f_summary | f_content | f_article_links.

(** The attributes [__init__] reads from the configuration. *)
Record scraper : Type := {
  base_url : str;
  selectors : field -> option str;     (* [None]: key absent *)
  max_retries : Z;
  retry_delay : Q;
  request_delay_min : Q;
  request_delay_max : Q;
  page_delay_min : Q;
  page_delay_max : Q;
  max_pages : Z;
  min_read_count : Z;
  min_interaction_count : Z
}.

(** A Python value that is a string or [None]. *)
Inductive strval : Type :=
| PyNone
| PyStr (s : str).

Definition strval_truthy (v : strval) : bool :=
  match v with PyNone => false | PyStr s => truthy s end.

(** [if not selector]: the key is absent or its value is empty. *)
Definition configured (self : scraper) (f : field) : option str :=
  match selectors self f with
  | Some sel => if truthy sel then Some sel else None
  | None => None
  end.

Module Article.
(** The dictionary [parse_article_detail] returns, key by key. *)
Record t : Type := {
  title : strval;
  author : strval;
  publish_time : strval;
  read_count : Z;
  like_count : Z;
  collect_count : Z;
  summary : strval;
  content : str;
  detail_url : str;
  is_bestseller : bool;
  status_code : option Z;
  error : option str
}.
End Article.

Module Response.
(** A [requests.Response]: its status, the length of [response.text] and
    the tree [BeautifulSoup(response.text, 'html.parser')] builds. *)
Record t : Type := {
  status_code : Z;
  html_len : Z;
  page : node
}.

(** [response.ok], which is also the truth value of a response
    ([Response.__bool__]): false exactly for the statuses 400 to 599,
    those for which [raise_for_status] raises. *)
Definition ok (r : t) : bool :=
  negb ((400 <=? status_code r) && (status_code r <? 600)).
End Response.

(* ================================================================== *)
(** * Effects: network, clock, randomness, job status *)
(* ================================================================== *)

(** What [session.get] can raise, by class of [requests.exceptions]:
    [ConnectTimeout] derives from both [ConnectionError] and [Timeout],
    [ReadTimeout] from [Timeout] only; [OtherError] is any exception that
    is not a [RequestException]. *)
Inductive exn : Type :=
| SSLError | ConnectionError | ConnectTimeout | ReadTimeout
| RequestException | OtherError.

(** The [except] clauses of [make_request], in their order. *)
Inductive clause : Type :=
| OnSSLError | OnConnectionError | OnTimeout | OnRequestException
| OnException.

(** The first clause whose class the exception is an instance of. *)
Definition clause_of (e : exn) : clause :=
  match e with
  | SSLError => OnSSLError
  | ConnectionError => OnConnectionError
  | ConnectTimeout => OnConnectionError
  | ReadTimeout => OnTimeout
  | RequestException => OnRequestException
  | OtherError => OnException
  end.

Inductive attempt : Type :=
| Raises (e : exn)
| Responds (r : Response.t).

(** The exceptions that leave the methods modelled here: [time.sleep]
    refuses a negative length. *)
Inductive pyerror : Type :=
| ValueError_sleep.

(** The messages given to [log_message], with the values their format
    strings interpolate (the time stamp in front of each is left out). *)
Inductive message : Type :=
| MsgListFetchFailed (page_url : str)
| MsgListResponse (status html_len : Z)
| MsgAnchorCount (a_count : Z)
| MsgSelectorHits (n : Z) (selector : str)
| MsgSampleLink (i : Z) (text30 : str) (href80 : str)
| MsgValidLinks (n : Z)
| MsgSinglePage (page_url : str)
| MsgFetchingPage (page : Z) (page_url : str)
| MsgPageNoArticles (page : Z)
| MsgTotalLinks (n : Z)
| MsgProcessing (current total : Z) (detail_url : str)
| MsgBestseller (title : strval)
| MsgInit
| MsgStart
| MsgNoLinks
| MsgStopped
| MsgDoneKeywords (keywords : list str) (n : Z)
| MsgDone (n : Z)
| MsgSaved
| MsgSaveFailed
| MsgErrorMark (e : pyerror)
| MsgError (e : pyerror).

(** The records of the [logging] module the statements below refer to;
    the other calls to [logger] only write to the log file and are left
    out. *)
Inductive logline : Type :=
| FinalFailure (c : clause) (url : str)
| PageEmpty (page : Z)
| StoppedByUser.

(** The observable effects, in the order they happen. *)
Inductive event : Type :=
| Get (url : str)
| Sleep (seconds : Q)
| Logged (l : logline)
| SaveCsv (rows : list Article.t) (written : bool).

(** The places where the job reads the flag [is_running]. *)
Inductive checkpoint : Type :=
| AtPage (page : Z)
| AtLink (index : nat).

(** Everything outside the program.  [net n url] is what the [n]-th GET
    of the run does when it asks for [url]; [random n] is the [n]-th value
    of [random.random()]; [stop_pressed c] tells whether a stop request
    (which clears [is_running] from the server thread) has arrived by the
    time the job reads the flag at [c]; [csv_ok rows] tells whether writing
    [rows] to disk succeeds. *)
Record environment : Type := {
  net : nat -> str -> attempt;
  random : nat -> Q;
  stop_pressed : checkpoint -> bool;
  csv_ok : list Article.t -> bool
}.

(** The dictionary [scraping_status] ([progress], a float computation, is
    left out). *)
Record status : Type := {
  is_running : bool;
  total_articles : Z;
  current_article : Z;
  bestsellers_found : Z;
  log_messages : list message;
  error : option pyerror
}.

(** The state a run threads: oracle cursors, the trace, the module-level
    variables of [web_app.py] and the two counters of the scraper object. *)
Record world : Type := {
  gets : nat;
  draws : nat;
  trace : list event;
  scraping_status : status;
  global_logs : list message;
  last_articles : list Article.t;
  current_keywords : list str;
  self_total_articles : Z;
  self_current_article : Z
}.

Definition set_status (f : status -> status) (w : world) : world :=
  {| gets := gets w; draws := draws w; trace := trace w;
     scraping_status := f (scraping_status w);
     global_logs := global_logs w; last_articles := last_articles w;
     current_keywords := current_keywords w;
     self_total_articles := self_total_articles w;
     self_current_article := self_current_article w |}.

Definition emit (e : event) (w : world) : world :=
  {| gets := gets w; draws := draws w; trace := trace w ++ [e];
     scraping_status := scraping_status w;
     global_logs := global_logs w; last_articles := last_articles w;
     current_keywords := current_keywords w;
     self_total_articles := self_total_articles w;
     self_current_article := self_current_article w |}.

Definition set_running (b : bool) (s : status) : status :=
  {| is_running := b; total_articles := total_articles s;
     current_article := current_article s;
     bestsellers_found := bestsellers_found s;
     log_messages := log_messages s; error := error s |}.

Definition set_total (n : Z) (s : status) : status :=
  {| is_running := is_running s; total_articles := n;
     current_article := current_article s;
     bestsellers_found := bestsellers_found s;
     log_messages := log_messages s; error := error s |}.

Definition set_current (n : Z) (s : status) : status :=
  {| is_running := is_running s; total_articles := total_articles s;
     current_article := n;
     bestsellers_found := bestsellers_found s;
     log_messages := log_messages s; error := error s |}.

Definition set_found (n : Z) (s : status) : status :=
  {| is_running := is_running s; total_articles := total_articles s;
     current_article := current_article s;
     bestsellers_found := n;
     log_messages := log_messages s; error := error s |}.

Definition add_log (m : message) (s : status) : status :=
  {| is_running := is_running s; total_articles := total_articles s;
     current_article := current_article s;
     bestsellers_found := bestsellers_found s;
     log_messages := log_messages s ++ [m]; error := error s |}.

Definition set_error (e : option pyerror) (s : status) : status :=
  {| is_running := is_running s; total_articles := total_articles s;
     current_article := current_article s;
     bestsellers_found := bestsellers_found s;
     log_messages := log_messages s; error := e |}.

(** A computation: it ends with a value or with a raised exception, and
    leaves a new world either way. *)
Inductive outcome (A : Type) : Type :=
| Ok (a : A)
| Raised (e : pyerror).
Arguments Raised {A} e.

Definition M (A : Type) : Type := world -> outcome A * world.

Definition ret {A} (a : A) : M A := fun w => (Ok a, w).

Definition bind {A B} (m : M A) (k : A -> M B) : M B :=
  fun w =>
    match m w with
    | (Ok a, w') => k a w'
    | (Raised e, w') => (Raised e, w')
    end.

Definition raise {A} (e : pyerror) : M A := fun w => (Raised e, w).

(** [try: m / except Exception as e: handler e] *)
Definition try_except {A} (m : M A) (handler : pyerror -> M A) : M A :=
  fun w =>
    match m w with
    | (Ok a, w') => (Ok a, w')
    | (Raised e, w') => handler e w'
    end.

(** [try: m / finally: cleanup] *)
Definition try_finally {A} (m : M A) (cleanup : world -> world) : M A :=
  fun w => let (r, w') := m w in (r, cleanup w').

Definition modify (f : world -> world) : M unit := fun w => (Ok tt, f w).

Definition read {A} (f : world -> A) : M A := fun w => (Ok (f w), w).

Declare Scope py_scope.
Delimit Scope py_scope with py.
Notation "x <- m ;; k" := (bind m (fun x => k))
  (at level 61, m at next level, right associativity) : py_scope.
Notation "m ;; k" := (bind m (fun _ => k))
  (at level 61, right associativity) : py_scope.
Local Open Scope py_scope.

(** The cursor of the network oracle moves on. *)
Definition next_get (w : world) : world :=
  {| gets := S (gets w); draws := draws w; trace := trace w;
     scraping_status := scraping_status w;
     global_logs := global_logs w; last_articles := last_articles w;
     current_keywords := current_keywords w;
     self_total_articles := self_total_articles w;
     self_current_article := self_current_article w |}.

(** The cursor of the random oracle moves on. *)
Definition next_draw (w : world) : world :=
  {| gets := gets w; draws := S (draws w); trace := trace w;
     scraping_status := scraping_status w;
     global_logs := global_logs w; last_articles := last_articles w;
     current_keywords := current_keywords w;
     self_total_articles := self_total_articles w;
     self_current_article := self_current_article w |}.

(** An entry goes to the status dictionary and to [global_logs]. *)
Definition add_message (m : message) (w : world) : world :=
  {| gets := gets w; draws := draws w; trace := trace w;
     scraping_status := add_log m (scraping_status w);
     global_logs := global_logs w ++ [m];
     last_articles := last_articles w;
     current_keywords := current_keywords w;
     self_total_articles := self_total_articles w;
     self_current_article := self_current_article w |}.

Section Primitives.
Variable env : environment.

(** [self.session.get(url, ...)] *)
Definition session_get (url : str) : M attempt :=
  fun w => (Ok (net env (gets w) url), emit (Get url) (next_get w)).

(** [random.uniform(a, b)], that is [a + (b - a) * random()] *)
Definition uniform (a b : Q) : M Q :=
  fun w => (Ok (a + (b - a) * random env (draws w))%Q, next_draw w).

(** [time.sleep(seconds)] *)
Definition sleep (seconds : Q) : M unit :=
  if Qle_bool 0 seconds then modify (emit (Sleep seconds))
  else raise ValueError_sleep.

Definition logger (l : logline) : M unit := modify (emit (Logged l)).

(** [log_message] of [web_app.py] *)
Definition log_message (m : message) : M unit := modify (add_message m).

(** Reading [scraping_status['is_running']] at a checkpoint: a stop
    request that has arrived by then has cleared the flag. *)
Definition read_is_running (c : checkpoint) : M bool :=
  fun w =>
    let flag := is_running (scraping_status w)
                && negb (stop_pressed env c) in
    (Ok flag, set_status (set_running flag) w).

(** [save_to_csv(rows, ...)]: true when the file was written; the
    function catches its own exceptions and then returns false. *)
Definition save_to_csv (rows : list Article.t) : M bool :=
  fun w => (Ok (csv_ok env rows), emit (SaveCsv rows (csv_ok env rows)) w).

End Primitives.

(** [range(lo, hi)] *)
Definition range (lo hi : Z) : list Z :=
  map (fun k => lo + Z.of_nat k) (seq 0 (Z.to_nat (hi - lo))).

(** The URL of a list page: the base URL for page 1, the base URL with a
    [page] parameter after it. *)
Definition page_url_of (base_url : str) (page : Z) : str :=
  if 1 <? page then
    let sep := if contains base_url (lit "?") then lit "&" else lit "?" in
    base_url ++ sep ++ lit "page=" ++ of_int page
  else base_url.

(* ================================================================== *)
(** * The scraper of [fixed_scraper.py] *)
(* ================================================================== *)

Module FixedWebScraper.
Section Pure.
Context `{Libraries}.
Variable self : scraper.

(** [extract_text]: the method ends after the test of the selector.  The
    statements that select the element and return its text stand after
    the [return] of [extract_content] and belong to that method, so a call
    with a configured selector runs off the end and yields [None]. *)
Definition extract_text (soup : node) (f : field) (max_length : option Z)
  : strval :=
  match configured self f with
  | None => PyStr []
  | Some _ => PyNone
  end.

(** The paragraphs of at least 20 characters below [n], one per line. *)
Definition paragraphs_text (n : node) : str :=
  let paragraphs := map (get_text_strip space) (find_all [lit "p"] n) in
  let paragraphs := filter (fun p => 20 <=? len p) paragraphs in
  strip (join newline paragraphs).

(** The longest text among the candidate blocks, the first one on ties. *)
Definition best_block (candidates : list node) : str :=
  fold_left
    (fun best_text node =>
       let node_text := get_text_strip newline node in
       if len best_text <? len node_text then node_text else best_text)
    candidates [].

Definition extract_content (soup0 : node) : str :=
  let soup :=
    decompose_all [lit "script"; lit "style"; lit "noscript"] soup0 in
  let by_selector :=
    match configured self f_content with
    | Some selector =>
        match select_one selector soup with
        | Some (Some elem) => Some (get_text_strip newline elem)
        | Some None => None
        | None => None              (* [except Exception: pass] *)
        end
    | None => None
    end in
  match by_selector with
  | Some text => text
  | None =>
      let in_article :=
        match find (lit "article") soup with
        | Some article =>
            let text := paragraphs_text article in
            if 200 <=? len text then Some text else None
        | None => None
        end in
      match in_article with
      | Some text => text
      | None =>
          let text := paragraphs_text soup in
          if 200 <=? len text then text
          else strip (best_block
                        (find_all [lit "div"; lit "section"; lit "main"]
                                  soup))
      end
  end.

Definition extract_number (soup : node) (f : field) : Z :=
  match configured self f with
  | None => 0
  | Some selector =>
      match select_one selector soup with
      | Some (Some element) =>
          let text := remove_char comma (strip (text element)) in
          let first := first_digit_run text in
          if truthy first then int_of_digits first else 0
      | Some None => 0
      | None => 0                   (* [except Exception: return 0] *)
      end
  end.

Definition is_bestseller (read_count interaction_count : Z) : bool :=
  (min_read_count self <? read_count)
  && (min_interaction_count self <? interaction_count).

(** [soup.title.string], stripped, when the document has a [title] tag
    with a non-empty single string; the empty string otherwise. *)
Definition fallback_title (soup : node) : str :=
  match find (lit "title") soup with
  | Some t =>
      match string_of t with
      | Some s => if truthy s then strip s else []
      | None => []
      end
  | None => []
  end.

(** The [try] block of [parse_article_detail]: the record built from a
    response that passed the test [if not response]. *)
Definition build_article (detail_url : str) (response : Response.t)
  : Article.t :=
  let soup := Response.page response in
  let title := extract_text soup f_title None in
  let title :=
    if strval_truthy title then title else PyStr (fallback_title soup) in
  let author := extract_text soup f_author None in
  let publish_time := extract_text soup f_publish_time None in
  let read_count := extract_number soup f_read_count in
  let like_count := extract_number soup f_like_count in
  let collect_count := extract_number soup f_collect_count in
  let content_summary := extract_text soup f_summary (Some 200) in
  let content := extract_content soup in
  let content_summary :=
    if negb (strval_truthy content_summary) && truthy content
    then PyStr (prefix 200 content
                ++ (if 200 <? len content then ellipsis else []))
    else content_summary in
  let title := if strval_truthy title then title else PyStr detail_url in
  let interaction_count := like_count + collect_count in
  {| Article.title := title;
     Article.author := author;
     Article.publish_time := publish_time;
     Article.read_count := read_count;
     Article.like_count := like_count;
     Article.collect_count := collect_count;
     Article.summary := content_summary;
     Article.content := content;
     Article.detail_url := detail_url;
     Article.is_bestseller := is_bestseller read_count interaction_count;
     Article.status_code := Some (Response.status_code response);
     Article.error :=
       if Response.status_code response =? 200 then None
       else Some (lit "http_" ++ of_int (Response.status_code response)) |}.

(** The record returned when [make_request] gave nothing to parse. *)
Definition failed_article (detail_url : str) : Article.t :=
  {| Article.title := PyStr [];
     Article.author := PyStr [];
     Article.publish_time := PyStr [];
     Article.read_count := 0;
     Article.like_count := 0;
     Article.collect_count := 0;
     Article.summary := PyStr [];
     Article.content := [];
     Article.detail_url := detail_url;
     Article.is_bestseller := false;
     Article.status_code := None;
     Article.error := Some (lit "request_failed") |}.

End Pure.

Section Effects.
Context `{Libraries}.
Variable env : environment.
Variable self : scraper.
(** [hasattr(self, "log_message")]: false for a plain [FixedWebScraper],
    true for the subclass of [web_app.py]. *)
Variable has_log_message : bool.

Definition log_if_present (m : message) : M unit :=
  if has_log_message then log_message m else ret tt.

(** The body of [for attempt in range(self.max_retries)], run over the
    attempt numbers still to come; running out of them is the
    [return None] after the loop. *)
Fixpoint attempts (url : str) (todo : list Z) : M (option Response.t) :=
  match todo with
  | [] => ret None
  | attempt :: rest =>
      r <- session_get env url ;;
      match r with
      | Responds response => ret (Some response)
      | Raises e =>
          match clause_of e with
          | OnException => ret None
          | c =>
              if attempt <? max_retries self - 1 then
                jitter <- uniform env 0 1 ;;
                sleep (retry_delay self * inject_Z (2 ^ attempt)
                       + jitter)%Q ;;
                attempts url rest
              else
                logger (FinalFailure c url) ;;
                ret None
          end
      end
  end.

Definition make_request (url : str) : M (option Response.t) :=
  attempts url (range 0 (max_retries self)).

(** [if not response]: nothing came back, or a response whose truth
    value is false. *)
Definition usable (response : option Response.t) : option Response.t :=
  match response with
  | Some r => if Response.ok r then Some r else None
  | None => None
  end.

Definition extensions : list str :=
  map lit [".apk"; ".jpg"; ".jpeg"; ".png"; ".gif"; ".css"; ".js";
           ".pdf"; ".zip"]%string.

(** The ten words of [exclude_keywords] (log in, register, help, about,
    contact, feedback, more, home page, map, jobs), by code point. *)
Definition exclude_keywords : list str :=
  [ [30331; 24405]; [27880; 20876]; [24110; 21161]; [20851; 20110];
    [32852; 31995]; [21453; 39304]; [26356; 22810]; [39318; 39029];
    [22320; 22270]; [25307; 32856] ]%N.

Definition normalize_href (href : str) : str :=
  let href := strip href in
  let href := if truthy href then first_token href else href in
  let href :=
    if startswith href (lit "https:/")
       && negb (startswith href (lit "https://"))
    then lit "https://" ++ from 7 href else href in
  if startswith href (lit "http:/")
     && negb (startswith href (lit "http://"))
  then lit "http://" ++ from 6 href else href.

(** What one pass of the loop over the selected elements does with an
    element: [continue] before the end of the body, a link appended, or
    the [else] branch of [if href]. *)
Inductive verdict : Type :=
| Rejected
| Appended (full_url href : str)
| NoHref (shown : str).

Definition examine (page_url : str) (a : node) : verdict :=
  let text := get_text_strip [] a in
  match get (lit "href") a with
  | None => NoHref (lit "None")
  | Some [] => NoHref []
  | Some raw =>
      let href := normalize_href raw in
      if existsb (endswith (lower href)) extensions then Rejected
      else if len text <? 4 then Rejected
      else if len href <? 10 then Rejected
      else if startswith href (lit "javascript")
              || startswith href (lit "#") then Rejected
      else if existsb (contains text) exclude_keywords then Rejected
      else Appended (urljoin page_url href) href
  end.

(** [for i, a in enumerate(elements)], from index [i] on. *)
Fixpoint scan (page_url : str) (i : Z) (elements : list node)
  (links : list str) : M (list str) :=
  match elements with
  | [] => ret links
  | a :: rest =>
      let sample shown :=
        if i <? 5 then
          log_if_present
            (MsgSampleLink (i + 1) (prefix 30 (get_text_strip [] a))
                           (prefix 80 shown))
        else ret tt in
      match examine page_url a with
      | Rejected => scan page_url (i + 1) rest links
      | Appended full_url href =>
          sample href ;; scan page_url (i + 1) rest (links ++ [full_url])
      | NoHref shown =>
          sample shown ;; scan page_url (i + 1) rest links
      end
  end.

Definition fetch_article_links (page_url : str) : M (list str) :=
  response <- make_request page_url ;;
  match usable response with
  | None =>
      log_if_present (MsgListFetchFailed page_url) ;;
      ret []
  | Some response =>
      log_if_present (MsgListResponse (Response.status_code response)
                                      (Response.html_len response)) ;;
      let soup := Response.page response in
      let a_count := Z.of_nat (length (find_all [lit "a"] soup)) in
      log_if_present (MsgAnchorCount a_count) ;;
      let selector :=
        match selectors self f_article_links with
        | Some s => s
        | None => lit "a"
        end in
      match select selector soup with
      | None => ret []              (* [except Exception: return []] *)
      | Some elements =>
          log_if_present
            (MsgSelectorHits (Z.of_nat (length elements)) selector) ;;
          links <- scan page_url 0 elements [] ;;
          log_if_present (MsgValidLinks (Z.of_nat (length links))) ;;
          match links with
          | [] =>
              if a_count =? 0 then
                log_if_present (MsgSinglePage page_url) ;;
                ret [page_url]
              else ret []
          | _ :: _ => ret links
          end
      end
  end.

Definition parse_article_detail (detail_url : str)
  : M (option Article.t) :=
  response <- make_request detail_url ;;
  match usable response with
  | None => ret (Some (failed_article detail_url))
  | Some response =>
      ret (Some (build_article self detail_url response))
  end.

(** [for page in range(1, max_pages + 1)] of
    [FixedWebScraper.fetch_multiple_pages], over the pages still to come. *)
Fixpoint pages (base_url : str) (todo : list Z) (all_links : list str)
  : M (list str) :=
  match todo with
  | [] => ret all_links
  | page :: rest =>
      links <- fetch_article_links (page_url_of base_url page) ;;
      match links with
      | [] =>
          logger (PageEmpty page) ;;
          pages base_url rest all_links
      | _ :: _ =>
          delay <- uniform env (page_delay_min self)
                               (page_delay_max self) ;;
          sleep delay ;;
          pages base_url rest (all_links ++ links)
      end
  end.

Definition fetch_multiple_pages (base_url : str) (max_pages : Z)
  : M (list str) :=
  pages base_url (range 1 (max_pages + 1)) [].

End Effects.
End FixedWebScraper.

(* ================================================================== *)
(** * The sibling extractor ([configurable_scraper.py]) *)
(* ================================================================== *)

Module WebScraper.
Section Pure.
Context `{Libraries}.
Variable self : scraper.

(** [if max_length and len(text) > max_length] *)
Definition too_long (max_length : option Z) (text : str) : bool :=
  match max_length with
  | Some m => negb (m =? 0) && (m <? len text)
  | None => false
  end.

(** [extract_text] as the sibling class has it, whole.  The call
    [select_one] is not guarded there: [None] is an exception. *)
Definition extract_text (soup : node) (f : field) (max_length : option Z)
  : option str :=
  match configured self f with
  | None => Some []
  | Some selector =>
      match select_one selector soup with
      | Some (Some element) =>
          let text := strip (text element) in
          Some (match max_length with
                | Some m =>
                    if too_long max_length text then upto m text ++ ellipsis
                    else text
                | None => text
                end)
      | Some None => Some []
      | None => None
      end
  end.

Definition is_bestseller (read_count interaction_count : Z) : bool :=
  (min_read_count self <? read_count)
  && (min_interaction_count self <? interaction_count).

End Pure.
End WebScraper.


(* ================================================================== *)
(** * The job of [web_app.py] *)
(* ================================================================== *)

Module WebScraperWithProgress.
Section Job.
Context `{Libraries}.
Variable env : environment.
Variable self : scraper.

Definition min_content_length : Z := 200.

Definition set_self_total (n : Z) (w : world) : world :=
  {| gets := gets w; draws := draws w; trace := trace w;
     scraping_status := set_total n (scraping_status w);
     global_logs := global_logs w; last_articles := last_articles w;
     current_keywords := current_keywords w;
     self_total_articles := n;
     self_current_article := self_current_article w |}.

Definition set_self_current (n : Z) (w : world) : world :=
  {| gets := gets w; draws := draws w; trace := trace w;
     scraping_status := set_current n (scraping_status w);
     global_logs := global_logs w; last_articles := last_articles w;
     current_keywords := current_keywords w;
     self_total_articles := self_total_articles w;
     self_current_article := n |}.

Definition set_last_articles (rows : list Article.t) (w : world) : world :=
  {| gets := gets w; draws := draws w; trace := trace w;
     scraping_status := scraping_status w;
     global_logs := global_logs w; last_articles := rows;
     current_keywords := current_keywords w;
     self_total_articles := self_total_articles w;
     self_current_article := self_current_article w |}.

(** [for page in range(1, max_pages + 1)] of the overriding
    [fetch_multiple_pages], over the pages still to come. *)
Fixpoint pages (base_url : str) (todo : list Z) (all_links : list str)
  : M (list str) :=
  match todo with
  | [] => ret all_links
  | page :: rest =>
      running <- read_is_running env (AtPage page) ;;
      if running then
        let page_url := page_url_of base_url page in
        log_message (MsgFetchingPage page page_url) ;;
        links <- FixedWebScraper.fetch_article_links env self true
                   page_url ;;
        match links with
        | [] =>
            log_message (MsgPageNoArticles page) ;;
            pages base_url rest all_links
        | _ :: _ =>
            let all_links := all_links ++ links in
            modify (set_self_total (Z.of_nat (length all_links))) ;;
            delay <- uniform env (page_delay_min self)
                                 (page_delay_max self) ;;
            sleep delay ;;
            pages base_url rest all_links
        end
      else
        logger StoppedByUser ;;
        ret all_links
  end.

Definition fetch_multiple_pages (base_url : str) (max_pages : Z)
  : M (list str) :=
  all_links <- pages base_url (range 1 (max_pages + 1)) [] ;;
  log_message (MsgTotalLinks (Z.of_nat (length all_links))) ;;
  ret all_links.

Definition parse_article_detail (detail_url : str)
  : M (option Article.t) :=
  current <- read self_current_article ;;
  modify (set_self_current (current + 1)) ;;
  total <- read self_total_articles ;;
  log_message (MsgProcessing (current + 1) total detail_url) ;;
  result <- FixedWebScraper.parse_article_detail env self detail_url ;;
  match result with
  | Some article =>
      (if Article.is_bestseller article then
         found <- read (fun w => bestsellers_found (scraping_status w)) ;;
         modify (set_status (set_found (found + 1))) ;;
         log_message (MsgBestseller (Article.title article))
       else ret tt) ;;
      ret result
  | None => ret result
  end.

(** [(article_data.get('title') or '') + "\n" + content] *)
Definition haystack (article : Article.t) (content : str) : str :=
  match Article.title article with
  | PyStr s => s
  | PyNone => []
  end ++ newline ++ content.

(** The post-extraction filters of the detail loop. *)
Definition kept (keywords : list str) (article : Article.t) : bool :=
  let content := strip (Article.content article) in
  if len content <? min_content_length then false
  else match keywords with
       | [] => true
       | _ :: _ => existsb (contains (haystack article content)) keywords
       end.

(** [for link in article_links] of [run_scraper], over the links still
    to come; [index] is the position of the first of them. *)
Fixpoint details (index : nat) (todo : list str) (keywords : list str)
  (articles : list Article.t) : M (list Article.t) :=
  match todo with
  | [] => ret articles
  | link :: rest =>
      running <- read_is_running env (AtLink index) ;;
      if running then
        article_data <- parse_article_detail link ;;
        match article_data with
        | None => details (S index) rest keywords articles
        | Some article =>
            if kept keywords article then
              delay <- uniform env (request_delay_min self)
                                   (request_delay_max self) ;;
              sleep delay ;;
              details (S index) rest keywords (articles ++ [article])
            else details (S index) rest keywords articles
        end
      else
        log_message MsgStopped ;;
        ret articles
  end.

(** [scraping_status.update({...})] at the start of the job, and the
    counters of the new scraper object. *)
Definition reset (w : world) : world :=
  {| gets := gets w; draws := draws w; trace := trace w;
     scraping_status :=
       {| is_running := true; total_articles := 0; current_article := 0;
          bestsellers_found := 0;
          log_messages := log_messages (scraping_status w);
          error := None |};
     global_logs := global_logs w; last_articles := last_articles w;
     current_keywords := current_keywords w;
     self_total_articles := 0;
     self_current_article := 0 |}.

(** The [try] block of [run_scraper]. *)
Definition job : M unit :=
  log_message MsgInit ;;
  modify reset ;;
  log_message MsgStart ;;
  article_links <- fetch_multiple_pages (base_url self) (max_pages self) ;;
  match article_links with
  | [] => log_message MsgNoLinks
  | _ :: _ =>
      keywords <- read current_keywords ;;
      articles <- details 0 article_links keywords [] ;;
      written <- save_to_csv env articles ;;
      (if written then
         log_message
           (match keywords with
            | [] => MsgDone (Z.of_nat (length articles))
            | _ :: _ =>
                MsgDoneKeywords keywords (Z.of_nat (length articles))
            end) ;;
         log_message MsgSaved
       else log_message MsgSaveFailed) ;;
      modify (set_last_articles articles)
  end.

(** The [except Exception] block of [run_scraper]. *)
Definition on_error (e : pyerror) : M unit :=
  modify (set_status (set_error (Some e))) ;;
  log_message (MsgErrorMark e) ;;
  log_message (MsgError e).

(** [run_scraper]: the [try] block, its handler, and the [finally]
    block that clears [is_running]. *)
Definition run_scraper : M unit :=
  try_finally (try_except job on_error)
              (set_status (set_running false)).

End Job.
End WebScraperWithProgress.

(* ================================================================== *)
(** * Vocabulary of the statements *)
(* ================================================================== *)

(** No configured delay is negative. *)
Definition well_configured (self : scraper) : Prop :=
  (0 <= retry_delay self /\ 0 <= request_delay_min self
   /\ 0 <= request_delay_max self /\ 0 <= page_delay_min self
   /\ 0 <= page_delay_max self)%Q.

(** [random.random()] draws from the interval from 0 to 1, 1 excluded. *)
Definition fair_random (env : environment) : Prop :=
  forall n, (0 <= random env n /\ random env n < 1)%Q.

(** [requests.exceptions.Timeout] and its subclasses. *)
Definition is_timeout (e : exn) : bool :=
  match e with
  | ConnectTimeout | ReadTimeout => true
  | _ => false
  end.

Definition is_get (e : event) : bool :=
  match e with Get _ => true | _ => false end.

(** The wait after failed attempt number [k], when the first random draw
    of the request is draw number [d0]. *)
Definition backoff (env : environment) (self : scraper) (d0 k : nat) : Q :=
  (retry_delay self * inject_Z (2 ^ Z.of_nat k) + random env (d0 + k))%Q.

(** The [except] clause that handles GET number [g] of the run. *)
Definition clause_at (env : environment) (url : str) (g : nat) : clause :=
  match net env g url with
  | Raises e => clause_of e
  | Responds _ => OnException
  end.

(** What failed attempt number [k] out of [n] looks like from outside,
    the first attempt being GET number [g0]: a GET, then a wait before the
    next attempt, or the final error record after the last one. *)
Definition attempt_events (env : environment) (self : scraper) (url : str)
  (g0 d0 n k : nat) : list event :=
  [Get url;
   if (S k <? n)%nat then Sleep (backoff env self d0 k)
   else Logged (FinalFailure (clause_at env url (g0 + k)) url)].

Definition failed_attempts (env : environment) (self : scraper) (url : str)
  (g0 d0 n : nat) : list event :=
  flat_map (attempt_events env self url g0 d0 n) (seq 0 n).

(** The failure kinds the specification gives a fetch outcome. *)
Inductive failure_kind : Type :=
| KindTimeout | KindConnection | KindTls | KindOther.

(** What a request leaves untouched: everything but the oracle cursors
    and the trace. *)
Definition job_view (w : world) :=
  (scraping_status w, global_logs w, last_articles w, current_keywords w,
   self_total_articles w, self_current_article w).

(** What link discovery leaves untouched: the job state but its logs. *)
Definition progress_view (w : world) :=
  (is_running (scraping_status w), total_articles (scraping_status w),
   current_article (scraping_status w),
   bestsellers_found (scraping_status w), error (scraping_status w),
   last_articles w, current_keywords w,
   self_total_articles w, self_current_article w).

(** What the page stage leaves untouched. *)
Definition detail_view (w : world) :=
  (current_article (scraping_status w),
   bestsellers_found (scraping_status w), error (scraping_status w),
   last_articles w, current_keywords w, self_current_article w).

(** The oracle cursors and the trace. *)
Definition io_view (w : world) := (gets w, draws w, trace w).

(** [m] leaves [view] as it found it, however it ends. *)
Definition preserves {A V : Type} (view : world -> V) (m : M A) : Prop :=
  forall w, view (snd (m w)) = view w.

(** The state of the job when [run_scraper] calls [fetch_multiple_pages]. *)
Definition prologue (w : world) : world :=
  snd ((log_message MsgInit ;; modify WebScraperWithProgress.reset ;;
        log_message MsgStart) w).

(* ================================================================== *)
(** * Concrete libraries, pages and sites for the examples *)
(* ================================================================== *)

Module Demo.

Definition ascii_lower (c : char) : char :=
  if ((65 <=? c) && (c <=? 90))%N then (c + 32)%N else c.

(** The full-width digits, one block of the Unicode table. *)
Definition fullwidth_digit (c : char) : option N :=
  if ((65296 <=? c) && (c <=? 65305))%N then Some (c - 65296)%N else None.

(** Libraries that agree with the real ones on what the examples use:
    selectors that are a bare tag name, links that are absolute URLs. *)
Definition libs : Libraries :=
  {| select := fun selector n => Some (find_all [selector] n);
     urljoin := fun _ href => href;
     lower := map ascii_lower;
     unicode_digit := fullwidth_digit |}.

Definition demo_selectors (f : field) : option str :=
  match f with
  | f_title => Some (lit "h1")
  | f_read_count => Some (lit "span")
  | f_article_links => Some (lit "a")
  | _ => None
  end.

(** The default configuration of [fixed_scraper.py], with the selectors
    above. *)
Definition config : scraper :=
  {| base_url := lit "https://site.example/list";
     selectors := demo_selectors;
     max_retries := 3;
     retry_delay := 2;
     request_delay_min := 2;
     request_delay_max := 4;
     page_delay_min := 3;
     page_delay_max := 5;
     max_pages := 2;
     min_read_count := 100;
     min_interaction_count := 10 |}.

Definition tag (name : string) (children : list node) : node :=
  Tag (lit name) [] children.

(** [<html><head><title> Page </title></head>
     <body><h1> Hello </h1><span>12,345 [U+6B21]</span></body></html>] *)
Definition detail_page : node :=
  soup [tag "html"
          [tag "head" [tag "title" [Text (lit " Page ")]];
           tag "body"
             [tag "h1" [Text (lit " Hello ")];
              tag "span" [Text (lit "12,345 " ++ [27425%N])]]]].

Definition response (status : Z) (page : node) : Response.t :=
  {| Response.status_code := status; Response.html_len := 0;
     Response.page := page |}.

Definition anchor (href text : string) : node :=
  Tag (lit "a") [(lit "href", lit href)] [Text (lit text)].

Definition initial : world :=
  {| gets := 0; draws := 0; trace := [];
     scraping_status :=
       {| is_running := false; total_articles := 0; current_article := 0;
          bestsellers_found := 0; log_messages := []; error := None |};
     global_logs := []; last_articles := []; current_keywords := [];
     self_total_articles := 0; self_current_article := 0 |}.

(** An environment in which every GET does [a], whatever the URL. *)
Definition always (a : attempt) : environment :=
  {| net := fun _ _ => a;
     random := fun _ => (1 # 2)%Q;
     stop_pressed := fun _ => false;
     csv_ok := fun _ => true |}.

(** A list page with two links that pass the filters. *)
Definition list_page_two : node :=
  soup [tag "body"
          [anchor "https://site.example/a/1" "First article";
           anchor "https://site.example/a/2" "Second article"]].

(** A list page whose only link has too short a text. *)
Definition list_page_none : node :=
  soup [tag "body" [anchor "https://site.example/top" "Top"]].

(** A list page with five links that pass the filters. *)
Definition list_page_five : node :=
  soup [tag "body"
          [anchor "https://site.example/a/1" "First article";
           anchor "https://site.example/a/2" "Second article";
           anchor "https://site.example/a/3" "Third article";
           anchor "https://site.example/a/4" "Fourth article";
           anchor "https://site.example/a/5" "Fifth article"]].

(** A detail page with a block of 200 characters. *)
Definition article_page : node :=
  soup [tag "body" [tag "div" [Text (repeat 97%N 200)]]].

Definition config_one_page : scraper :=
  {| base_url := base_url config;
     selectors := demo_selectors;
     max_retries := 3;
     retry_delay := 2;
     request_delay_min := 2;
     request_delay_max := 4;
     page_delay_min := 3;
     page_delay_max := 5;
     max_pages := 1;
     min_read_count := 100;
     min_interaction_count := 10 |}.

(** A site whose first list page has two links and whose second list
    page has none. *)
Definition two_page_site : environment :=
  {| net := fun _ url =>
       if PyStr.eqb url (base_url config)
       then Responds (response 200 list_page_two)
       else if PyStr.eqb url (page_url_of (base_url config) 2)
       then Responds (response 200 list_page_none)
       else Responds (response 200 article_page);
     random := fun _ => (1 # 2)%Q;
     stop_pressed := fun _ => false;
     csv_ok := fun _ => true |}.

(** A site with five articles, and a stop request that arrives while the
    first of them is processed. *)
Definition stopped_site : environment :=
  {| net := fun _ url =>
       if PyStr.eqb url (base_url config)
       then Responds (response 200 list_page_five)
       else Responds (response 200 article_page);
     random := fun _ => (1 # 2)%Q;
     stop_pressed := fun c =>
       match c with
       | AtLink 1 => true
       | _ => false
       end;
     csv_ok := fun _ => true |}.

(** A configuration whose retry delay is negative. *)
Definition config_negative_delay : scraper :=
  {| base_url := base_url config;
     selectors := demo_selectors;
     max_retries := 3;
     retry_delay := (-5);
     request_delay_min := 2;
     request_delay_max := 4;
     page_delay_min := 3;
     page_delay_max := 5;
     max_pages := 1;
     min_read_count := 100;
     min_interaction_count := 10 |}.

End Demo.


From Stdlib Require DecimalPos DecimalZ.

(* ================================================================== *)
(** * The configuration manager ([fixed_scraper.py]) *)
(* ================================================================== *)

Module FixedConfigManager.

(** What [json.load] builds: the values of a configuration file.  A
    dictionary is the list of its items. *)
Inductive value : Type :=
| VNone
| VBool (b : bool)
| VInt (n : Z)
| VFloat (q : Q)
| VStr (s : str)
| VList (items : list value)
| VDict (items : list (str * value)).

(** [s.split(sep)] for a one-character separator. *)
Fixpoint split (sep : char) (s : str) : list str :=
  match s with
  | [] => [[]]
  | c :: s' =>
      if char_eqb c sep then [] :: split sep s'
      else match split sep s' with
           | part :: parts => (c :: part) :: parts
           | [] => [[c]]
           end
  end.

(** [value[key]] when [key in value] *)
Fixpoint item (key : str) (items : list (str * value)) : option value :=
  match items with
  | [] => None
  | (k, v) :: rest => if PyStr.eqb k key then Some v else item key rest
  end.

(** The loop of [get] over the keys still to come: [None] is the
    [return default] inside the loop. *)
Fixpoint descend (keys : list str) (v : value) : option value :=
  match keys with
  | [] => Some v
  | key :: rest =>
      match v with
      | VDict items =>
          match item key items with
          | Some v' => descend rest v'
          | None => None
          end
      | _ => None
      end
  end.

Definition dot : char := 46%N.

(** [get(key_path, default)] on the loaded configuration [config]. *)
Definition get (config : value) (key_path : str) (default : value) : value :=
  match descend (split dot key_path) config with
  | Some v => v
  | None => default
  end.

End FixedConfigManager.

(* ================================================================== *)
(** * The connection test ([fixed_scraper.py]) *)
(* ================================================================== *)

Module ConnectionTest.

(** The dictionary [test_connection] returns: [error] is the clause that
    wrote the error text; [headers] and [response_time] are left out, and
    so are the lines the method writes to the logger. *)
Record t : Type := {
  success : bool;
  status_code : option Z;
  content_length : Z;
  error : option clause
}.

Definition test_connection (env : environment) (url : str) : M t :=
  r <- session_get env url ;;
  match r with
  | Responds response =>
      ret {| success := true;
             status_code := Some (Response.status_code response);
             content_length := Response.html_len response;
             error := None |}
  | Raises e =>
      ret {| success := false;
             status_code := None;
             content_length := 0;
             error := Some (clause_of e) |}
  end.

End ConnectionTest.

(* ================================================================== *)
(** * The request handlers of [web_app.py] *)
(* ================================================================== *)

Module WebApp.

(** [s.split()]: the maximal runs of characters that are not whitespace;
    [current] is the run being read. *)
Fixpoint words_from (current : str) (s : str) : list str :=
  match s with
  | [] => if truthy current then [current] else []
  | c :: s' =>
      if isspace c
      then (if truthy current then [current] else []) ++ words_from [] s'
      else words_from (current ++ [c]) s'
  end.

Definition words (s : str) : list str := words_from [] s.

(** [s.replace(a, b)] for one-character [a] and [b]. *)
Definition replace_char (a b : char) (s : str) : str :=
  map (fun c => if char_eqb c a then b else c) s.

Definition fullwidth_comma : char := 65292%N.
Definition ideographic_comma : char := 12289%N.

(** The keywords [start_scraping] reads from the request, [raw] being
    [request.json.get('keywords')]. *)
Definition parse_keywords (raw : strval) : list str :=
  let raw := strip (match raw with PyStr s => s | PyNone => [] end) in
  if truthy raw then
    flat_map
      (fun part =>
         let part := strip part in
         if truthy part
         then filter truthy (map strip (words part))
         else [])
      (FixedConfigManager.split comma
         (replace_char ideographic_comma comma
            (replace_char fullwidth_comma comma raw)))
  else [].

(** [l[i:]] for any integer [i]: a negative [i] counts from the end. *)
Definition slice_from (A : Type) (i : Z) (l : list A) : list A :=
  if i <? 0 then skipn (Z.to_nat (Z.of_nat (length l) + i)) l
  else skipn (Z.to_nat i) l.

(** [get_logs]: the entries from [last_index] on and the next index. *)
Definition get_logs (last_index : Z) (w : world) : list message * Z :=
  (slice_from last_index (global_logs w), Z.of_nat (length (global_logs w))).

(** The limit of [preview_results] after its two tests. *)
Definition clamp_limit (limit : Z) : Z :=
  let limit := if limit <=? 0 then 20 else limit in
  if 200 <? limit then 200 else limit.

(** An item of the preview. *)
Record preview : Type := {
  title : strval;
  publish_time : strval;
  summary : strval;
  detail_url : str;
  status_code : option Z;
  error : option str;
  content_length : Z;
  content_preview : str
}.

Definition to_preview_item (article : Article.t) : preview :=
  let content := Article.content article in
  {| title := Article.title article;
     publish_time := Article.publish_time article;
     summary := Article.summary article;
     detail_url := Article.detail_url article;
     status_code := Article.status_code article;
     error := Article.error article;
     content_length := len content;
     content_preview :=
       prefix 300 content ++ (if 300 <? len content then ellipsis else []) |}.

(** [preview_results] when [last_articles] is not empty: the items and
    the total.  [None] stands for the other branch, which reads the CSV
    file. *)
Definition preview_results (limit : Z) (w : world)
  : option (list preview * Z) :=
  match last_articles w with
  | [] => None
  | _ :: _ =>
      Some (map to_preview_item
              (firstn (Z.to_nat (clamp_limit limit)) (last_articles w)),
            Z.of_nat (length (last_articles w)))
  end.

(** [stop_scraping]: true when the request is accepted. *)
Definition stop_scraping (w : world) : bool * world :=
  if is_running (scraping_status w)
  then (true, set_status (set_running false) w)
  else (false, w).

End WebApp.

(* ================================================================== *)
(** * Vocabulary of the further statements *)
(* ================================================================== *)

(** Whatever [m] does, the world it leaves is related to the one it
    found. *)
Definition advances {A : Type} (R : world -> world -> Prop) (m : M A)
  : Prop :=
  forall w, R w (snd (m w)).

(** A relation every step of the fetch and detail stages respects. *)
Record steady (R : world -> world -> Prop) : Prop := {
  steady_refl : forall w, R w w;
  steady_trans : forall w1 w2 w3, R w1 w2 -> R w2 w3 -> R w1 w3;
  steady_get : forall url w, R w (emit (Get url) (next_get w));
  steady_draw : forall w, R w (next_draw w);
  steady_sleep : forall d w, R w (emit (Sleep d) w);
  steady_logged : forall l w, R w (emit (Logged l) w);
  steady_message : forall m w, R w (add_message m w);
  steady_flag : forall b w, R w (set_status (set_running b) w);
  steady_total :
    forall n w, R w (WebScraperWithProgress.set_self_total n w);
  steady_current :
    forall n w, R w (WebScraperWithProgress.set_self_current n w);
  steady_found : forall n w, R w (set_status (set_found n) w)
}.

(** The log only grows. *)
Definition logs_grow (w w' : world) : Prop :=
  exists added,
    global_logs w' = global_logs w ++ added
    /\ log_messages (scraping_status w')
       = log_messages (scraping_status w) ++ added.

Definition is_save (e : event) : bool :=
  match e with SaveCsv _ _ => true | _ => false end.

(** Nothing was written to disk and the published rows are the same. *)
Definition saves_nothing (w w' : world) : Prop :=
  filter is_save (trace w') = filter is_save (trace w)
  /\ last_articles w' = last_articles w.

(** The recorded error is the same. *)
Definition error_kept (w w' : world) : Prop :=
  error (scraping_status w') = error (scraping_status w).

(** [m] issues at most [n] GETs. *)
Definition costs {A : Type} (n : nat) (m : M A) : Prop :=
  forall w, (gets (snd (m w)) <= gets w + n)%nat.

(** The counters of the status dictionary are in order. *)
Definition counters_in_order (w : world) : Prop :=
  0 <= bestsellers_found (scraping_status w)
  /\ bestsellers_found (scraping_status w)
     <= current_article (scraping_status w)
  /\ current_article (scraping_status w)
     <= total_articles (scraping_status w).

(** The counters of the job. *)
Definition counter_view (w : world) :=
  (self_current_article w, current_article (scraping_status w),
   bestsellers_found (scraping_status w),
   total_articles (scraping_status w), self_total_articles w).

(** The counters while [k] of the links found are still to be
    processed. *)
Definition counters_with (k : nat) (w : world) : Prop :=
  self_current_article w = current_article (scraping_status w)
  /\ 0 <= bestsellers_found (scraping_status w)
  /\ bestsellers_found (scraping_status w)
     <= current_article (scraping_status w)
  /\ current_article (scraping_status w) + Z.of_nat k
     <= total_articles (scraping_status w).

(** The links of the elements that pass the filters, in their order. *)
Definition accepted_links `{Libraries} (page_url : str)
  (elements : list node) : list str :=
  flat_map
    (fun a =>
       match FixedWebScraper.examine page_url a with
       | FixedWebScraper.Appended full_url _ => [full_url]
       | _ => []
       end)
    elements.

(* ================================================================== *)
(** * A site that answers at the second attempt *)
(* ================================================================== *)

Module Flaky.

Definition site : environment :=
  {| net := fun g _ =>
       match g with
       | O => Raises ReadTimeout
       | S _ => Responds (Demo.response 200 Demo.article_page)
       end;
     random := fun _ => (1 # 2)%Q;
     stop_pressed := fun _ => false;
     csv_ok := fun _ => true |}.

End Flaky.
(* ================================================================== *)
(** * Properties of the string and digit primitives *)
(* ================================================================== *)

Section Digits.
Context `{Libraries}.

Lemma first_digit_run_of_digits (run post : str) :
  forallb is_digit run = true ->
  match post with [] => True | c :: _ => is_digit c = false end ->
  take_while is_digit (run ++ post) = run.
Proof.
  intros Hrun Hpost. induction run as [|d run IH]; simpl in *.
  - destruct post as [|c post]; simpl; [reflexivity|now rewrite Hpost].
  - apply andb_true_iff in Hrun as [Hd Hrun]. rewrite Hd.
    now rewrite IH.
Qed.

Lemma first_digit_run_split (pre run post : str) :
  forallb not_digit pre = true ->
  forallb is_digit run = true ->
  run <> [] ->
  match post with [] => True | c :: _ => is_digit c = false end ->
  first_digit_run (pre ++ run ++ post) = run.
Proof.
  intros Hpre Hrun Hne Hpost. unfold first_digit_run.
  induction pre as [|p pre IH]; simpl in *.
  - destruct run as [|d run]; [congruence|].
    simpl in *. apply andb_true_iff in Hrun as [Hd Hrun].
    unfold not_digit. rewrite Hd. simpl. rewrite Hd.
    now rewrite first_digit_run_of_digits.
  - apply andb_true_iff in Hpre as [Hp Hpre].
    rewrite Hp. now apply IH.
Qed.

Lemma first_digit_run_none (text : str) :
  forallb not_digit text = true -> first_digit_run text = [].
Proof.
  intros Hno. unfold first_digit_run.
  induction text as [|c text IH]; simpl in *; [reflexivity|].
  apply andb_true_iff in Hno as [Hc Hno].
  rewrite Hc. now apply IH.
Qed.

Lemma forallb_lstrip (p : char -> bool) (s : str) :
  forallb p s = true -> forallb p (lstrip s) = true.
Proof.
  induction s as [|c s IH]; simpl; [reflexivity|].
  intros Hs. destruct (isspace c); [|exact Hs].
  apply andb_true_iff in Hs as [_ Hs]. now apply IH.
Qed.

Lemma forallb_rev (p : char -> bool) (s : str) :
  forallb p s = true -> forallb p (rev s) = true.
Proof.
  rewrite !forallb_forall. intros Hs x Hx. apply Hs.
  now apply in_rev.
Qed.

Lemma forallb_strip (p : char -> bool) (s : str) :
  forallb p s = true -> forallb p (strip s) = true.
Proof.
  intros Hs. unfold strip, rstrip.
  now apply forallb_rev, forallb_lstrip, forallb_rev, forallb_lstrip.
Qed.

Lemma forallb_remove_char (p : char -> bool) (c : char) (s : str) :
  forallb p s = true -> forallb p (remove_char c s) = true.
Proof.
  rewrite !forallb_forall. intros Hs x Hx. apply Hs.
  unfold remove_char in Hx. now apply filter_In in Hx.
Qed.

(** [int] reads a run of digits in base ten, most significant first. *)
Lemma int_of_digits_snoc (digits : str) (c : char) (d : N) :
  digit_value c = Some d ->
  int_of_digits (digits ++ [c]) = 10 * int_of_digits digits + Z.of_N d.
Proof.
  intros Hc. unfold int_of_digits. rewrite fold_left_app. simpl.
  now rewrite Hc.
Qed.

End Digits.

(* ================================================================== *)
(** * The classifier *)
(* ================================================================== *)

(** C2. [is_bestseller] is a function of the two counts and the two
    configured thresholds only: it is true exactly when the read count is
    strictly above [min_read_count] and the interaction count strictly above
    [min_interaction_count]; a count equal to its threshold gives false.
    The sibling class computes the same predicate, and the record of a
    parsed page carries [is_bestseller read_count (like_count +
    collect_count)]. *)
Theorem is_bestseller_strict_thresholds :
  forall (L : Libraries) (self : scraper) (read_count interaction_count : Z),
    (FixedWebScraper.is_bestseller self read_count interaction_count = true
     <-> min_read_count self < read_count
         /\ min_interaction_count self < interaction_count)
    /\ FixedWebScraper.is_bestseller self (min_read_count self)
         interaction_count = false
    /\ FixedWebScraper.is_bestseller self read_count
         (min_interaction_count self) = false
    /\ WebScraper.is_bestseller self read_count interaction_count
       = FixedWebScraper.is_bestseller self read_count interaction_count
    /\ (forall (detail_url : str) (response : Response.t),
          let article :=
            FixedWebScraper.build_article self detail_url response in
          Article.is_bestseller article
          = FixedWebScraper.is_bestseller self
              (Article.read_count article)
              (Article.like_count article + Article.collect_count article)).
Proof.
  intros L self r i. unfold FixedWebScraper.is_bestseller.
  split; [|split; [|split; [|split]]].
  - rewrite andb_true_iff, !Z.ltb_lt. tauto.
  - now rewrite Z.ltb_irrefl.
  - rewrite Z.ltb_irrefl. apply andb_false_r.
  - reflexivity.
  - reflexivity.
Qed.

(* ================================================================== *)
(** * The field extractor *)
(* ================================================================== *)

Section Extraction.
Context `{Libraries}.
Variable self : scraper.

Lemma extract_text_unconfigured soup f max_length :
  configured self f = None ->
  FixedWebScraper.extract_text self soup f max_length = PyStr [].
Proof. intros Hc. unfold FixedWebScraper.extract_text. now rewrite Hc. Qed.

(** Whatever the page holds, a configured selector makes [extract_text]
    return [None]. *)
Lemma extract_text_configured soup f max_length selector :
  configured self f = Some selector ->
  FixedWebScraper.extract_text self soup f max_length = PyNone.
Proof. intros Hc. unfold FixedWebScraper.extract_text. now rewrite Hc. Qed.

Lemma extract_text_never_truthy soup f max_length :
  strval_truthy (FixedWebScraper.extract_text self soup f max_length)
  = false.
Proof.
  unfold FixedWebScraper.extract_text.
  now destruct (configured self f).
Qed.

(** The title of a parsed page never comes from the title selector: it
    is the text of the document's [title] tag, or the URL. *)
Lemma build_article_title detail_url response :
  Article.title (FixedWebScraper.build_article self detail_url response)
  = if truthy (FixedWebScraper.fallback_title (Response.page response))
    then PyStr (FixedWebScraper.fallback_title (Response.page response))
    else PyStr detail_url.
Proof.
  unfold FixedWebScraper.build_article. simpl.
  rewrite extract_text_never_truthy. simpl.
  now destruct (truthy (FixedWebScraper.fallback_title _)).
Qed.

Lemma build_article_title_not_empty detail_url response :
  detail_url <> [] ->
  strval_truthy
    (Article.title (FixedWebScraper.build_article self detail_url response))
  = true.
Proof.
  intros Hurl. rewrite build_article_title.
  destruct (truthy (FixedWebScraper.fallback_title _)) eqn:Ht; simpl.
  - exact Ht.
  - destruct detail_url; [congruence|reflexivity].
Qed.

End Extraction.

(** C1. [extract_text] of [FixedWebScraper] does not return the text of
    the first element its selector matches: on a page whose [h1] reads
    [" Hello "], with the title selector [h1], it returns [None], where the
    sibling method of [configurable_scraper.py] returns ["Hello"]. *)
Theorem extract_text_runs_off_the_end :
  FixedWebScraper.extract_text Demo.config Demo.detail_page f_title None
  = PyNone
  /\ WebScraper.extract_text (H := Demo.libs) Demo.config Demo.detail_page
       f_title None
     = Some (lit "Hello").
Proof. split; reflexivity. Qed.

(** C9. The title of the record of a fetched page is not the text of the
    title selector: on a page whose [h1] reads [" Hello "] and whose [title]
    tag reads [" Page "], with the title selector [h1], the record's title is
    ["Page"]; on the same page without its [title] tag it is the URL. *)
Theorem title_ignores_title_selector :
  Article.title
    (FixedWebScraper.build_article (H := Demo.libs) Demo.config
       (lit "https://site.example/a/1")
       (Demo.response 200 Demo.detail_page))
  = PyStr (lit "Page")
  /\ Article.title
       (FixedWebScraper.build_article (H := Demo.libs) Demo.config
          (lit "https://site.example/a/1")
          (Demo.response 200
             (soup [Demo.tag "h1" [Text (lit " Hello ")]])))
     = PyStr (lit "https://site.example/a/1").
Proof. split; reflexivity. Qed.



(* ================================================================== *)
(** * Running computations *)
(* ================================================================== *)

(** How [bind] runs once the outcome of its first computation is known,
    and how it runs the primitives. *)
Lemma bind_run (A B : Type) (m : M A) (k : A -> M B) (w w' : world) (a : A) :
  m w = (Ok a, w') -> bind m k w = k a w'.
Proof. intros Hm. unfold bind. now rewrite Hm. Qed.

Lemma bind_bind_run (A B C : Type) (m : M A) (k1 : A -> M B)
  (k2 : B -> M C) (w w' : world) (a : A) :
  m w = (Ok a, w') -> bind (bind m k1) k2 w = bind (k1 a) k2 w'.
Proof. intros Hm. unfold bind. now rewrite Hm. Qed.

Lemma bind_raised (A B : Type) (m : M A) (k : A -> M B) (w w' : world)
  (e : pyerror) :
  m w = (Raised e, w') -> bind m k w = (Raised e, w').
Proof. intros Hm. unfold bind. now rewrite Hm. Qed.

Lemma bind_ret (A B : Type) (a : A) (k : A -> M B) (w : world) :
  bind (ret a) k w = k a w.
Proof. reflexivity. Qed.

Lemma bind_read (A B : Type) (f : world -> A) (k : A -> M B) (w : world) :
  bind (read f) k w = k (f w) w.
Proof. reflexivity. Qed.

Lemma bind_modify (B : Type) (f : world -> world) (k : unit -> M B)
  (w : world) :
  bind (modify f) k w = k tt (f w).
Proof. reflexivity. Qed.

Lemma bind_log_message (B : Type) (m : message) (k : unit -> M B)
  (w : world) :
  bind (log_message m) k w = k tt (add_message m w).
Proof. reflexivity. Qed.

Lemma bind_uniform (B : Type) (env : environment) (a b : Q)
  (k : Q -> M B) (w : world) :
  bind (uniform env a b) k w
  = k (a + (b - a) * random env (draws w))%Q (next_draw w).
Proof. reflexivity. Qed.

Lemma sleep_runs (d : Q) (w : world) :
  Qle_bool 0 d = true -> sleep d w = (Ok tt, emit (Sleep d) w).
Proof. intros Hd. unfold sleep. now rewrite Hd. Qed.

Lemma sleep_raises (d : Q) (w : world) :
  Qle_bool 0 d = false -> sleep d w = (Raised ValueError_sleep, w).
Proof. intros Hd. unfold sleep. now rewrite Hd. Qed.

Lemma bind_sleep (B : Type) (d : Q) (k : unit -> M B) (w : world) :
  Qle_bool 0 d = true -> bind (sleep d) k w = k tt (emit (Sleep d) w).
Proof. intros Hd. apply bind_run, sleep_runs, Hd. Qed.

Lemma bind_save_to_csv (B : Type) (env : environment)
  (rows : list Article.t) (k : bool -> M B) (w : world) :
  bind (save_to_csv env rows) k w
  = k (csv_ok env rows) (emit (SaveCsv rows (csv_ok env rows)) w).
Proof. reflexivity. Qed.

(* ================================================================== *)
(** * Frame rules *)
(* ================================================================== *)

Section Frames.
Variables (V : Type) (view : world -> V).

Lemma preserves_ret (A : Type) (a : A) : preserves view (ret a).
Proof. intros w. reflexivity. Qed.

Lemma preserves_raise (A : Type) (e : pyerror) :
  preserves view (@raise A e).
Proof. intros w. reflexivity. Qed.

Lemma preserves_bind (A B : Type) (m : M A) (k : A -> M B) :
  preserves view m -> (forall a, preserves view (k a)) ->
  preserves view (bind m k).
Proof.
  intros Hm Hk w. unfold bind. specialize (Hm w).
  destruct (m w) as [[a|e] w1]; simpl in *.
  - now rewrite Hk.
  - exact Hm.
Qed.

Lemma preserves_modify (f : world -> world) :
  (forall w, view (f w) = view w) -> preserves view (modify f).
Proof. intros Hf w. apply Hf. Qed.

Lemma preserves_read (A : Type) (f : world -> A) : preserves view (read f).
Proof. intros w. reflexivity. Qed.

Lemma preserves_try_except (A : Type) (m : M A) (h : pyerror -> M A) :
  preserves view m -> (forall e, preserves view (h e)) ->
  preserves view (try_except m h).
Proof.
  intros Hm Hh w. unfold try_except. specialize (Hm w).
  destruct (m w) as [[a|e] w1]; simpl in *.
  - exact Hm.
  - now rewrite Hh.
Qed.

End Frames.

Ltac frame_step :=
  first
    [ apply preserves_ret
    | apply preserves_raise
    | apply preserves_read
    | apply preserves_bind
    | apply preserves_modify; intros ?; reflexivity
    | match goal with
      | |- preserves _ (if ?b then _ else _) => destruct b
      | |- preserves _ (match ?x with _ => _ end) => destruct x
      end
    | intro ].

Ltac frame := repeat frame_step.

Section PrimitiveFrames.
Variable env : environment.

Lemma session_get_job url : preserves job_view (session_get env url).
Proof. intros w. reflexivity. Qed.

Lemma uniform_job a b : preserves job_view (uniform env a b).
Proof. intros w. reflexivity. Qed.

Lemma sleep_job d : preserves job_view (sleep d).
Proof. unfold sleep. frame. Qed.

Lemma logger_job l : preserves job_view (logger l).
Proof. unfold logger. frame. Qed.

Lemma log_message_progress m : preserves progress_view (log_message m).
Proof. unfold log_message. frame. Qed.

Lemma log_message_io m : preserves io_view (log_message m).
Proof. unfold log_message. frame. Qed.

Lemma log_message_detail m : preserves detail_view (log_message m).
Proof. unfold log_message. frame. Qed.

Lemma read_is_running_detail c :
  preserves detail_view (read_is_running env c).
Proof. intros w. reflexivity. Qed.

(** Whatever a computation leaves of the whole job state, it leaves of
    the parts of it. *)
Lemma job_to_progress (A : Type) (m : M A) :
  preserves job_view m -> preserves progress_view m.
Proof.
  intros Hm w. specialize (Hm w). unfold job_view in Hm.
  unfold progress_view. inversion Hm as [[Hs Hg Hl Hk Ht Hc]].
  now rewrite Hs, Hl, Hk, Ht, Hc.
Qed.

Lemma job_to_detail (A : Type) (m : M A) :
  preserves job_view m -> preserves detail_view m.
Proof.
  intros Hm w. specialize (Hm w). unfold job_view in Hm.
  unfold detail_view. inversion Hm as [[Hs Hg Hl Hk Ht Hc]].
  now rewrite Hs, Hl, Hk, Hc.
Qed.

Lemma progress_to_detail (A : Type) (m : M A) :
  preserves progress_view m -> preserves detail_view m.
Proof.
  intros Hm w. specialize (Hm w). unfold progress_view in Hm.
  unfold detail_view.
  inversion Hm as [[Hr Ht Hc Hb He Hl Hk Hst Hsc]].
  now rewrite Hc, Hb, He, Hl, Hk, Hsc.
Qed.

End PrimitiveFrames.

(* ================================================================== *)
(** * The fetcher *)
(* ================================================================== *)

Section Fetcher.
Variable env : environment.
Variable self : scraper.

Lemma attempts_job url todo :
  preserves job_view (FixedWebScraper.attempts env self url todo).
Proof.
  induction todo as [|attempt rest IH]; simpl.
  - apply preserves_ret.
  - apply preserves_bind; [apply session_get_job|].
    intros [e|r]; [|apply preserves_ret].
    destruct (clause_of e); try apply preserves_ret;
      (destruct (attempt <? max_retries self - 1);
       [ apply preserves_bind; [apply uniform_job|]; intros jitter;
         apply preserves_bind; [apply sleep_job|]; intros _; exact IH
       | apply preserves_bind; [apply logger_job|]; intros _;
         apply preserves_ret ]).
Qed.

Lemma make_request_job url :
  preserves job_view (FixedWebScraper.make_request env self url).
Proof. apply attempts_job. Qed.

(** A transport-level success ends the request at once, whatever its
    status: one GET, no wait, and the response is returned. *)
Lemma make_request_first_response url w response :
  0 < max_retries self ->
  net env (gets w) url = Responds response ->
  FixedWebScraper.make_request env self url w
  = (Ok (Some response), emit (Get url) (next_get w)).
Proof.
  intros Hpos Hnet. unfold FixedWebScraper.make_request, range.
  destruct (Z.to_nat (max_retries self - 0)) as [|n] eqn:Hn; [lia|].
  simpl. unfold bind, session_get. now rewrite Hnet.
Qed.

(** The jitter [random.uniform(0, 1)] is the value drawn. *)
Lemma unit_uniform (x : Q) : (0 + (1 - 0) * x)%Q = x.
Proof.
  destruct x as [n d]. unfold Qplus, Qminus, Qmult, Qopp. simpl.
  f_equal. destruct n; simpl; now rewrite ?Pos.mul_1_r.
Qed.

Lemma backoff_not_negative (k : Z) (jitter : Q) :
  (0 <= retry_delay self)%Q -> (0 <= jitter)%Q ->
  Qle_bool 0 (retry_delay self * inject_Z (2 ^ k) + jitter) = true.
Proof.
  intros Hd Hj. apply Qle_bool_iff.
  assert (Hp : (0 <= inject_Z (2 ^ k))%Q).
  { change 0%Q with (inject_Z 0). rewrite <- Zle_Qle.
    apply Z.pow_nonneg. lia. }
  pose proof (Qmult_le_0_compat _ _ Hd Hp) as Hm.
  apply (Qplus_le_compat 0 _ 0 _ Hm) in Hj. exact Hj.
Qed.

(** With a retry delay that is not negative a request never raises. *)
Lemma attempts_return url todo :
  (0 <= retry_delay self)%Q -> fair_random env ->
  forall w, exists r w',
    FixedWebScraper.attempts env self url todo w = (Ok r, w').
Proof.
  intros Hd Hr. induction todo as [|attempt rest IH]; intros w; simpl.
  - now exists None, w.
  - unfold bind at 1. unfold session_get at 1.
    destruct (net env (gets w) url) as [e|r]; [|now eexists _, _].
    set (w1 := emit (Get url) (next_get w)).
    assert (Hretry : exists r w',
      (if attempt <? max_retries self - 1
       then jitter <- uniform env 0 1 ;;
            sleep (retry_delay self * inject_Z (2 ^ attempt) + jitter)%Q ;;
            FixedWebScraper.attempts env self url rest
       else logger (FinalFailure (clause_of e) url) ;; ret None) w1
      = (Ok r, w')).
    { destruct (attempt <? max_retries self - 1).
      - unfold bind at 1. unfold uniform at 1. rewrite unit_uniform.
        unfold bind at 1. rewrite sleep_runs.
        + apply IH.
        + apply backoff_not_negative; [exact Hd|apply Hr].
      - now eexists _, _. }
    destruct e; simpl; try exact Hretry. now eexists _, _.
Qed.

Lemma make_request_returns url :
  (0 <= retry_delay self)%Q -> fair_random env ->
  forall w, exists r w',
    FixedWebScraper.make_request env self url w = (Ok r, w').
Proof. intros Hd Hr. now apply attempts_return. Qed.

End Fetcher.

(* ================================================================== *)
(** * Records of detail pages *)
(* ================================================================== *)

(** C3. A response with an error status is not recorded with its status:
    when every GET is answered with status 404, [make_request] returns the
    response after a single GET and no wait, and [parse_article_detail]
    then returns the record of a failed request, with no [status_code] and
    the error tag [request_failed], where the claim has [status_code] 404
    and an error tag for the status. *)
Theorem http_error_recorded_as_request_failed :
  let env := Demo.always (Responds (Demo.response 404 Demo.detail_page)) in
  let url := lit "https://site.example/a/1" in
  FixedWebScraper.make_request env Demo.config url Demo.initial
  = (Ok (Some (Demo.response 404 Demo.detail_page)),
     emit (Get url) (next_get Demo.initial))
  /\ FixedWebScraper.parse_article_detail (H := Demo.libs) env Demo.config
       url Demo.initial
     = (Ok (Some (FixedWebScraper.failed_article url)),
        emit (Get url) (next_get Demo.initial))
  /\ Article.status_code (FixedWebScraper.failed_article url) = None
  /\ Article.error (FixedWebScraper.failed_article url)
     = Some (lit "request_failed").
Proof. repeat split. Qed.

(** C10. When [make_request] yields nothing, [parse_article_detail]
    returns a record whose title, author, publication time, summary and
    content are empty, whose three counters are 0, whose [is_bestseller] is
    false, whose [status_code] is absent and whose error tag is
    [request_failed].  When [make_request] yields a response that passes the
    test [if not response], the page is parsed: the record carries the
    status of the response, its error is absent exactly when the status is
    200, and is [http_] followed by the status in decimal otherwise. *)
Theorem parse_article_detail_record :
  forall (L : Libraries) (env : environment) (self : scraper)
         (detail_url : str) (w w' : world),
    (FixedWebScraper.make_request env self detail_url w = (Ok None, w') ->
     exists article,
       FixedWebScraper.parse_article_detail env self detail_url w
       = (Ok (Some article), w')
       /\ Article.title article = PyStr []
       /\ Article.author article = PyStr []
       /\ Article.publish_time article = PyStr []
       /\ Article.summary article = PyStr []
       /\ Article.content article = []
       /\ Article.read_count article = 0
       /\ Article.like_count article = 0
       /\ Article.collect_count article = 0
       /\ Article.is_bestseller article = false
       /\ Article.status_code article = None
       /\ Article.error article = Some (lit "request_failed")
       /\ Article.detail_url article = detail_url)
    /\ (forall response,
          FixedWebScraper.make_request env self detail_url w
          = (Ok (Some response), w') ->
          Response.ok response = true ->
          exists article,
            FixedWebScraper.parse_article_detail env self detail_url w
            = (Ok (Some article), w')
            /\ Article.status_code article
               = Some (Response.status_code response)
            /\ (Article.error article = None
                <-> Response.status_code response = 200)
            /\ (Response.status_code response <> 200 ->
                Article.error article
                = Some (lit "http_"
                        ++ of_int (Response.status_code response)))
            /\ Article.detail_url article = detail_url).
Proof.
  intros L env self detail_url w w'. split.
  - intros Hreq. exists (FixedWebScraper.failed_article detail_url).
    unfold FixedWebScraper.parse_article_detail.
    rewrite bind_run with (1 := Hreq). simpl. repeat split.
  - intros response Hreq Hok.
    exists (FixedWebScraper.build_article self detail_url response).
    unfold FixedWebScraper.parse_article_detail.
    rewrite bind_run with (1 := Hreq). simpl. rewrite Hok.
    split; [reflexivity|]. split; [reflexivity|].
    unfold FixedWebScraper.build_article. simpl.
    destruct (Response.status_code response =? 200) eqn:Hs.
    + apply Z.eqb_eq in Hs. repeat split; congruence.
    + apply Z.eqb_neq in Hs. repeat split; congruence.
Qed.

Lemma parse_article_detail_record_witness :
  (exists article,
     FixedWebScraper.parse_article_detail (H := Demo.libs)
       (Demo.always (Raises ConnectionError)) Demo.config
       (lit "https://site.example/a/1") Demo.initial
     = (Ok (Some article),
        snd (FixedWebScraper.make_request
               (Demo.always (Raises ConnectionError)) Demo.config
               (lit "https://site.example/a/1") Demo.initial))
     /\ Article.error article = Some (lit "request_failed"))
  /\ (exists article,
        FixedWebScraper.parse_article_detail (H := Demo.libs)
          (Demo.always (Responds (Demo.response 301 Demo.detail_page)))
          Demo.config (lit "https://site.example/a/1") Demo.initial
        = (Ok (Some article),
           emit (Get (lit "https://site.example/a/1"))
             (next_get Demo.initial))
        /\ Article.error article = Some (lit "http_301")).
Proof.
  split.
  - destruct (proj1 (parse_article_detail_record Demo.libs
                       (Demo.always (Raises ConnectionError)) Demo.config
                       (lit "https://site.example/a/1") Demo.initial _)
                eq_refl)
      as [article [Hrun [_ [_ [_ [_ [_ [_ [_ [_ [_ [_ [Herr _]]]]]]]]]]]]].
    exists article. split; [exact Hrun|exact Herr].
  - destruct (proj2 (parse_article_detail_record Demo.libs
                       (Demo.always
                          (Responds (Demo.response 301 Demo.detail_page)))
                       Demo.config
                       (lit "https://site.example/a/1") Demo.initial _)
                (Demo.response 301 Demo.detail_page) eq_refl eq_refl)
      as [article [Hrun [_ [_ [Herr _]]]]].
    exists article. split; [exact Hrun|].
    apply Herr. discriminate.
Defined.

(* ================================================================== *)
(** * Link discovery *)
(* ================================================================== *)

Section Discovery.
Context `{Libraries}.
Variable env : environment.
Variable self : scraper.
Variable has_log_message : bool.

Lemma log_if_present_run (m : message) (w : world) :
  FixedWebScraper.log_if_present has_log_message m w
  = (Ok tt, snd (FixedWebScraper.log_if_present has_log_message m w)).
Proof.
  unfold FixedWebScraper.log_if_present.
  now destruct has_log_message.
Qed.

Lemma log_if_present_io (m : message) :
  preserves io_view (FixedWebScraper.log_if_present has_log_message m).
Proof.
  unfold FixedWebScraper.log_if_present.
  destruct has_log_message; [apply log_message_io|apply preserves_ret].
Qed.

Lemma log_if_present_progress (m : message) :
  preserves progress_view
    (FixedWebScraper.log_if_present has_log_message m).
Proof.
  unfold FixedWebScraper.log_if_present.
  destruct has_log_message;
    [apply log_message_progress|apply preserves_ret].
Qed.

Lemma bind_log_if_present (B : Type) (m : message) (k : unit -> M B)
  (w : world) :
  bind (FixedWebScraper.log_if_present has_log_message m) k w
  = k tt (snd (FixedWebScraper.log_if_present has_log_message m w)).
Proof. apply bind_run, log_if_present_run. Qed.

(** The loop over the selected elements always ends, and touches neither
    the network nor the clock. *)
Lemma scan_runs page_url elements :
  forall i links w, exists links' w',
    FixedWebScraper.scan has_log_message page_url i elements links w
    = (Ok links', w')
    /\ io_view w' = io_view w.
Proof.
  induction elements as [|a rest IH]; intros i links w; simpl.
  - now exists links, w.
  - destruct (FixedWebScraper.examine page_url a) as [|full_url href|shown].
    + apply IH.
    + destruct (i <? 5).
      * rewrite bind_log_if_present.
        destruct (IH (i + 1) (links ++ [full_url])
                    (snd (FixedWebScraper.log_if_present has_log_message
                            (MsgSampleLink (i + 1)
                               (prefix 30 (get_text_strip [] a))
                               (prefix 80 href)) w)))
          as [l' [w' [Hrun Hio]]].
        exists l', w'. split; [exact Hrun|].
        rewrite Hio. apply log_if_present_io.
      * unfold bind at 1. simpl. apply IH.
    + destruct (i <? 5).
      * rewrite bind_log_if_present.
        destruct (IH (i + 1) links
                    (snd (FixedWebScraper.log_if_present has_log_message
                            (MsgSampleLink (i + 1)
                               (prefix 30 (get_text_strip [] a))
                               (prefix 80 shown)) w)))
          as [l' [w' [Hrun Hio]]].
        exists l', w'. split; [exact Hrun|].
        rewrite Hio. apply log_if_present_io.
      * unfold bind at 1. simpl. apply IH.
Qed.

(** When no element passes the filters the loop appends nothing. *)
Lemma scan_all_rejected page_url elements :
  (forall a, In a elements ->
     forall full_url href,
       FixedWebScraper.examine page_url a
       <> FixedWebScraper.Appended full_url href) ->
  forall i links w, exists w',
    FixedWebScraper.scan has_log_message page_url i elements links w
    = (Ok links, w')
    /\ io_view w' = io_view w.
Proof.
  induction elements as [|a rest IH]; intros Hrej i links w; simpl.
  - now exists w.
  - assert (Hrest : forall b, In b rest ->
              forall full_url href,
                FixedWebScraper.examine page_url b
                <> FixedWebScraper.Appended full_url href).
    { intros b Hb. apply Hrej. now right. }
    specialize (IH Hrest).
    pose proof (Hrej a (or_introl eq_refl)) as Ha.
    destruct (FixedWebScraper.examine page_url a) as [|full_url href|shown].
    + apply IH.
    + now contradiction (Ha full_url href).
    + destruct (i <? 5).
      * rewrite bind_log_if_present.
        destruct (IH (i + 1) links
                    (snd (FixedWebScraper.log_if_present has_log_message
                            (MsgSampleLink (i + 1)
                               (prefix 30 (get_text_strip [] a))
                               (prefix 80 shown)) w)))
          as [w' [Hrun Hio]].
        exists w'. split; [exact Hrun|].
        rewrite Hio. apply log_if_present_io.
      * unfold bind at 1. simpl. apply IH.
Qed.

End Discovery.

(** C7, as the program has it.  Let a list page be fetched with a response
    that passes the test [if not response], that is with a status outside
    400 to 599.  If the page holds no [a] tag and the article-links selector
    matches nothing, [fetch_article_links] returns the list whose only
    element is the URL of the page; if the page holds [a] tags and none of
    the selected elements passes the filters, it returns the empty list.
    Neither case touches the network again. *)
Theorem fetch_article_links_degenerate_page :
  forall (L : Libraries) (env : environment) (self : scraper)
         (has_log_message : bool) (page_url : str) (w w1 : world)
         (response : Response.t),
    FixedWebScraper.make_request env self page_url w
    = (Ok (Some response), w1) ->
    Response.ok response = true ->
    let soup := Response.page response in
    let selector := match selectors self f_article_links with
                    | Some s => s
                    | None => lit "a"
                    end in
    (find_all [lit "a"] soup = [] ->
     select selector soup = Some [] ->
     exists w2,
       FixedWebScraper.fetch_article_links env self has_log_message
         page_url w = (Ok [page_url], w2)
       /\ io_view w2 = io_view w1)
    /\ (find_all [lit "a"] soup <> [] ->
        forall elements,
          select selector soup = Some elements ->
          (forall a, In a elements ->
             forall full_url href,
               FixedWebScraper.examine page_url a
               <> FixedWebScraper.Appended full_url href) ->
          exists w2,
            FixedWebScraper.fetch_article_links env self has_log_message
              page_url w = (Ok [], w2)
            /\ io_view w2 = io_view w1).
Proof.
  intros L env self has_log page_url w w1 response Hreq Hok soup selector.
  unfold FixedWebScraper.fetch_article_links.
  rewrite bind_run with (1 := Hreq). unfold FixedWebScraper.usable.
  rewrite Hok. rewrite !bind_log_if_present.
  fold soup. fold selector. split.
  - intros Hnone Hsel. rewrite Hsel, Hnone.
    rewrite bind_log_if_present. simpl FixedWebScraper.scan.
    unfold bind at 1. unfold ret at 1.
    rewrite bind_log_if_present. simpl.
    rewrite bind_log_if_present.
    eexists. split; [reflexivity|].
    now rewrite !log_if_present_io.
  - intros Hsome elements Hsel Hrej. rewrite Hsel.
    rewrite bind_log_if_present.
    match goal with
    | |- context [bind (FixedWebScraper.scan _ _ _ _ _) _ ?w0] =>
        destruct (scan_all_rejected has_log page_url elements Hrej 0 [] w0)
          as [w' [Hscan Hio]]
    end.
    rewrite bind_run with (1 := Hscan).
    rewrite bind_log_if_present.
    destruct (find_all [lit "a"] soup) as [|a0 rest] eqn:Ha; [congruence|].
    simpl.
    eexists. split; [reflexivity|].
    rewrite log_if_present_io, Hio.
    now rewrite !log_if_present_io.
Qed.

Lemma fetch_article_links_degenerate_page_witness :
  (exists w2,
     FixedWebScraper.fetch_article_links (H := Demo.libs)
       (Demo.always (Responds (Demo.response 200 Demo.article_page)))
       Demo.config true (lit "https://site.example/a/1") Demo.initial
     = (Ok [lit "https://site.example/a/1"], w2)
     /\ io_view w2
        = io_view (emit (Get (lit "https://site.example/a/1"))
                     (next_get Demo.initial)))
  /\ (exists w2,
        FixedWebScraper.fetch_article_links (H := Demo.libs)
          (Demo.always (Responds (Demo.response 200 Demo.list_page_none)))
          Demo.config true (lit "https://site.example/list") Demo.initial
        = (Ok [], w2)
        /\ io_view w2
           = io_view (emit (Get (lit "https://site.example/list"))
                        (next_get Demo.initial))).
Proof.
  split.
  - apply (proj1 (fetch_article_links_degenerate_page Demo.libs
                    (Demo.always
                       (Responds (Demo.response 200 Demo.article_page)))
                    Demo.config true (lit "https://site.example/a/1")
                    Demo.initial eq_refl eq_refl));
      reflexivity.
  - apply (proj2 (fetch_article_links_degenerate_page Demo.libs
                    (Demo.always
                       (Responds (Demo.response 200 Demo.list_page_none)))
                    Demo.config true (lit "https://site.example/list")
                    Demo.initial eq_refl eq_refl)
             ltac:(discriminate)
             [Demo.anchor "https://site.example/top" "Top"] eq_refl).
    intros a [Ha|[]] full_url href. subst a. discriminate.
Defined.

(** C7 as stated does not hold for every list page: a page without any
    [a] tag, on which the selector matches nothing, answered with status
    404, yields the empty list and not the list of its own URL. *)
Lemma error_page_yields_no_links :
  let url := lit "https://site.example/list" in
  let env := Demo.always (Responds (Demo.response 404 Demo.article_page)) in
  find_all [lit "a"] Demo.article_page = []
  /\ select (Libraries := Demo.libs) (lit "a") Demo.article_page = Some []
  /\ fst (FixedWebScraper.fetch_article_links (H := Demo.libs) env
            Demo.config true url Demo.initial) = Ok []
  /\ fst (FixedWebScraper.fetch_article_links (H := Demo.libs) env
            Demo.config true url Demo.initial) <> Ok [url].
Proof.
  intros url env. split; [reflexivity|]. split; [reflexivity|].
  split; [reflexivity|]. vm_compute. discriminate.
Qed.

(* ================================================================== *)
(** * Retries *)
(* ================================================================== *)

Section Retries.
Variable env : environment.
Variable self : scraper.
Variable url : str.

Hypothesis always_timeout :
  forall n, exists e, net env n url = Raises e /\ is_timeout e = true.
Hypothesis delay_not_negative : (0 <= retry_delay self)%Q.
Hypothesis random_fair : fair_random env.

Lemma attempts_all_timeouts (g0 d0 : nat) :
  forall (m a : nat) (w : world),
    max_retries self = Z.of_nat (a + m) ->
    gets w = (g0 + a)%nat ->
    draws w = (d0 + a)%nat ->
    exists w',
      FixedWebScraper.attempts env self url (map Z.of_nat (seq a m)) w
      = (Ok None, w')
      /\ trace w' = trace w ++ flat_map (attempt_events env self url g0 d0 (a + m)) (seq a m)
      /\ gets w' = (gets w + m)%nat.
Proof.
  induction m as [|m IH]; intros a w Hmax Hg Hd.
  - exists w. simpl. rewrite app_nil_r. repeat split. lia.
  - simpl. unfold bind at 1. unfold session_get at 1.
    destruct (always_timeout (gets w)) as [e [Hnet Htime]].
    rewrite Hnet.
    set (w1 := emit (Get url) (next_get w)).
    assert (Hclause : clause_at env url (g0 + a) = clause_of e).
    { unfold clause_at. now rewrite <- Hg, Hnet. }
    assert (Hstep : exists w',
      (if Z.of_nat a <? max_retries self - 1
       then jitter <- uniform env 0 1 ;;
            sleep (retry_delay self * inject_Z (2 ^ Z.of_nat a)
                   + jitter)%Q ;;
            FixedWebScraper.attempts env self url
              (map Z.of_nat (seq (S a) m))
       else logger (FinalFailure (clause_of e) url) ;; ret None) w1
      = (Ok None, w')
      /\ trace w' = trace w ++ attempt_events env self url g0 d0 (a + S m) a
                    ++ flat_map (attempt_events env self url g0 d0 (a + S m)) (seq (S a) m)
      /\ gets w' = (gets w + S m)%nat).
    { destruct (Z.of_nat a <? max_retries self - 1) eqn:Hlast.
      - apply Z.ltb_lt in Hlast.
        assert (Hnat : (S a <? a + S m)%nat = true)
          by (apply Nat.ltb_lt; lia).
        unfold bind at 1. unfold uniform at 1. rewrite unit_uniform.
        unfold bind at 1. rewrite sleep_runs
          by (apply backoff_not_negative; [assumption|apply random_fair]).
        destruct (IH (S a)
                    (emit (Sleep (retry_delay self
                                  * inject_Z (2 ^ Z.of_nat a)
                                  + random env (draws w1))) (next_draw w1)))
          as [w' [Hrun [Htrace Hgets]]].
        + rewrite Hmax. f_equal. lia.
        + simpl. lia.
        + simpl. lia.
        + exists w'. split; [exact Hrun|]. split.
          * rewrite Htrace. simpl. unfold attempt_events at 2. rewrite Hnat.
            unfold backoff. rewrite <- Hd.
            replace (a + S m)%nat with (S a + m)%nat by lia.
            now rewrite <- !app_assoc.
          * rewrite Hgets. simpl. lia.
      - apply Z.ltb_ge in Hlast.
        assert (Hm : m = 0%nat) by lia. subst m.
        assert (Hnat : (S a <? a + 1)%nat = false)
          by (apply Nat.ltb_ge; lia).
        exists (emit (Logged (FinalFailure (clause_of e) url)) w1).
        split; [reflexivity|]. split.
        + simpl. unfold attempt_events. rewrite Hnat, Hclause.
          now rewrite <- !app_assoc.
        + simpl. lia. }
    destruct e; try discriminate Htime; simpl; exact Hstep.
Qed.

Lemma attempt_events_gets (g0 d0 total : nat) :
  forall m a,
    length (filter is_get (flat_map (attempt_events env self url g0 d0 total) (seq a m))) = m.
Proof.
  induction m as [|m IH]; intros a; [reflexivity|].
  cbn [seq flat_map]. rewrite filter_app, length_app, IH.
  unfold attempt_events. now destruct (S a <? total)%nat.
Qed.

Lemma failed_attempts_gets (g0 d0 n : nat) :
  length (filter is_get (failed_attempts env self url g0 d0 n)) = n.
Proof. apply attempt_events_gets. Qed.

End Retries.




(** A negative retry delay makes the first wait raise: one GET, and an
    exception instead of a result. *)
Lemma make_request_negative_delay :
  FixedWebScraper.make_request (Demo.always (Raises ReadTimeout))
    Demo.config_negative_delay (lit "https://site.example/list")
    Demo.initial
  = (Raised ValueError_sleep,
     next_draw (emit (Get (lit "https://site.example/list"))
                  (next_get Demo.initial))).
Proof. reflexivity. Qed.

(* ================================================================== *)
(** * The page stage *)
(* ================================================================== *)

Lemma uniform_not_negative (a b u : Q) :
  (0 <= a)%Q -> (0 <= b)%Q -> (0 <= u)%Q -> (u < 1)%Q ->
  Qle_bool 0 (a + (b - a) * u) = true.
Proof.
  intros Ha Hb Hu Hu1. apply Qle_bool_iff.
  assert (Heq : (a + (b - a) * u == a * (1 - u) + b * u)%Q) by ring.
  rewrite Heq.
  assert (H1u : (0 <= 1 - u)%Q).
  { apply Qlt_le_weak in Hu1.
    apply (Qplus_le_compat u 1 (- u) (- u)) in Hu1; [|apply Qle_refl].
    assert (Hz : (u + - u == 0)%Q) by ring.
    rewrite Hz in Hu1. exact Hu1. }
  pose proof (Qmult_le_0_compat _ _ Ha H1u) as H1.
  pose proof (Qmult_le_0_compat _ _ Hb Hu) as H2.
  apply (Qplus_le_compat 0 _ 0 _ H1) in H2. exact H2.
Qed.

Lemma flag_unchanged (w : world) :
  set_status (set_running (is_running (scraping_status w))) w = w.
Proof. destruct w as [g d t [r ta ca bf lm er] gl la ck st sc]. reflexivity. Qed.

Lemma read_is_running_true (env : environment) (c : checkpoint) (w : world) :
  is_running (scraping_status w) = true ->
  stop_pressed env c = false ->
  read_is_running env c w = (Ok true, w).
Proof.
  intros Hrun Hstop. unfold read_is_running.
  rewrite Hstop, Hrun. simpl. f_equal.
  rewrite <- Hrun. apply flag_unchanged.
Qed.

Lemma read_is_running_stopped (env : environment) (c : checkpoint)
  (w : world) :
  stop_pressed env c = true ->
  read_is_running env c w = (Ok false, set_status (set_running false) w).
Proof.
  intros Hstop. unfold read_is_running.
  rewrite Hstop, andb_false_r. reflexivity.
Qed.

Section PageStage.
Context `{Libraries}.
Variable env : environment.
Variable self : scraper.

Lemma scan_progress has_log page_url elements :
  forall i links,
    preserves progress_view
      (FixedWebScraper.scan has_log page_url i elements links).
Proof.
  induction elements as [|a rest IH]; intros i links; simpl.
  - apply preserves_ret.
  - destruct (FixedWebScraper.examine page_url a); [apply IH| |];
      (apply preserves_bind;
       [ destruct (i <? 5);
         [apply log_if_present_progress|apply preserves_ret]
       | intros _; apply IH ]).
Qed.

Lemma fetch_article_links_progress has_log page_url :
  preserves progress_view
    (FixedWebScraper.fetch_article_links env self has_log page_url).
Proof.
  unfold FixedWebScraper.fetch_article_links.
  apply preserves_bind.
  { apply job_to_progress, make_request_job. }
  intros response. destruct (FixedWebScraper.usable response).
  - apply preserves_bind; [apply log_if_present_progress|]. intros _.
    apply preserves_bind; [apply log_if_present_progress|]. intros _.
    destruct (select _ _); [|apply preserves_ret].
    apply preserves_bind; [apply log_if_present_progress|]. intros _.
    apply preserves_bind; [apply scan_progress|]. intros links.
    apply preserves_bind; [apply log_if_present_progress|]. intros _.
    destruct links; [|apply preserves_ret].
    destruct (_ =? 0); [|apply preserves_ret].
    apply preserves_bind; [apply log_if_present_progress|]. intros _.
    apply preserves_ret.
  - apply preserves_bind; [apply log_if_present_progress|]. intros _.
    apply preserves_ret.
Qed.

(** With a retry delay that is not negative link discovery never raises. *)
Lemma fetch_article_links_returns has_log page_url :
  (0 <= retry_delay self)%Q -> fair_random env ->
  forall w, exists links w',
    FixedWebScraper.fetch_article_links env self has_log page_url w
    = (Ok links, w').
Proof.
  intros Hd Hr w. unfold FixedWebScraper.fetch_article_links.
  destruct (make_request_returns self page_url Hd Hr w) as [r [w1 Hreq]].
  rewrite bind_run with (1 := Hreq).
  destruct (FixedWebScraper.usable r) as [response|].
  - rewrite !bind_log_if_present.
    destruct (select _ _) as [elements|]; [|now eexists _, _].
    rewrite bind_log_if_present.
    match goal with
    | |- context [bind (FixedWebScraper.scan _ _ _ _ _) _ ?w0] =>
        destruct (scan_runs has_log page_url elements 0 [] w0)
          as [links [w' [Hscan _]]]
    end.
    rewrite bind_run with (1 := Hscan).
    rewrite bind_log_if_present.
    destruct links; [|now eexists _, _].
    destruct (_ =? 0); [|now eexists _, _].
    rewrite bind_log_if_present. now eexists _, _.
  - rewrite bind_log_if_present. now eexists _, _.
Qed.

Lemma web_pages_detail base_url todo :
  forall all_links,
    preserves detail_view
      (WebScraperWithProgress.pages env self base_url todo all_links).
Proof.
  induction todo as [|page rest IH]; intros all_links; simpl.
  - apply preserves_ret.
  - apply preserves_bind; [apply read_is_running_detail|].
    intros [|].
    + apply preserves_bind; [apply log_message_detail|]. intros _.
      apply preserves_bind.
      { apply progress_to_detail, fetch_article_links_progress. }
      intros [|l links].
      * apply preserves_bind; [apply log_message_detail|]. intros _.
        apply IH.
      * apply preserves_bind.
        { apply preserves_modify. intros w. reflexivity. }
        intros _. apply preserves_bind.
        { apply job_to_detail, uniform_job. }
        intros delay. apply preserves_bind.
        { apply job_to_detail, sleep_job. }
        intros _. apply IH.
    + apply preserves_bind.
      { apply job_to_detail, logger_job. }
      intros _. apply preserves_ret.
Qed.

Lemma web_fetch_multiple_pages_detail base_url max_pages :
  preserves detail_view
    (WebScraperWithProgress.fetch_multiple_pages env self base_url
       max_pages).
Proof.
  unfold WebScraperWithProgress.fetch_multiple_pages.
  apply preserves_bind; [apply web_pages_detail|]. intros all_links.
  apply preserves_bind; [apply log_message_detail|]. intros _.
  apply preserves_ret.
Qed.

(** A page without links is logged, and the loop goes on with the pages
    that remain ([WebScraperWithProgress.fetch_multiple_pages]). *)
Lemma web_empty_page_continues base_url page rest all_links w w2 :
  is_running (scraping_status w) = true ->
  stop_pressed env (AtPage page) = false ->
  FixedWebScraper.fetch_article_links env self true
    (page_url_of base_url page)
    (add_message (MsgFetchingPage page (page_url_of base_url page)) w)
  = (Ok [], w2) ->
  WebScraperWithProgress.pages env self base_url (page :: rest) all_links w
  = WebScraperWithProgress.pages env self base_url rest all_links
      (add_message (MsgPageNoArticles page) w2).
Proof.
  intros Hrun Hstop Hfetch. simpl.
  rewrite bind_run with (1 := read_is_running_true env _ w Hrun Hstop).
  unfold bind at 1. unfold log_message at 1, modify at 1.
  rewrite bind_run with (1 := Hfetch).
  reflexivity.
Qed.

(** The same for [FixedWebScraper.fetch_multiple_pages], whose record
    goes to the log file. *)
Lemma base_empty_page_continues has_log base_url page rest all_links w w2 :
  FixedWebScraper.fetch_article_links env self has_log
    (page_url_of base_url page) w = (Ok [], w2) ->
  FixedWebScraper.pages env self has_log base_url (page :: rest) all_links w
  = FixedWebScraper.pages env self has_log base_url rest all_links
      (emit (Logged (PageEmpty page)) w2).
Proof.
  intros Hfetch. simpl. rewrite bind_run with (1 := Hfetch). reflexivity.
Qed.

End PageStage.



(** The whole job on the two-page site: the second list page is fetched
    after the first, then the two articles; the job ends with
    [total_articles] equal to 2. *)
Lemma two_page_job_completes :
  let run := WebScraperWithProgress.run_scraper (H := Demo.libs)
               Demo.two_page_site Demo.config Demo.initial in
  fst run = Ok tt
  /\ total_articles (scraping_status (snd run)) = 2
  /\ is_running (scraping_status (snd run)) = false
  /\ filter is_get (trace (snd run))
     = [Get (lit "https://site.example/list");
        Get (lit "https://site.example/list?page=2");
        Get (lit "https://site.example/a/1");
        Get (lit "https://site.example/a/2")].
Proof. vm_compute. repeat split. Qed.

(* ================================================================== *)
(** * The detail stage and the end of the job *)
(* ================================================================== *)

Section DetailStage.
Context `{Libraries}.
Variable env : environment.
Variable self : scraper.

Hypothesis delay_not_negative : (0 <= retry_delay self)%Q.
Hypothesis random_fair : fair_random env.

(** Processing a link never raises; it moves the two counters of the
    current article to the next value and leaves the running flag, the
    error and the keywords alone. *)
Lemma web_parse_article_detail_runs (detail_url : str) (w : world) :
  exists article w2,
    WebScraperWithProgress.parse_article_detail env self detail_url w
    = (Ok (Some article), w2)
    /\ is_running (scraping_status w2) = is_running (scraping_status w)
    /\ error (scraping_status w2) = error (scraping_status w)
    /\ current_article (scraping_status w2) = self_current_article w + 1
    /\ current_keywords w2 = current_keywords w.
Proof.
  unfold WebScraperWithProgress.parse_article_detail.
  rewrite bind_read, bind_modify, bind_read, bind_log_message.
  unfold FixedWebScraper.parse_article_detail.
  match goal with
  | |- context [bind (bind (FixedWebScraper.make_request _ _ _) _) _ ?w0] =>
      destruct (make_request_returns self detail_url delay_not_negative
                  random_fair w0) as [r [w1 Hreq]];
      pose proof (make_request_job env self detail_url w0) as Hjob;
      rewrite Hreq in Hjob; unfold job_view in Hjob; simpl in Hjob;
      injection Hjob as Hs Hg Hl Hk Ht Hc
  end.
  assert (Hparse : forall article,
    exists w2,
      ((if Article.is_bestseller article
        then found <- read (fun w => bestsellers_found (scraping_status w)) ;;
             modify (set_status (set_found (found + 1))) ;;
             log_message (MsgBestseller (Article.title article))
        else ret tt) ;; ret (Some article)) w1 = (Ok (Some article), w2)
      /\ is_running (scraping_status w2) = is_running (scraping_status w)
      /\ error (scraping_status w2) = error (scraping_status w)
      /\ current_article (scraping_status w2) = self_current_article w + 1
      /\ current_keywords w2 = current_keywords w).
  { intros article. destruct (Article.is_bestseller article).
    - eexists. split; [reflexivity|]. simpl. rewrite Hs, Hk. simpl.
      repeat split.
    - eexists. split; [reflexivity|]. simpl. rewrite Hs, Hk. simpl.
      repeat split. }
  rewrite bind_bind_run with (1 := Hreq).
  destruct (FixedWebScraper.usable r) as [response|]; rewrite bind_ret.
  - destruct (Hparse (FixedWebScraper.build_article self detail_url
                        response)) as [w2 [Hrun Hfacts]].
    exists (FixedWebScraper.build_article self detail_url response), w2.
    split; [exact Hrun|exact Hfacts].
  - destruct (Hparse (FixedWebScraper.failed_article detail_url))
      as [w2 [Hrun Hfacts]].
    exists (FixedWebScraper.failed_article detail_url), w2.
    split; [exact Hrun|exact Hfacts].
Qed.

End DetailStage.

Section JobEnd.
Context `{Libraries}.
Variable env : environment.
Variable self : scraper.

(** Whatever happens in the job, [run_scraper] ends with the flag
    [is_running] cleared. *)
Lemma run_scraper_clears_flag (w : world) :
  is_running
    (scraping_status (snd (WebScraperWithProgress.run_scraper env self w)))
  = false.
Proof.
  unfold WebScraperWithProgress.run_scraper, try_finally.
  now destruct (try_except _ _ w).
Qed.

(** Saving, reporting and publishing the rows: the end of the [try]
    block. *)
Lemma job_tail_runs (keywords : list str) (rows : list Article.t)
  (w : world) :
  exists wj,
    (written <- save_to_csv env rows ;;
     (if written then
        log_message
          (match keywords with
           | [] => MsgDone (Z.of_nat (length rows))
           | _ :: _ => MsgDoneKeywords keywords (Z.of_nat (length rows))
           end) ;;
        log_message MsgSaved
      else log_message MsgSaveFailed) ;;
     modify (WebScraperWithProgress.set_last_articles rows)) w
    = (Ok tt, wj)
    /\ trace wj = trace w ++ [SaveCsv rows (csv_ok env rows)]
    /\ last_articles wj = rows
    /\ current_article (scraping_status wj)
       = current_article (scraping_status w)
    /\ error (scraping_status wj) = error (scraping_status w).
Proof.
  rewrite bind_save_to_csv.
  destruct (csv_ok env rows); eexists; (split; [reflexivity|]);
    simpl; repeat split.
Qed.

End JobEnd.

(** C6. [run_scraper] always ends with [is_running] false, also when the
    job raises.  And when the page stage has found five links and a stop
    request arrives after the first of them was processed (the flag is
    still set when the loop reads it for the first link, and cleared when
    it reads it for the second), the job processes the first link only: it
    ends without an error, with [is_running] false and [current_article]
    equal to 1; the rows it saves and publishes are the record of the first
    link if that record passed the filters; and after the first link was
    processed the trace holds no GET, only the politeness wait and the
    write of the rows. *)
Theorem stop_request_ends_detail_loop :
  forall (L : Libraries) (env : environment) (self : scraper),
    (forall w,
       is_running
         (scraping_status
            (snd (WebScraperWithProgress.run_scraper env self w)))
       = false)
    /\ (forall w links w1,
          well_configured self ->
          fair_random env ->
          WebScraperWithProgress.fetch_multiple_pages env self
            (base_url self) (max_pages self) (prologue w)
          = (Ok links, w1) ->
          length links = 5%nat ->
          is_running (scraping_status w1) = true ->
          stop_pressed env (AtLink 0) = false ->
          stop_pressed env (AtLink 1) = true ->
          exists link rest article w2 naps wf,
            links = link :: rest
            /\ WebScraperWithProgress.parse_article_detail env self link w1
               = (Ok (Some article), w2)
            /\ WebScraperWithProgress.run_scraper env self w = (Ok tt, wf)
            /\ is_running (scraping_status wf) = false
            /\ current_article (scraping_status wf) = 1
            /\ error (scraping_status wf) = None
            /\ (let rows :=
                  if WebScraperWithProgress.kept (current_keywords w) article
                  then [article] else [] in
                last_articles wf = rows
                /\ trace wf
                   = trace w2 ++ naps ++ [SaveCsv rows (csv_ok env rows)])
            /\ filter is_get naps = []).
Proof.
  intros L env self. split; [apply run_scraper_clears_flag|].
  intros w links w1 [Hretry [Hmin [Hmax _]]] Hfair Hpages Hlen Hrun1
         Hstop0 Hstop1.
  destruct links as [|link [|link2 rest]]; try discriminate Hlen.
  pose proof (web_fetch_multiple_pages_detail env self (base_url self)
                (max_pages self) (prologue w)) as Hview.
  rewrite Hpages in Hview. unfold detail_view in Hview. simpl in Hview.
  injection Hview as Hcur Hfound Herr Hlast Hkw Hself.
  destruct (web_parse_article_detail_runs self Hretry Hfair link w1)
    as [article [w2 [Hparse [Hrun2 [Herr2 [Hcur2 Hkw2]]]]]].
  set (rows := if WebScraperWithProgress.kept (current_keywords w) article
               then [article] else []).
  assert (Hdetails : exists naps w3,
    WebScraperWithProgress.details env self 0 (link :: link2 :: rest)
      (current_keywords w1) [] w1
    = (Ok rows, add_message MsgStopped (set_status (set_running false) w3))
    /\ trace w3 = trace w2 ++ naps
    /\ filter is_get naps = []
    /\ scraping_status w3 = scraping_status w2).
  { cbn [WebScraperWithProgress.details].
    rewrite bind_run with (1 := read_is_running_true env _ w1 Hrun1 Hstop0).
    rewrite bind_run with (1 := Hparse).
    rewrite Hkw. unfold rows.
    destruct (WebScraperWithProgress.kept (current_keywords w) article).
    - rewrite bind_uniform, bind_sleep
        by (apply uniform_not_negative; try assumption; apply Hfair).
      cbn [WebScraperWithProgress.details].
      rewrite bind_run with (1 := read_is_running_stopped env _ _ Hstop1).
      rewrite bind_log_message.
      eexists _, _. split; [reflexivity|]. simpl. repeat split.
    - cbn [WebScraperWithProgress.details].
      rewrite bind_run with (1 := read_is_running_stopped env _ _ Hstop1).
      rewrite bind_log_message.
      exists [], w2. split; [reflexivity|].
      rewrite app_nil_r. repeat split. }
  destruct Hdetails as [naps [w3 [Hdetails [Htrace [Hnaps Hstatus]]]]].
  destruct (job_tail_runs env (current_keywords w1) rows
              (add_message MsgStopped (set_status (set_running false) w3)))
    as [wj [Htail [Htrj [Hlastj [Hcurj Herrj]]]]].
  assert (Hjob : WebScraperWithProgress.job env self w = (Ok tt, wj)).
  { unfold WebScraperWithProgress.job.
    rewrite bind_log_message, bind_modify, bind_log_message.
    change (add_message MsgStart
              (WebScraperWithProgress.reset (add_message MsgInit w)))
      with (prologue w).
    rewrite bind_run with (1 := Hpages).
    rewrite bind_read.
    rewrite bind_run with (1 := Hdetails).
    exact Htail. }
  exists link, (link2 :: rest), article, w2, naps,
         (set_status (set_running false) wj).
  split; [reflexivity|]. split; [exact Hparse|]. split.
  { unfold WebScraperWithProgress.run_scraper, try_finally, try_except.
    now rewrite Hjob. }
  split; [reflexivity|]. split.
  { simpl. rewrite Hcurj. simpl. rewrite Hstatus, Hcur2. simpl in Hself.
    rewrite Hself. reflexivity. }
  split.
  { simpl. rewrite Herrj. simpl. rewrite Hstatus, Herr2.
    simpl in Herr. exact Herr. }
  split; [|exact Hnaps].
  split.
  { simpl. exact Hlastj. }
  simpl. rewrite Htrj. simpl. rewrite Htrace.
  now rewrite <- app_assoc.
Qed.

Lemma stop_request_ends_detail_loop_witness :
  exists wf,
    WebScraperWithProgress.run_scraper (H := Demo.libs) Demo.stopped_site
      Demo.config_one_page Demo.initial = (Ok tt, wf)
    /\ is_running (scraping_status wf) = false
    /\ current_article (scraping_status wf) = 1
    /\ error (scraping_status wf) = None.
Proof.
  destruct (proj2 (stop_request_ends_detail_loop Demo.libs
                     Demo.stopped_site Demo.config_one_page)
              Demo.initial
              [lit "https://site.example/a/1"; lit "https://site.example/a/2";
               lit "https://site.example/a/3"; lit "https://site.example/a/4";
               lit "https://site.example/a/5"]
              (snd (WebScraperWithProgress.fetch_multiple_pages
                      (H := Demo.libs) Demo.stopped_site
                      Demo.config_one_page
                      (base_url Demo.config_one_page)
                      (max_pages Demo.config_one_page)
                      (prologue Demo.initial))))
    as [link [rest [article [w2 [naps [wf
         [_ [_ [Hrun [Hflag [Hcur [Herr _]]]]]]]]]]]].
  - repeat split; discriminate.
  - intros n. split; [discriminate|reflexivity].
  - vm_compute. reflexivity.
  - reflexivity.
  - vm_compute. reflexivity.
  - reflexivity.
  - reflexivity.
  - exists wf. repeat split; assumption.
Defined.

(** The job of the example saves the record of the first article, after
    two GETs: the list page and the first article. *)
Lemma stopped_job_saves_first_record :
  let wf := snd (WebScraperWithProgress.run_scraper (H := Demo.libs)
                   Demo.stopped_site Demo.config_one_page Demo.initial) in
  map Article.detail_url (last_articles wf)
  = [lit "https://site.example/a/1"]
  /\ filter is_get (trace wf)
     = [Get (lit "https://site.example/list");
        Get (lit "https://site.example/a/1")].
Proof. vm_compute. split; reflexivity. Qed.

(** An internal failure: with a negative retry delay and a site that
    times out, the first wait raises; the job records the error and still
    clears [is_running]. *)
Lemma failed_job_clears_flag :
  let wf := snd (WebScraperWithProgress.run_scraper (H := Demo.libs)
                   (Demo.always (Raises ReadTimeout))
                   Demo.config_negative_delay Demo.initial) in
  error (scraping_status wf) = Some ValueError_sleep
  /\ is_running (scraping_status wf) = false
  /\ last (log_messages (scraping_status wf)) MsgInit
     = MsgError ValueError_sleep.
Proof. vm_compute. repeat split. Qed.

(* ================================================================== *)
(** * The configuration manager *)
(* ================================================================== *)

Section ConfigGet.
Import FixedConfigManager.

Lemma split_not_empty (sep : char) (s : str) : split sep s <> [].
Proof.
  destruct s as [|c s]; simpl; [discriminate|].
  destruct (char_eqb c sep); [discriminate|].
  destruct (split sep s); discriminate.
Qed.

Lemma split_app (sep : char) (p q : str) :
  split sep (p ++ sep :: q) = split sep p ++ split sep q.
Proof.
  induction p as [|c p IH]; simpl.
  - unfold char_eqb. now rewrite N.eqb_refl.
  - destruct (char_eqb c sep); [now rewrite IH|].
    rewrite IH. pose proof (split_not_empty sep p) as Hne.
    destruct (split sep p); [congruence|reflexivity].
Qed.

Lemma split_without_separator (sep : char) (s : str) :
  forallb (fun c => negb (char_eqb c sep)) s = true -> split sep s = [s].
Proof.
  induction s as [|c s IH]; simpl; [reflexivity|].
  intros Hs. apply andb_true_iff in Hs as [Hc Hs].
  apply negb_true_iff in Hc. rewrite Hc, IH by exact Hs. reflexivity.
Qed.

Lemma descend_app (keys1 keys2 : list str) (v : value) :
  descend (keys1 ++ keys2) v
  = match descend keys1 v with
    | Some v' => descend keys2 v'
    | None => None
    end.
Proof.
  revert v. induction keys1 as [|key rest IH]; intros v; simpl.
  - reflexivity.
  - destruct v; try reflexivity.
    destruct (item key items); [apply IH|reflexivity].
Qed.

Lemma descend_from_none (keys : list str) :
  keys <> [] -> descend keys VNone = None.
Proof. destruct keys; [congruence|reflexivity]. Qed.

End ConfigGet.

(** X1. Looking up a dotted path is looking up its first part and then
    the rest in what was found: [get] of ["p.q"] is [get] of ["q"] in the
    value [get] finds at ["p"], with the same default when either step
    fails. *)
Theorem config_get_composes :
  forall (config : FixedConfigManager.value) (p q : str)
         (default : FixedConfigManager.value),
    FixedConfigManager.get config (p ++ lit "." ++ q) default
    = FixedConfigManager.get
        (FixedConfigManager.get config p FixedConfigManager.VNone)
        q default.
Proof.
  intros config p q default. unfold FixedConfigManager.get.
  change (p ++ lit "." ++ q) with (p ++ FixedConfigManager.dot :: q).
  rewrite split_app, descend_app.
  destruct (FixedConfigManager.descend
              (FixedConfigManager.split FixedConfigManager.dot p) config)
    as [v|]; [reflexivity|].
  rewrite descend_from_none by apply split_not_empty. reflexivity.
Qed.

(** X2. [get] never fails: on a configuration that is not a dictionary
    it returns the default whatever the path; on a dictionary and a key
    without a dot it returns the value stored under the key, also when that
    value is [None], and the default only when the key is absent. *)
Theorem config_get_default :
  forall (key : str) (default : FixedConfigManager.value),
    (forall config,
       (forall items, config <> FixedConfigManager.VDict items) ->
       FixedConfigManager.get config key default = default)
    /\ (forall items,
          forallb (fun c => negb (char_eqb c FixedConfigManager.dot)) key
          = true ->
          FixedConfigManager.get (FixedConfigManager.VDict items) key default
          = match FixedConfigManager.item key items with
            | Some v => v
            | None => default
            end).
Proof.
  intros key default. split.
  - intros config Hnot. unfold FixedConfigManager.get.
    pose proof (split_not_empty FixedConfigManager.dot key) as Hne.
    destruct (FixedConfigManager.split FixedConfigManager.dot key)
      as [|k ks]; [congruence|].
    destruct config; try reflexivity. now contradiction (Hnot items).
  - intros items Hkey. unfold FixedConfigManager.get.
    rewrite split_without_separator by exact Hkey. simpl.
    now destruct (FixedConfigManager.item key items).
Qed.

Lemma config_get_default_witness :
  FixedConfigManager.get (FixedConfigManager.VList []) (lit "scraping")
    (FixedConfigManager.VInt 3)
  = FixedConfigManager.VInt 3
  /\ FixedConfigManager.get
       (FixedConfigManager.VDict
          [(lit "max_pages", FixedConfigManager.VNone)])
       (lit "max_pages") (FixedConfigManager.VInt 1)
     = FixedConfigManager.VNone.
Proof.
  split.
  - apply (proj1 (config_get_default (lit "scraping")
                    (FixedConfigManager.VInt 3))).
    discriminate.
  - apply (proj2 (config_get_default (lit "max_pages")
                    (FixedConfigManager.VInt 1))
             [(lit "max_pages", FixedConfigManager.VNone)]).
    reflexivity.
Defined.

(* ================================================================== *)
(** * The request handlers *)
(* ================================================================== *)

Section Keywords.
Import FixedConfigManager WebApp.

Lemma forallb_split (p : char -> bool) (sep : char) (s : str) :
  forallb p s = true -> Forall (fun part => forallb p part = true)
                               (split sep s).
Proof.
  induction s as [|c s IH]; simpl; intros Hs.
  - now repeat constructor.
  - apply andb_true_iff in Hs as [Hc Hs]. specialize (IH Hs).
    destruct (char_eqb c sep).
    + now constructor.
    + destruct (split sep s) as [|part parts]; inversion IH; subst.
      * now repeat constructor; simpl; rewrite Hc.
      * constructor; [simpl; now rewrite Hc|assumption].
Qed.

Lemma split_parts_without_separator (sep : char) (s : str) :
  Forall (fun part => forallb (fun c => negb (char_eqb c sep)) part = true)
         (split sep s).
Proof.
  induction s as [|c s IH]; simpl.
  - now repeat constructor.
  - destruct (char_eqb c sep) eqn:Hc.
    + now constructor.
    + destruct (split sep s) as [|part parts]; inversion IH; subst.
      * repeat constructor. simpl. now rewrite Hc.
      * constructor; [simpl; now rewrite Hc|assumption].
Qed.

Lemma forallb_snoc (p : char -> bool) (s : str) (c : char) :
  forallb p s = true -> p c = true -> forallb p (s ++ [c]) = true.
Proof.
  intros Hs Hc. rewrite forallb_app, Hs. simpl. now rewrite Hc.
Qed.

(** The words of a string are not empty, hold no whitespace, and hold
    only characters of the string. *)
Lemma words_from_spec (p : char -> bool) (s : str) :
  forall current,
    forallb p current = true ->
    forallb (fun c => negb (isspace c)) current = true ->
    forallb p s = true ->
    Forall (fun word => truthy word = true
                        /\ forallb p word = true
                        /\ forallb (fun c => negb (isspace c)) word = true)
           (words_from current s).
Proof.
  induction s as [|c s IH]; intros current Hp Hw Hs; simpl.
  - destruct (truthy current) eqn:Ht; now repeat constructor.
  - simpl in Hs. apply andb_true_iff in Hs as [Hc Hs].
    destruct (isspace c) eqn:Hsp.
    + apply Forall_app. split.
      * destruct (truthy current) eqn:Ht; now repeat constructor.
      * now apply IH.
    + apply IH; [now apply forallb_snoc| |exact Hs].
      apply forallb_snoc; [exact Hw|]. now rewrite Hsp.
Qed.

Lemma forallb_replace_char (p : char -> bool) (a b : char) (s : str) :
  p b = true -> forallb p s = true ->
  forallb p (replace_char a b s) = true.
Proof.
  intros Hb. induction s as [|c s IH]; simpl; [reflexivity|].
  intros Hs. apply andb_true_iff in Hs as [Hc Hs].
  rewrite IH by exact Hs.
  destruct (char_eqb c a); now rewrite ?Hb, ?Hc.
Qed.

Lemma replace_char_removes (a b : char) (s : str) :
  char_eqb b a = false ->
  forallb (fun c => negb (char_eqb c a)) (replace_char a b s) = true.
Proof.
  intros Hab. induction s as [|c s IH]; simpl; [reflexivity|].
  rewrite IH. destruct (char_eqb c a) eqn:Hc; now rewrite ?Hab, ?Hc.
Qed.

End Keywords.

(** X3. Every keyword [start_scraping] reads from a request is a
    non-empty string without whitespace and without any of the three
    commas that separate keywords (ASCII, full-width, ideographic); a
    request without keywords, or with blank ones, gives no keyword. *)
Theorem parse_keywords_tokens :
  forall raw : strval,
    Forall (fun keyword =>
              truthy keyword = true
              /\ forallb (fun c => negb (isspace c)
                                   && negb (char_eqb c comma)
                                   && negb (char_eqb c WebApp.fullwidth_comma)
                                   && negb (char_eqb c
                                              WebApp.ideographic_comma))
                         keyword = true)
           (WebApp.parse_keywords raw)
    /\ WebApp.parse_keywords PyNone = []
    /\ (forall s, forallb isspace s = true ->
                  WebApp.parse_keywords (PyStr s) = []).
Proof.
  intros raw. split; [|split].
  - unfold WebApp.parse_keywords.
    set (text := strip match raw with PyStr s => s | PyNone => [] end).
    destruct (truthy text); [|constructor].
    set (clean := fun c : char =>
                    negb (char_eqb c WebApp.fullwidth_comma)
                    && negb (char_eqb c WebApp.ideographic_comma)).
    set (replaced := WebApp.replace_char WebApp.ideographic_comma comma
                       (WebApp.replace_char WebApp.fullwidth_comma comma
                          text)).
    assert (Hclean : forallb clean replaced = true).
    { unfold replaced, clean. rewrite forallb_forall. intros c Hc.
      apply andb_true_iff. split.
      - pose proof (forallb_replace_char
                      (fun c => negb (char_eqb c WebApp.fullwidth_comma))
                      WebApp.ideographic_comma comma
                      (WebApp.replace_char WebApp.fullwidth_comma comma text)
                      eq_refl
                      (replace_char_removes WebApp.fullwidth_comma comma
                         text eq_refl)) as Hfw.
        rewrite forallb_forall in Hfw. now apply Hfw.
      - pose proof (replace_char_removes WebApp.ideographic_comma comma
                      (WebApp.replace_char WebApp.fullwidth_comma comma text)
                      eq_refl) as Hid.
        rewrite forallb_forall in Hid. now apply Hid. }
    pose proof (forallb_split clean comma replaced Hclean) as Hparts.
    pose proof (split_parts_without_separator comma replaced) as Hcomma.
    induction (FixedConfigManager.split comma replaced) as [|part parts IH];
      simpl; [constructor|].
    inversion Hparts as [|? ? Hpart Hrest]; subst.
    inversion Hcomma as [|? ? Hpc Hrc]; subst.
    apply Forall_app. split; [|now apply IH].
    destruct (truthy (strip part)); [|constructor].
    set (good := fun c : char =>
                   negb (char_eqb c comma) && clean c).
    assert (Hgood : forallb good (strip part) = true).
    { apply forallb_strip. rewrite forallb_forall. intros c Hc.
      unfold good. rewrite forallb_forall in Hpart, Hpc.
      now rewrite Hpart, Hpc. }
    pose proof (words_from_spec good (strip part) [] eq_refl eq_refl Hgood)
      as Hwords.
    unfold WebApp.words.
    induction (WebApp.words_from [] (strip part)) as [|word rest IHw];
      simpl; [constructor|].
    inversion Hwords as [|? ? [Ht [Hg Hs]] Hrestw]; subst.
    destruct (truthy (strip word)) eqn:Hts; [|now apply IHw].
    constructor; [|now apply IHw]. split; [exact Hts|].
    apply forallb_strip. rewrite forallb_forall. intros c Hc.
    rewrite forallb_forall in Hg, Hs.
    specialize (Hg c Hc). specialize (Hs c Hc).
    unfold good, clean in Hg.
    apply andb_true_iff in Hg as [Hg1 Hg2].
    apply andb_true_iff in Hg2 as [Hg2 Hg3].
    now rewrite Hs, Hg1, Hg2, Hg3.
  - reflexivity.
  - intros s Hs. unfold WebApp.parse_keywords.
    assert (Hempty : strip s = []).
    { unfold strip, rstrip.
      assert (Hl : lstrip s = []).
      { induction s as [|c s IH]; simpl in *; [reflexivity|].
        apply andb_true_iff in Hs as [Hc Hs]. rewrite Hc. now apply IH. }
      now rewrite Hl. }
    now rewrite Hempty.
Qed.

Lemma parse_keywords_tokens_witness :
  WebApp.parse_keywords (PyStr (lit "   ")) = [].
Proof.
  apply (proj2 (proj2 (parse_keywords_tokens PyNone))). reflexivity.
Defined.

(** X4. The log cursor: whatever index a client polled with, polling
    again with the index that poll returned yields exactly the entries
    added to the log since, and polling with 0 yields the whole log. *)
Theorem get_logs_cursor :
  forall (cursor : Z) (w w' : world) (added : list message),
    global_logs w' = global_logs w ++ added ->
    fst (WebApp.get_logs (snd (WebApp.get_logs cursor w)) w') = added
    /\ snd (WebApp.get_logs (snd (WebApp.get_logs cursor w)) w')
       = snd (WebApp.get_logs cursor w) + Z.of_nat (length added)
    /\ fst (WebApp.get_logs 0 w') = global_logs w'.
Proof.
  intros cursor w w' added Hgrow. unfold WebApp.get_logs. simpl.
  rewrite Hgrow. unfold WebApp.slice_from.
  split; [|split].
  - destruct (Z.of_nat (length (global_logs w)) <? 0) eqn:Hneg;
      [apply Z.ltb_lt in Hneg; lia|].
    rewrite Nat2Z.id. rewrite skipn_app, skipn_all, Nat.sub_diag.
    reflexivity.
  - rewrite length_app. lia.
  - reflexivity.
Qed.

Lemma get_logs_cursor_witness :
  fst (WebApp.get_logs
         (snd (WebApp.get_logs 0 Demo.initial))
         (add_message MsgStart (add_message MsgInit Demo.initial)))
  = [MsgInit; MsgStart].
Proof.
  apply (get_logs_cursor 0 Demo.initial
           (add_message MsgStart (add_message MsgInit Demo.initial))
           [MsgInit; MsgStart]).
  reflexivity.
Defined.

Lemma clamp_limit_range (limit : Z) :
  1 <= WebApp.clamp_limit limit <= 200.
Proof.
  unfold WebApp.clamp_limit.
  destruct (limit <=? 0) eqn:H0;
    [apply Z.leb_le in H0|apply Z.leb_gt in H0];
    match goal with
    | |- context [200 <? ?x] => destruct (200 <? x) eqn:H2
    end;
    try apply Z.ltb_lt in H2; try apply Z.ltb_ge in H2; lia.
Qed.



(* ================================================================== *)
(** * Page URLs *)
(* ================================================================== *)

Lemma lit_injective (s t : string) : lit s = lit t -> s = t.
Proof.
  unfold lit. intros Heq.
  rewrite <- (String.string_of_list_ascii_of_string s),
          <- (String.string_of_list_ascii_of_string t).
  f_equal.
  revert Heq. generalize (String.list_ascii_of_string t) as lt.
  induction (String.list_ascii_of_string s) as [|a ls IH];
    intros [|b lt] Heq; simpl in Heq; try discriminate; [reflexivity|].
  injection Heq as Hab Hrest. f_equal; [|now apply IH].
  rewrite <- (ascii_N_embedding a), <- (ascii_N_embedding b).
  now rewrite Hab.
Qed.

Lemma of_int_injective (m n : Z) :
  0 < m -> 0 < n -> of_int m = of_int n -> m = n.
Proof.
  intros Hm Hn Heq. unfold of_int in Heq. apply lit_injective in Heq.
  assert (Hnorm : forall k, 0 < k ->
            DecimalString.NilZero.int_of_string
              (DecimalString.NilZero.string_of_int (Z.to_int k))
            = Some (Z.to_int k)).
  { intros k Hk. apply DecimalString.NilZero.isi.
    - destruct k as [|p|p]; try lia. simpl. intros [= Hp].
      now apply (DecimalPos.Unsigned.to_uint_nonnil p).
    - destruct k as [|p|p]; try lia. discriminate. }
  pose proof (Hnorm m Hm) as H1. pose proof (Hnorm n Hn) as H2.
  rewrite Heq, H2 in H1. injection H1 as H1.
  rewrite <- (DecimalZ.of_to m), <- (DecimalZ.of_to n). now rewrite H1.
Qed.

(** X6. No two pages of a run share a URL: for page numbers from 1 on,
    equal page URLs mean equal page numbers. *)
Theorem page_url_of_injective :
  forall (base_url : str) (page page' : Z),
    1 <= page -> 1 <= page' ->
    page_url_of base_url page = page_url_of base_url page' ->
    page = page'.
Proof.
  intros base_url page page' Hp Hp' Heq. unfold page_url_of in Heq.
  destruct (1 <? page) eqn:H1; destruct (1 <? page') eqn:H1';
    try apply Z.ltb_lt in H1; try apply Z.ltb_ge in H1;
    try apply Z.ltb_lt in H1'; try apply Z.ltb_ge in H1'.
  - apply app_inv_head in Heq. apply app_inv_head in Heq.
    apply app_inv_head in Heq. apply of_int_injective in Heq; lia.
  - apply (f_equal (@length char)) in Heq.
    rewrite !length_app in Heq.
    destruct (contains base_url (lit "?")); simpl in Heq; lia.
  - apply (f_equal (@length char)) in Heq.
    rewrite !length_app in Heq.
    destruct (contains base_url (lit "?")); simpl in Heq; lia.
  - lia.
Qed.

Lemma page_url_of_injective_witness :
  (3 : Z) = 3.
Proof.
  apply (@page_url_of_injective (lit "https://site.example/list") 3 3);
    [lia|lia|reflexivity].
Defined.

(* ================================================================== *)
(** * Link filtering *)
(* ================================================================== *)

Lemma forallb_take_while (p : char -> bool) (s : str) :
  forallb p (take_while p s) = true.
Proof.
  induction s as [|c s IH]; simpl; [reflexivity|].
  destruct (p c) eqn:Hc; simpl; [now rewrite Hc|reflexivity].
Qed.

Lemma forallb_skipn (p : char -> bool) (n : nat) (s : str) :
  forallb p s = true -> forallb p (skipn n s) = true.
Proof.
  rewrite !forallb_forall. intros Hs c Hc. apply Hs.
  rewrite <- (firstn_skipn n s). apply in_or_app. now right.
Qed.

Lemma normalize_href_no_space (href : str) :
  forallb (fun c => negb (isspace c)) (FixedWebScraper.normalize_href href)
  = true.
Proof.
  unfold FixedWebScraper.normalize_href.
  set (token := if truthy (strip href) then first_token (strip href)
                else strip href).
  assert (Htoken : forallb (fun c => negb (isspace c)) token = true).
  { unfold token. destruct (truthy (strip href)) eqn:Ht.
    - apply forallb_take_while.
    - now destruct (strip href). }
  cbv zeta.
  set (repaired := if startswith token (lit "https:/")
                      && negb (startswith token (lit "https://"))
                   then lit "https://" ++ from 7 token else token).
  assert (Hrepaired : forallb (fun c => negb (isspace c)) repaired = true).
  { unfold repaired. destruct (_ && _); [|exact Htoken].
    rewrite forallb_app. now rewrite forallb_skipn. }
  destruct (startswith repaired (lit "http:/")
            && negb (startswith repaired (lit "http://")));
    [|exact Hrepaired].
  rewrite forallb_app. now rewrite forallb_skipn.
Qed.

(** X7. The normalised form of a link holds no whitespace, and a
    one-slash scheme never survives in it: when it starts with [https:/]
    it starts with [https://], and when it starts with [http:/] it starts
    with [http://]. *)
Theorem normalize_href_repairs :
  forall href : str,
    let r := FixedWebScraper.normalize_href href in
    forallb (fun c => negb (isspace c)) r = true
    /\ (startswith r (lit "https:/") = false
        \/ startswith r (lit "https://") = true)
    /\ (startswith r (lit "http:/") = false
        \/ startswith r (lit "http://") = true).
Proof.
  intros href. unfold FixedWebScraper.normalize_href.
  set (token := if truthy (strip href) then first_token (strip href)
                else strip href).
  assert (Htoken : forallb (fun c => negb (isspace c)) token = true).
  { unfold token. destruct (truthy (strip href)) eqn:Ht.
    - apply forallb_take_while.
    - now destruct (strip href). }
  assert (Hs1 : forall x, startswith (lit "https://" ++ x) (lit "http:/")
                          = false) by reflexivity.
  assert (Hs2 : forall x, startswith (lit "https://" ++ x) (lit "https://")
                          = true) by (intros [|c x]; reflexivity).
  assert (Hs3 : forall x, startswith (lit "http://" ++ x) (lit "https:/")
                          = false) by reflexivity.
  assert (Hs4 : forall x, startswith (lit "http://" ++ x) (lit "http://")
                          = true) by (intros [|c x]; reflexivity).
  destruct (startswith token (lit "https:/")) eqn:Ha;
    destruct (startswith token (lit "https://")) eqn:Hb; cbn [andb negb].
  - destruct (startswith token (lit "http:/")) eqn:Hc;
      destruct (startswith token (lit "http://")) eqn:Hd;
      cbn [andb negb]; cbv zeta.
    + rewrite Ha, Hb, Hc, Hd. auto.
    + split; [|split]; [|now left|now right].
      rewrite forallb_app. now rewrite forallb_skipn.
    + rewrite Ha, Hb, Hc. auto.
    + rewrite Ha, Hb, Hc. auto.
  - cbv zeta. rewrite Hs1. cbn [andb]. rewrite Hs1, Hs2.
    split; [|split]; [|now right|now left].
    rewrite forallb_app. now rewrite forallb_skipn.
  - destruct (startswith token (lit "http:/")) eqn:Hc;
      destruct (startswith token (lit "http://")) eqn:Hd;
      cbn [andb negb]; cbv zeta.
    + rewrite Ha, Hc, Hd. auto.
    + rewrite Hs3, Hs4. split; [|split]; [|now left|now right].
      rewrite forallb_app. now rewrite forallb_skipn.
    + rewrite Ha, Hc. auto.
    + rewrite Ha, Hc. auto.
  - destruct (startswith token (lit "http:/")) eqn:Hc;
      destruct (startswith token (lit "http://")) eqn:Hd;
      cbn [andb negb]; cbv zeta.
    + rewrite Ha, Hc, Hd. auto.
    + rewrite Hs3, Hs4. split; [|split]; [|now left|now right].
      rewrite forallb_app. now rewrite forallb_skipn.
    + rewrite Ha, Hc. auto.
    + rewrite Ha, Hc. auto.
Qed.

Section LinkFilter.
Context `{Libraries}.

(** What an element that yields a link has passed. *)
Lemma examine_appended (page_url : str) (a : node) (full_url href : str) :
  FixedWebScraper.examine page_url a
  = FixedWebScraper.Appended full_url href ->
  exists raw,
    get (lit "href") a = Some raw
    /\ href = FixedWebScraper.normalize_href raw
    /\ full_url = urljoin page_url href
    /\ existsb (endswith (lower href)) FixedWebScraper.extensions = false
    /\ 4 <= len (get_text_strip [] a)
    /\ 10 <= len href
    /\ startswith href (lit "javascript") = false
    /\ startswith href (lit "#") = false
    /\ existsb (contains (get_text_strip [] a))
         FixedWebScraper.exclude_keywords = false.
Proof.
  unfold FixedWebScraper.examine.
  destruct (get (lit "href") a) as [[|c raw]|]; try discriminate.
  set (href0 := FixedWebScraper.normalize_href (c :: raw)).
  destruct (existsb (endswith (lower href0)) FixedWebScraper.extensions)
    eqn:Hext; [discriminate|].
  destruct (len (get_text_strip [] a) <? 4) eqn:Htext; [discriminate|].
  destruct (len href0 <? 10) eqn:Hlen; [discriminate|].
  destruct (startswith href0 (lit "javascript")) eqn:Hjs;
    [discriminate|].
  destruct (startswith href0 (lit "#")) eqn:Hfrag; [discriminate|].
  destruct (existsb (contains (get_text_strip [] a))
              FixedWebScraper.exclude_keywords) eqn:Hkw; [discriminate|].
  cbn [orb]. intros [= Hu Hh]. subst full_url href.
  apply Z.ltb_ge in Htext. apply Z.ltb_ge in Hlen.
  exists (c :: raw). repeat split; assumption.
Qed.

Variable env : environment.
Variable self : scraper.
Variable has_log_message : bool.

(** The loop over the selected elements appends the links of the
    elements that pass the filters, in their order, and nothing else. *)
Lemma scan_appends_accepted (page_url : str) (elements : list node) :
  forall i links w, exists w',
    FixedWebScraper.scan has_log_message page_url i elements links w
    = (Ok (links ++ accepted_links page_url elements), w').
Proof.
  induction elements as [|a rest IH]; intros i links w; simpl.
  - exists w. now rewrite app_nil_r.
  - unfold accepted_links. cbn [flat_map].
    fold (accepted_links page_url rest).
    destruct (FixedWebScraper.examine page_url a) as [|full_url href|shown].
    + apply IH.
    + destruct (i <? 5).
      * rewrite bind_log_if_present.
        match goal with
        | |- context [FixedWebScraper.scan _ _ _ _ _ ?w0] =>
            destruct (IH (i + 1) (links ++ [full_url]) w0) as [w' Hrun]
        end.
        exists w'. rewrite Hrun. now rewrite <- app_assoc.
      * rewrite bind_ret.
        destruct (IH (i + 1) (links ++ [full_url]) w) as [w' Hrun].
        exists w'. rewrite Hrun. now rewrite <- app_assoc.
    + destruct (i <? 5).
      * rewrite bind_log_if_present. apply IH.
      * rewrite bind_ret. apply IH.
Qed.

End LinkFilter.



(** X9. Link discovery never returns a script link, a fragment or a
    short link: every link [fetch_article_links] returns is the URL of the
    page itself, or [urljoin] of the page URL and a normalised [href] of at
    least 10 characters, without whitespace, that starts neither with
    [javascript] nor with [#]. *)
Theorem fetch_article_links_never_junk :
  forall (L : Libraries) (env : environment) (self : scraper)
         (has_log_message : bool) (page_url : str) (w w' : world)
         (links : list str),
    FixedWebScraper.fetch_article_links env self has_log_message page_url w
    = (Ok links, w') ->
    Forall (fun link =>
              link = page_url
              \/ exists href,
                   link = urljoin page_url href
                   /\ 10 <= len href
                   /\ forallb (fun c => negb (isspace c)) href = true
                   /\ startswith href (lit "javascript") = false
                   /\ startswith href (lit "#") = false)
           links.
Proof.
  intros L env self has_log page_url w w' links Hfetch.
  assert (Haccepted : forall elements,
    Forall (fun link =>
              link = page_url
              \/ exists href,
                   link = urljoin page_url href
                   /\ 10 <= len href
                   /\ forallb (fun c => negb (isspace c)) href = true
                   /\ startswith href (lit "javascript") = false
                   /\ startswith href (lit "#") = false)
           (accepted_links page_url elements)).
  { induction elements as [|a rest IH]; [constructor|].
    unfold accepted_links. cbn [flat_map].
    fold (accepted_links page_url rest).
    destruct (FixedWebScraper.examine page_url a) as [|full_url href|shown]
      eqn:Hex; try exact IH.
    constructor; [|exact IH]. right.
    destruct (examine_appended page_url a Hex)
      as [raw [_ [Hh [Hu [_ [_ [Hlen [Hjs [Hfrag _]]]]]]]]].
    exists href. repeat split; try assumption.
    rewrite Hh. apply normalize_href_no_space. }
  unfold FixedWebScraper.fetch_article_links in Hfetch.
  destruct (FixedWebScraper.make_request env self page_url w)
    as [[r|e] w1] eqn:Hreq.
  - rewrite bind_run with (1 := Hreq) in Hfetch.
    destruct (FixedWebScraper.usable r) as [response|].
    + rewrite !bind_log_if_present in Hfetch.
      destruct (select _ _) as [elements|] eqn:Hsel.
      * rewrite bind_log_if_present in Hfetch.
        match type of Hfetch with
        | context [bind (FixedWebScraper.scan _ _ _ _ _) _ ?w0] =>
            destruct (scan_appends_accepted has_log page_url elements 0 []
                        w0) as [w2 Hscan]
        end.
        rewrite bind_run with (1 := Hscan) in Hfetch.
        rewrite bind_log_if_present in Hfetch. cbn [app] in Hfetch.
        specialize (Haccepted elements).
        destruct (accepted_links page_url elements) as [|link more].
        -- destruct (_ =? 0).
           ++ rewrite bind_log_if_present in Hfetch.
              injection Hfetch as Hl _. subst links.
              constructor; [now left|constructor].
           ++ injection Hfetch as Hl _. subst links. constructor.
        -- injection Hfetch as Hl _. subst links. exact Haccepted.
      * injection Hfetch as Hl _. subst links. constructor.
    + rewrite bind_log_if_present in Hfetch.
      injection Hfetch as Hl _. subst links. constructor.
  - rewrite bind_raised with (1 := Hreq) in Hfetch. discriminate.
Qed.

Lemma fetch_article_links_never_junk_witness :
  Forall (fun link =>
            link = lit "https://site.example/list"
            \/ exists href,
                 link = href
                 /\ 10 <= len href
                 /\ forallb (fun c => negb (isspace c)) href = true
                 /\ startswith href (lit "javascript") = false
                 /\ startswith href (lit "#") = false)
         [lit "https://site.example/a/1"; lit "https://site.example/a/2"].
Proof.
  apply (@fetch_article_links_never_junk Demo.libs
           (Demo.always (Responds (Demo.response 200 Demo.list_page_two)))
           Demo.config true (lit "https://site.example/list") Demo.initial
           (snd (FixedWebScraper.fetch_article_links (H := Demo.libs)
                   (Demo.always
                      (Responds (Demo.response 200 Demo.list_page_two)))
                   Demo.config true (lit "https://site.example/list")
                   Demo.initial))).
  vm_compute. reflexivity.
Defined.

(* ================================================================== *)
(** * The content cascade *)
(* ================================================================== *)

Lemma node_induction (P : node -> Prop) :
  (forall s, P (Text s)) ->
  (forall name attrs children,
     Forall P children -> P (Tag name attrs children)) ->
  forall n, P n.
Proof.
  intros Htext Htag. fix IH 1. intros [s|name attrs children].
  - apply Htext.
  - apply Htag. induction children as [|c cs IHcs]; constructor.
    + apply IH.
    + exact IHcs.
Qed.

Lemma named_decompose_all (names : list str) (n : node) :
  named names (decompose_all names n) = named names n.
Proof. now destruct n. Qed.

Lemma decompose_all_leaves_none (names : list str) (n : node) :
  find_all names (decompose_all names n) = [].
Proof.
  unfold find_all. induction n as [s|name attrs children IH]
    using node_induction; [reflexivity|].
  cbn [decompose_all descendants].
  induction children as [|c cs IHcs]; [reflexivity|].
  inversion IH as [|? ? Hc Hcs]; subst. cbn [flat_map].
  destruct (named names c) eqn:Hnamed; [now apply IHcs|].
  rewrite flat_map_app, filter_app, (IHcs Hcs), app_nil_r.
  cbn [flat_map]. rewrite app_nil_r, filter_app, Hc, app_nil_r.
  destruct (is_tag (decompose_all names c)); [|reflexivity].
  cbn [filter]. now rewrite named_decompose_all, Hnamed.
Qed.

Lemma decompose_all_idempotent (names : list str) (n : node) :
  decompose_all names (decompose_all names n) = decompose_all names n.
Proof.
  induction n as [s|name attrs children IH] using node_induction;
    [reflexivity|].
  cbn [decompose_all]. f_equal.
  induction children as [|c cs IHcs]; [reflexivity|].
  inversion IH as [|? ? Hc Hcs]; subst. cbn [flat_map].
  destruct (named names c) eqn:Hnamed; [now apply IHcs|].
  rewrite flat_map_app, (IHcs Hcs). cbn [flat_map].
  now rewrite named_decompose_all, Hnamed, Hc, app_nil_r.
Qed.

(** X10. Scripts, styles and [noscript] blocks never reach the content:
    the document [extract_content] reads holds none of these tags, at any
    depth, and removing them from a page beforehand does not change the
    content extracted from it. *)
Theorem extract_content_ignores_scripts :
  forall (L : Libraries) (self : scraper) (soup : node),
    let stripped :=
      decompose_all [lit "script"; lit "style"; lit "noscript"] soup in
    find_all [lit "script"; lit "style"; lit "noscript"] stripped = []
    /\ FixedWebScraper.extract_content self stripped
       = FixedWebScraper.extract_content self soup.
Proof.
  intros L self soup stripped. split.
  - apply decompose_all_leaves_none.
  - unfold FixedWebScraper.extract_content, stripped.
    now rewrite decompose_all_idempotent.
Qed.

Lemma fold_best (candidates : list node) :
  forall best result,
    result
    = fold_left
        (fun best_text node =>
           let node_text := get_text_strip newline node in
           if len best_text <? len node_text then node_text else best_text)
        candidates best ->
    len best <= len result
    /\ (forall c, In c candidates ->
          len (get_text_strip newline c) <= len result)
    /\ (result = best
        \/ exists c, In c candidates
                     /\ result = get_text_strip newline c).
Proof.
  induction candidates as [|c cs IH]; intros best result Hresult;
    cbn [fold_left] in Hresult.
  - subst result. split; [lia|]. split; [intros c []|now left].
  - destruct (len best <? len (get_text_strip newline c)) eqn:Hlt;
      [apply Z.ltb_lt in Hlt|apply Z.ltb_ge in Hlt];
      destruct (IH _ _ Hresult) as [Hge [Hall Hfrom]].
    + split; [lia|]. split.
      * intros c' [Hc|Hc]; [now subst c'|now apply Hall].
      * right. destruct Hfrom as [Hsame|[c' [Hin Heq]]].
        -- exists c. split; [now left|exact Hsame].
        -- exists c'. split; [now right|exact Heq].
    + split; [lia|]. split.
      * intros c' [Hc|Hc]; [subst c'; lia|now apply Hall].
      * destruct Hfrom as [Hsame|[c' [Hin Heq]]]; [now left|].
        right. exists c'. split; [now right|exact Heq].
Qed.

(** X11. The fallback block of the content cascade is a longest one:
    the text [best_block] returns is at least as long as the text of every
    candidate, and it is the text of one of the candidates unless it is
    empty. *)
Theorem best_block_is_longest :
  forall candidates : list node,
    (forall c, In c candidates ->
       len (get_text_strip newline c)
       <= len (FixedWebScraper.best_block candidates))
    /\ (FixedWebScraper.best_block candidates = []
        \/ exists c, In c candidates
                     /\ FixedWebScraper.best_block candidates
                        = get_text_strip newline c).
Proof.
  intros candidates.
  destruct (fold_best candidates [] eq_refl) as [_ [Hall Hfrom]].
  split; [exact Hall|exact Hfrom].
Qed.

(** X12. The summary of a record is derived from the content whenever
    there is content: it is then not empty and at most 203 characters long
    (200 characters and an ellipsis). *)
Theorem build_article_summary_bound :
  forall (L : Libraries) (self : scraper) (detail_url : str)
         (response : Response.t),
    let article := FixedWebScraper.build_article self detail_url response in
    (forall s, Article.summary article = PyStr s -> len s <= 203)
    /\ (truthy (Article.content article) = true ->
        strval_truthy (Article.summary article) = true).
Proof.
  intros L self detail_url response article.
  unfold article, FixedWebScraper.build_article.
  cbn [Article.summary Article.content].
  rewrite extract_text_never_truthy. cbn [negb andb].
  set (content := FixedWebScraper.extract_content self
                    (Response.page response)).
  destruct (truthy content) eqn:Hc.
  - split.
    + intros s Hs.
      assert (Hs' : s = prefix 200 content
                        ++ (if 200 <? len content then ellipsis else []))
        by congruence.
      rewrite Hs'. unfold len at 1. unfold prefix.
      rewrite length_app, length_firstn.
      destruct (200 <? len content);
        [change (length ellipsis) with 3%nat|change (length []) with 0%nat];
        lia.
    + intros _. destruct content as [|c content]; [discriminate|].
      reflexivity.
  - split; [|discriminate].
    intros s Hs. unfold FixedWebScraper.extract_text in Hs.
    destruct (configured self f_summary); [discriminate|].
    injection Hs as Hs. subst s. cbn. lia.
Qed.

Lemma build_article_summary_bound_witness :
  strval_truthy
    (Article.summary
       (FixedWebScraper.build_article (H := Demo.libs) Demo.config
          (lit "https://site.example/a/1")
          (Demo.response 200 Demo.article_page)))
  = true.
Proof.
  apply (proj2 (build_article_summary_bound Demo.libs Demo.config
                  (lit "https://site.example/a/1")
                  (Demo.response 200 Demo.article_page))).
  reflexivity.
Defined.

(* ================================================================== *)
(** * What every step of a job respects *)
(* ================================================================== *)

Section Advances.
Variable R : world -> world -> Prop.
Hypothesis HR : steady R.

Lemma advances_ret (A : Type) (a : A) : advances R (ret a).
Proof. intros w. apply (steady_refl HR). Qed.

Lemma advances_raise (A : Type) (e : pyerror) : advances R (@raise A e).
Proof. intros w. apply (steady_refl HR). Qed.

Lemma advances_read (A : Type) (f : world -> A) : advances R (read f).
Proof. intros w. apply (steady_refl HR). Qed.

Lemma advances_modify (f : world -> world) :
  (forall w, R w (f w)) -> advances R (modify f).
Proof. intros Hf w. apply Hf. Qed.

Lemma advances_bind (A B : Type) (m : M A) (k : A -> M B) :
  advances R m -> (forall a, advances R (k a)) -> advances R (bind m k).
Proof.
  intros Hm Hk w. unfold bind. specialize (Hm w).
  destruct (m w) as [[a|e] w1]; simpl in *.
  - apply (steady_trans HR) with w1; [exact Hm|apply Hk].
  - exact Hm.
Qed.

Lemma advances_try_except (A : Type) (m : M A) (h : pyerror -> M A) :
  advances R m -> (forall e, advances R (h e)) ->
  advances R (try_except m h).
Proof.
  intros Hm Hh w. unfold try_except. specialize (Hm w).
  destruct (m w) as [[a|e] w1]; simpl in *.
  - exact Hm.
  - apply (steady_trans HR) with w1; [exact Hm|apply Hh].
Qed.

Lemma advances_try_finally (A : Type) (m : M A) (f : world -> world) :
  advances R m -> (forall w, R w (f w)) -> advances R (try_finally m f).
Proof.
  intros Hm Hf w. unfold try_finally. specialize (Hm w).
  destruct (m w) as [r w1]; simpl in *.
  apply (steady_trans HR) with w1; [exact Hm|apply Hf].
Qed.

Lemma advances_session_get env url : advances R (session_get env url).
Proof. intros w. apply (steady_get HR). Qed.

Lemma advances_uniform env a b : advances R (uniform env a b).
Proof. intros w. apply (steady_draw HR). Qed.

Lemma advances_sleep d : advances R (sleep d).
Proof.
  unfold sleep. destruct (Qle_bool 0 d).
  - apply advances_modify, (steady_sleep HR).
  - apply advances_raise.
Qed.

Lemma advances_logger l : advances R (logger l).
Proof. apply advances_modify, (steady_logged HR). Qed.

Lemma advances_log_message m : advances R (log_message m).
Proof. apply advances_modify, (steady_message HR). Qed.

Lemma advances_read_is_running env c :
  advances R (read_is_running env c).
Proof. intros w. apply (steady_flag HR). Qed.

Lemma advances_log_if_present has_log m :
  advances R (FixedWebScraper.log_if_present has_log m).
Proof.
  unfold FixedWebScraper.log_if_present. destruct has_log.
  - apply advances_log_message.
  - apply advances_ret.
Qed.

End Advances.

Ltac advance_step HR :=
  first
    [ apply (advances_ret HR)
    | apply (advances_raise HR)
    | apply (advances_read HR)
    | apply (advances_session_get HR)
    | apply (advances_uniform HR)
    | apply (advances_sleep HR)
    | apply (advances_logger HR)
    | apply (advances_log_message HR)
    | apply (advances_read_is_running HR)
    | apply (advances_log_if_present HR)
    | apply (advances_bind HR)
    | assumption
    | match goal with
      | |- advances _ (if ?b then _ else _) => destruct b
      | |- advances _ (match ?x with _ => _ end) => destruct x
      end
    | intro ].

Ltac advance HR := repeat advance_step HR.

Section StagesAdvance.
Context {L : Libraries}.
Variable env : environment.
Variable self : scraper.
Variable R : world -> world -> Prop.
Hypothesis HR : steady R.

Lemma attempts_advances url todo :
  advances R (FixedWebScraper.attempts env self url todo).
Proof.
  induction todo as [|attempt rest IH]; cbn [FixedWebScraper.attempts];
    advance HR.
Qed.

Lemma make_request_advances url :
  advances R (FixedWebScraper.make_request env self url).
Proof. apply attempts_advances. Qed.

Lemma scan_advances has_log page_url elements :
  forall i links,
    advances R (FixedWebScraper.scan has_log page_url i elements links).
Proof.
  induction elements as [|a rest IH]; intros i links;
    cbn [FixedWebScraper.scan]; [advance HR|].
  destruct (FixedWebScraper.examine page_url a); advance HR; apply IH.
Qed.

Lemma fetch_article_links_advances has_log page_url :
  advances R
    (FixedWebScraper.fetch_article_links env self has_log page_url).
Proof.
  unfold FixedWebScraper.fetch_article_links.
  apply (advances_bind HR); [apply make_request_advances|].
  intros response. destruct (FixedWebScraper.usable response);
    [|advance HR].
  apply (advances_bind HR); [advance HR|]. intros _.
  apply (advances_bind HR); [advance HR|]. intros _.
  destruct (select _ _); [|advance HR].
  apply (advances_bind HR); [advance HR|]. intros _.
  apply (advances_bind HR); [apply scan_advances|]. intros links.
  advance HR.
Qed.

Lemma base_parse_article_detail_advances detail_url :
  advances R (FixedWebScraper.parse_article_detail env self detail_url).
Proof.
  unfold FixedWebScraper.parse_article_detail.
  apply (advances_bind HR); [apply make_request_advances|].
  intros response. advance HR.
Qed.

Lemma base_pages_advances has_log base_url todo :
  forall all_links,
    advances R
      (FixedWebScraper.pages env self has_log base_url todo all_links).
Proof.
  induction todo as [|page rest IH]; intros all_links;
    cbn [FixedWebScraper.pages]; [advance HR|].
  apply (advances_bind HR); [apply fetch_article_links_advances|].
  intros links. destruct links; advance HR; apply IH.
Qed.

Lemma web_pages_advances base_url todo :
  forall all_links,
    advances R
      (WebScraperWithProgress.pages env self base_url todo all_links).
Proof.
  induction todo as [|page rest IH]; intros all_links;
    cbn [WebScraperWithProgress.pages]; [advance HR|].
  apply (advances_bind HR); [advance HR|]. intros running.
  destruct running; [|advance HR].
  apply (advances_bind HR); [advance HR|]. intros _.
  apply (advances_bind HR); [apply fetch_article_links_advances|].
  intros links. destruct links.
  - advance HR. apply IH.
  - apply (advances_bind HR);
      [apply advances_modify; intros ?; apply (steady_total HR)|].
    intros _. advance HR. apply IH.
Qed.

Lemma web_fetch_multiple_pages_advances base_url max_pages :
  advances R
    (WebScraperWithProgress.fetch_multiple_pages env self base_url
       max_pages).
Proof.
  unfold WebScraperWithProgress.fetch_multiple_pages.
  apply (advances_bind HR); [apply web_pages_advances|].
  intros all_links. advance HR.
Qed.

Lemma web_parse_article_detail_advances detail_url :
  advances R
    (WebScraperWithProgress.parse_article_detail env self detail_url).
Proof.
  unfold WebScraperWithProgress.parse_article_detail.
  apply (advances_bind HR); [advance HR|]. intros current.
  apply (advances_bind HR);
    [apply advances_modify; intros ?; apply (steady_current HR)|].
  intros _.
  apply (advances_bind HR); [advance HR|]. intros total.
  apply (advances_bind HR); [advance HR|]. intros _.
  apply (advances_bind HR); [apply base_parse_article_detail_advances|].
  intros [article|]; [|advance HR].
  apply (advances_bind HR); [|advance HR].
  destruct (Article.is_bestseller article); [|advance HR].
  apply (advances_bind HR); [advance HR|]. intros found.
  apply (advances_bind HR);
    [apply advances_modify; intros ?; apply (steady_found HR)|].
  intros _. advance HR.
Qed.

Lemma details_advances todo keywords :
  forall index articles,
    advances R
      (WebScraperWithProgress.details env self index todo keywords
         articles).
Proof.
  induction todo as [|link rest IH]; intros index articles;
    cbn [WebScraperWithProgress.details]; [advance HR|].
  apply (advances_bind HR); [advance HR|]. intros running.
  destruct running; [|advance HR].
  apply (advances_bind HR); [apply web_parse_article_detail_advances|].
  intros [article|]; [|apply IH].
  destruct (WebScraperWithProgress.kept keywords article); [|apply IH].
  advance HR. apply IH.
Qed.

End StagesAdvance.

(* ================================================================== *)
(** * The job as a whole *)
(* ================================================================== *)

Lemma logs_grow_same (w w' : world) :
  global_logs w' = global_logs w ->
  log_messages (scraping_status w') = log_messages (scraping_status w) ->
  logs_grow w w'.
Proof.
  intros Hg Hl. exists []. now rewrite !app_nil_r.
Qed.

Lemma logs_grow_steady : steady logs_grow.
Proof.
  constructor; intros; try (apply logs_grow_same; reflexivity).
  - destruct H as [a1 [Hg1 Hl1]], H0 as [a2 [Hg2 Hl2]].
    exists (a1 ++ a2). rewrite Hg2, Hl2, Hg1, Hl1, !app_assoc. now split.
  - exists [m]. now split.
Qed.

Lemma saves_nothing_steady : steady saves_nothing.
Proof.
  constructor; intros; try (split; reflexivity);
    try (split; [cbn [trace emit]; rewrite filter_app, app_nil_r|];
         reflexivity).
  destruct H as [Ht1 Hl1], H0 as [Ht2 Hl2]. split; congruence.
Qed.

Lemma error_kept_steady : steady error_kept.
Proof.
  constructor; intros; try reflexivity.
  unfold error_kept in *. congruence.
Qed.

Section Job.
Context {L : Libraries}.
Variable env : environment.
Variable self : scraper.

(** Saving, reporting and publishing the rows changes no counter and no
    error, and issues no request. *)
Lemma job_tail_facts (keywords : list str) (rows : list Article.t)
  (w : world) :
  exists wj,
    (written <- save_to_csv env rows ;;
     (if written then
        log_message
          (match keywords with
           | [] => MsgDone (Z.of_nat (length rows))
           | _ :: _ => MsgDoneKeywords keywords (Z.of_nat (length rows))
           end) ;;
        log_message MsgSaved
      else log_message MsgSaveFailed) ;;
     modify (WebScraperWithProgress.set_last_articles rows)) w
    = (Ok tt, wj)
    /\ gets wj = gets w
    /\ error (scraping_status wj) = error (scraping_status w)
    /\ total_articles (scraping_status wj)
       = total_articles (scraping_status w)
    /\ current_article (scraping_status wj)
       = current_article (scraping_status w)
    /\ bestsellers_found (scraping_status wj)
       = bestsellers_found (scraping_status w)
    /\ logs_grow w wj.
Proof.
  rewrite bind_save_to_csv.
  destruct (csv_ok env rows); eexists; (split; [reflexivity|]);
    do 5 (split; [reflexivity|]).
  - eexists [_; MsgSaved]. split; cbn; now rewrite <- app_assoc.
  - exists [MsgSaveFailed]. split; reflexivity.
Qed.

(** The ways the [try] block of [run_scraper] can end. *)
Lemma job_cases (w : world) :
  match WebScraperWithProgress.fetch_multiple_pages env self
          (base_url self) (max_pages self) (prologue w) with
  | (Raised e, w1) =>
      WebScraperWithProgress.job env self w = (Raised e, w1)
  | (Ok [], w1) =>
      WebScraperWithProgress.job env self w
      = (Ok tt, add_message MsgNoLinks w1)
  | (Ok (link :: links), w1) =>
      match WebScraperWithProgress.details env self 0 (link :: links)
              (current_keywords w1) [] w1 with
      | (Raised e, w2) =>
          WebScraperWithProgress.job env self w = (Raised e, w2)
      | (Ok rows, w2) =>
          exists wj,
            WebScraperWithProgress.job env self w = (Ok tt, wj)
            /\ gets wj = gets w2
            /\ error (scraping_status wj) = error (scraping_status w2)
            /\ total_articles (scraping_status wj)
               = total_articles (scraping_status w2)
            /\ current_article (scraping_status wj)
               = current_article (scraping_status w2)
            /\ bestsellers_found (scraping_status wj)
               = bestsellers_found (scraping_status w2)
            /\ logs_grow w2 wj
      end
  end.
Proof.
  unfold WebScraperWithProgress.job.
  rewrite bind_log_message, bind_modify, bind_log_message.
  change (add_message MsgStart
            (WebScraperWithProgress.reset (add_message MsgInit w)))
    with (prologue w).
  destruct (WebScraperWithProgress.fetch_multiple_pages env self
              (base_url self) (max_pages self) (prologue w))
    as [[[|link links]|e] w1] eqn:Hpages.
  - now rewrite bind_run with (1 := Hpages).
  - rewrite bind_run with (1 := Hpages). rewrite bind_read.
    destruct (WebScraperWithProgress.details env self 0 (link :: links)
                (current_keywords w1) [] w1) as [[rows|e] w2] eqn:Hdetails.
    + rewrite bind_run with (1 := Hdetails). apply job_tail_facts.
    + now rewrite bind_raised with (1 := Hdetails).
  - now rewrite bind_raised with (1 := Hpages).
Qed.

Lemma prologue_error (w : world) :
  error (scraping_status (prologue w)) = None.
Proof. reflexivity. Qed.

Lemma prologue_saves_nothing (w : world) : saves_nothing w (prologue w).
Proof. split; reflexivity. Qed.

(** A job that ends without an exception leaves no error, and a job that
    ends with one has written no file. *)
Lemma job_outcome (w : world) :
  (exists w1,
     WebScraperWithProgress.job env self w = (Ok tt, w1)
     /\ error (scraping_status w1) = None)
  \/ (exists e w1,
        WebScraperWithProgress.job env self w = (Raised e, w1)
        /\ saves_nothing w w1).
Proof.
  pose proof (job_cases w) as Hjob.
  pose proof (web_fetch_multiple_pages_advances env self error_kept_steady
                (base_url self) (max_pages self) (prologue w)) as Herr1.
  pose proof (web_fetch_multiple_pages_advances env self
                saves_nothing_steady
                (base_url self) (max_pages self) (prologue w)) as Hsave1.
  destruct (WebScraperWithProgress.fetch_multiple_pages env self
              (base_url self) (max_pages self) (prologue w))
    as [[[|link links]|e] w1]; cbn [snd] in *.
  - left. eexists. split; [exact Hjob|].
    unfold error_kept in Herr1. now rewrite <- (prologue_error w).
  - pose proof (details_advances env self error_kept_steady
                  (link :: links) (current_keywords w1) 0 [] w1) as Herr2.
    pose proof (details_advances env self saves_nothing_steady
                  (link :: links) (current_keywords w1) 0 [] w1) as Hsave2.
    destruct (WebScraperWithProgress.details env self 0 (link :: links)
                (current_keywords w1) [] w1) as [[rows|e] w2];
      cbn [snd] in *.
    + destruct Hjob as [wj [Hjob [_ [Herr _]]]].
      left. exists wj. split; [exact Hjob|].
      unfold error_kept in *. rewrite Herr, Herr2, Herr1.
      apply prologue_error.
    + right. exists e, w2. split; [exact Hjob|].
      apply (steady_trans saves_nothing_steady) with w1; [|exact Hsave2].
      apply (steady_trans saves_nothing_steady) with (prologue w);
        [apply prologue_saves_nothing|exact Hsave1].
  - right. exists e, w1. split; [exact Hjob|].
    apply (steady_trans saves_nothing_steady) with (prologue w);
      [apply prologue_saves_nothing|exact Hsave1].
Qed.

Lemma job_logs_grow : advances logs_grow (WebScraperWithProgress.job env self).
Proof.
  intros w. pose proof (job_cases w) as Hjob.
  assert (Hpro : logs_grow w (prologue w)).
  { exists [MsgInit; MsgStart]. split; cbn; now rewrite <- app_assoc. }
  pose proof (web_fetch_multiple_pages_advances env self logs_grow_steady
                (base_url self) (max_pages self) (prologue w)) as H1.
  destruct (WebScraperWithProgress.fetch_multiple_pages env self
              (base_url self) (max_pages self) (prologue w))
    as [[[|link links]|e] w1]; cbn [snd] in *.
  - rewrite Hjob. cbn [snd].
    apply (steady_trans logs_grow_steady) with w1;
      [|apply (steady_message logs_grow_steady)].
    now apply (steady_trans logs_grow_steady) with (prologue w).
  - pose proof (details_advances env self logs_grow_steady
                  (link :: links) (current_keywords w1) 0 [] w1) as H2.
    assert (H02 : forall r w2,
              WebScraperWithProgress.details env self 0 (link :: links)
                (current_keywords w1) [] w1 = (r, w2) -> logs_grow w w2).
    { intros r w2 Hd. rewrite Hd in H2. cbn [snd] in H2.
      apply (steady_trans logs_grow_steady) with w1; [|exact H2].
      now apply (steady_trans logs_grow_steady) with (prologue w). }
    destruct (WebScraperWithProgress.details env self 0 (link :: links)
                (current_keywords w1) [] w1) as [[rows|e] w2].
    + destruct Hjob as [wj [Hjob [_ [_ [_ [_ [_ Hgrow]]]]]]].
      rewrite Hjob. cbn [snd].
      apply (steady_trans logs_grow_steady) with w2; [|exact Hgrow].
      now apply (H02 (Ok rows)).
    + rewrite Hjob. cbn [snd]. now apply (H02 (Raised e)).
  - rewrite Hjob. cbn [snd].
    now apply (steady_trans logs_grow_steady) with (prologue w).
Qed.

End Job.




(* ================================================================== *)
(** * Requests and their number *)
(* ================================================================== *)

Section Requests.
Variable env : environment.
Variable self : scraper.

(** A response that comes back is the answer to the last GET of the
    request, and every GET before it raised a request exception. *)
Lemma attempts_some url todo :
  forall w response w',
    FixedWebScraper.attempts env self url todo w
    = (Ok (Some response), w') ->
    exists k,
      (k < length todo)%nat
      /\ net env (gets w + k) url = Responds response
      /\ gets w' = (gets w + S k)%nat
      /\ forall j, (j < k)%nat ->
           exists e, net env (gets w + j) url = Raises e
                     /\ clause_of e <> OnException.
Proof.
  induction todo as [|attempt rest IH]; intros w response w' Hrun;
    cbn [FixedWebScraper.attempts] in Hrun; [discriminate|].
  unfold bind at 1 in Hrun. unfold session_get at 1 in Hrun.
  destruct (net env (gets w) url) as [e|r] eqn:Hnet.
  - assert (Hretry :
      (if attempt <? max_retries self - 1
       then jitter <- uniform env 0 1 ;;
            sleep (retry_delay self * inject_Z (2 ^ attempt) + jitter)%Q ;;
            FixedWebScraper.attempts env self url rest
       else logger (FinalFailure (clause_of e) url) ;; ret None)
        (emit (Get url) (next_get w))
      = (Ok (Some response), w')
      /\ clause_of e <> OnException).
    { destruct e; cbn [clause_of] in *;
        try (split; [exact Hrun|discriminate]).
      discriminate. }
    destruct Hretry as [Hretry Hclause].
    destruct (attempt <? max_retries self - 1); [|discriminate].
    rewrite bind_uniform in Hretry.
    match type of Hretry with
    | bind (sleep ?d) _ _ = _ => destruct (Qle_bool 0 d) eqn:Hd
    end.
    + rewrite bind_sleep in Hretry by exact Hd.
      apply IH in Hretry. destruct Hretry as [k [Hk [Hk1 [Hk2 Hk3]]]].
      cbn [gets emit next_get next_draw] in *.
      exists (S k). split; [cbn [length]; lia|].
      split; [now rewrite Nat.add_succ_r|].
      split; [lia|].
      intros [|j] Hj.
      * exists e. now rewrite Nat.add_0_r.
      * destruct (Hk3 j) as [e' He']; [lia|].
        exists e'. now rewrite Nat.add_succ_r.
    + rewrite bind_raised with (1 := sleep_raises _ _ Hd) in Hretry.
      discriminate.
  - injection Hrun as Hr Hw. subst r w'. exists 0%nat.
    split; [cbn [length]; lia|].
    split; [now rewrite Nat.add_0_r|].
    split; [cbn [gets emit next_get]; lia|].
    intros j Hj. lia.
Qed.

Lemma length_range (lo hi : Z) : length (range lo hi) = Z.to_nat (hi - lo).
Proof. unfold range. now rewrite length_map, length_seq. Qed.

End Requests.

(** X15. A response that [make_request] returns is the answer to the
    last GET it issued, the GET number [k + 1] of the request with
    [k < max_retries]; each of the GETs before it raised an exception of
    the [requests] library. *)
Theorem make_request_response_is_first_success :
  forall (env : environment) (self : scraper) (url : str)
         (w w' : world) (response : Response.t),
    FixedWebScraper.make_request env self url w
    = (Ok (Some response), w') ->
    exists k,
      (k < Z.to_nat (max_retries self))%nat
      /\ net env (gets w + k) url = Responds response
      /\ gets w' = (gets w + S k)%nat
      /\ forall j, (j < k)%nat ->
           exists e, net env (gets w + j) url = Raises e
                     /\ clause_of e <> OnException.
Proof.
  intros env self url w w' response Hrun.
  apply attempts_some in Hrun. rewrite length_range in Hrun.
  now rewrite Z.sub_0_r in Hrun.
Qed.

Lemma make_request_response_is_first_success_witness :
  exists k,
    (k < 3)%nat
    /\ net Flaky.site (0 + k) (lit "https://site.example/a/1")
       = Responds (Demo.response 200 Demo.article_page)
    /\ gets (snd (FixedWebScraper.make_request Flaky.site Demo.config
                    (lit "https://site.example/a/1") Demo.initial))
       = (0 + S k)%nat
    /\ forall j, (j < k)%nat ->
         exists e, net Flaky.site (0 + j) (lit "https://site.example/a/1")
                   = Raises e
                   /\ clause_of e <> OnException.
Proof.
  apply (@make_request_response_is_first_success Flaky.site Demo.config
           (lit "https://site.example/a/1") Demo.initial
           (snd (FixedWebScraper.make_request Flaky.site Demo.config
                   (lit "https://site.example/a/1") Demo.initial))
           (Demo.response 200 Demo.article_page)).
  vm_compute. reflexivity.
Defined.

Section Costs.

Lemma costs_weaken (A : Type) (n p : nat) (m : M A) :
  (n <= p)%nat -> costs n m -> costs p m.
Proof. intros Hle Hm w. specialize (Hm w). lia. Qed.

Lemma costs_ret (A : Type) (a : A) : costs 0 (ret a).
Proof. intros w. simpl. lia. Qed.

Lemma costs_raise (A : Type) (e : pyerror) : costs 0 (@raise A e).
Proof. intros w. simpl. lia. Qed.

Lemma costs_read (A : Type) (f : world -> A) : costs 0 (read f).
Proof. intros w. simpl. lia. Qed.

Lemma costs_modify (f : world -> world) :
  (forall w, gets (f w) = gets w) -> costs 0 (modify f).
Proof. intros Hf w. simpl. rewrite Hf. lia. Qed.

Lemma costs_bind (A B : Type) (n p : nat) (m : M A) (k : A -> M B) :
  costs n m -> (forall a, costs p (k a)) -> costs (n + p) (bind m k).
Proof.
  intros Hm Hk w. unfold bind. specialize (Hm w).
  destruct (m w) as [[a|e] w1]; simpl in *.
  - specialize (Hk a w1). lia.
  - lia.
Qed.

Lemma costs_then (A B : Type) (p : nat) (m : M A) (k : A -> M B) :
  costs 0 m -> (forall a, costs p (k a)) -> costs p (bind m k).
Proof.
  intros Hm Hk. change p with (0 + p)%nat. now apply costs_bind.
Qed.

Lemma costs_session_get env url : costs 1 (session_get env url).
Proof. intros w. simpl. lia. Qed.

Lemma costs_uniform env a b : costs 0 (uniform env a b).
Proof. intros w. simpl. lia. Qed.

Lemma costs_sleep d : costs 0 (sleep d).
Proof.
  unfold sleep. destruct (Qle_bool 0 d);
    [now apply costs_modify|apply costs_raise].
Qed.

Lemma costs_logger l : costs 0 (logger l).
Proof. now apply costs_modify. Qed.

Lemma costs_log_message m : costs 0 (log_message m).
Proof. now apply costs_modify. Qed.

Lemma costs_read_is_running env c : costs 0 (read_is_running env c).
Proof. intros w. simpl. lia. Qed.

Lemma costs_log_if_present has_log m :
  costs 0 (FixedWebScraper.log_if_present has_log m).
Proof.
  unfold FixedWebScraper.log_if_present.
  destruct has_log; [apply costs_log_message|apply costs_ret].
Qed.

End Costs.

Ltac free_step :=
  first
    [ apply costs_ret
    | apply costs_raise
    | apply costs_read
    | apply costs_uniform
    | apply costs_sleep
    | apply costs_logger
    | apply costs_log_message
    | apply costs_read_is_running
    | apply costs_log_if_present
    | apply costs_then
    | assumption
    | match goal with
      | |- costs _ (if ?b then _ else _) => destruct b
      | |- costs _ (match ?x with _ => _ end) => destruct x
      end
    | intro ].

Ltac free := repeat free_step.

Section Budget.
Context {L : Libraries}.
Variable env : environment.
Variable self : scraper.


Lemma attempts_costs url todo :
  costs (length todo) (FixedWebScraper.attempts env self url todo).
Proof.
  induction todo as [|attempt rest IH]; cbn [FixedWebScraper.attempts];
    [apply costs_ret|].
  change (length (attempt :: rest)) with (1 + length rest)%nat.
  apply costs_bind; [apply costs_session_get|].
  intros [e|r]; [|apply costs_weaken with 0%nat; [lia|apply costs_ret]].
  assert (Hstop : forall A (a : A), costs (length rest) (ret a)).
  { intros A a. apply costs_weaken with 0%nat; [lia|apply costs_ret]. }
  destruct (clause_of e); try apply Hstop;
    (destruct (attempt <? max_retries self - 1);
     [ apply costs_then; [apply costs_uniform|]; intros jitter;
       apply costs_then; [apply costs_sleep|]; intros _; exact IH
     | apply costs_then; [apply costs_logger|]; intros _; apply Hstop ]).
Qed.

Lemma make_request_costs url :
  costs (Z.to_nat (max_retries self))
    (FixedWebScraper.make_request env self url).
Proof.
  unfold FixedWebScraper.make_request.
  replace (Z.to_nat (max_retries self))
    with (length (range 0 (max_retries self)))
    by (rewrite length_range; f_equal; lia).
  apply attempts_costs.
Qed.

Lemma scan_costs has_log page_url elements :
  forall i links,
    costs 0 (FixedWebScraper.scan has_log page_url i elements links).
Proof.
  induction elements as [|a rest IH]; intros i links;
    cbn [FixedWebScraper.scan]; [apply costs_ret|].
  destruct (FixedWebScraper.examine page_url a); free; apply IH.
Qed.

Lemma fetch_article_links_costs has_log page_url :
  costs (Z.to_nat (max_retries self))
    (FixedWebScraper.fetch_article_links env self has_log page_url).
Proof.
  unfold FixedWebScraper.fetch_article_links.
  rewrite <- (Nat.add_0_r (Z.to_nat (max_retries self))).
  apply costs_bind; [apply make_request_costs|].
  intros response. destruct (FixedWebScraper.usable response); [|free].
  apply costs_then; [free|]. intros _.
  apply costs_then; [free|]. intros _.
  destruct (select _ _); [|free].
  apply costs_then; [free|]. intros _.
  apply costs_then; [apply scan_costs|]. intros links.
  free.
Qed.

Lemma base_parse_article_detail_costs detail_url :
  costs (Z.to_nat (max_retries self))
    (FixedWebScraper.parse_article_detail env self detail_url).
Proof.
  unfold FixedWebScraper.parse_article_detail.
  rewrite <- (Nat.add_0_r (Z.to_nat (max_retries self))).
  apply costs_bind; [apply make_request_costs|].
  intros response. free.
Qed.

Lemma base_pages_costs has_log base_url todo :
  forall all_links,
    costs (length todo * Z.to_nat (max_retries self))
      (FixedWebScraper.pages env self has_log base_url todo all_links).
Proof.
  induction todo as [|page rest IH]; intros all_links;
    cbn [FixedWebScraper.pages]; [apply costs_ret|].
  change (length (page :: rest) * Z.to_nat (max_retries self))%nat
    with (Z.to_nat (max_retries self)
          + length rest * Z.to_nat (max_retries self))%nat.
  apply costs_bind; [apply fetch_article_links_costs|].
  intros links. destruct links; free; apply IH.
Qed.

Lemma web_pages_costs base_url todo :
  forall all_links,
    costs (length todo * Z.to_nat (max_retries self))
      (WebScraperWithProgress.pages env self base_url todo all_links).
Proof.
  induction todo as [|page rest IH]; intros all_links;
    cbn [WebScraperWithProgress.pages]; [apply costs_ret|].
  change (length (page :: rest) * Z.to_nat (max_retries self))%nat
    with (Z.to_nat (max_retries self)
          + length rest * Z.to_nat (max_retries self))%nat.
  apply costs_then; [free|]. intros running.
  destruct running;
    [|apply costs_weaken with 0%nat; [lia|free]].
  apply costs_then; [free|]. intros _.
  apply costs_bind; [apply fetch_article_links_costs|].
  intros links. destruct links.
  - free. apply IH.
  - apply costs_then; [now apply costs_modify|]. intros _.
    free. apply IH.
Qed.

Lemma web_parse_article_detail_costs detail_url :
  costs (Z.to_nat (max_retries self))
    (WebScraperWithProgress.parse_article_detail env self detail_url).
Proof.
  unfold WebScraperWithProgress.parse_article_detail.
  apply costs_then; [free|]. intros current.
  apply costs_then; [now apply costs_modify|]. intros _.
  apply costs_then; [free|]. intros total.
  apply costs_then; [free|]. intros _.
  rewrite <- (Nat.add_0_r (Z.to_nat (max_retries self))).
  apply costs_bind; [apply base_parse_article_detail_costs|].
  intros [article|]; [|free].
  apply costs_then; [|free].
  destruct (Article.is_bestseller article); [|free].
  apply costs_then; [free|]. intros found.
  apply costs_then; [now apply costs_modify|]. intros _. free.
Qed.

Lemma details_costs todo keywords :
  forall index articles,
    costs (length todo * Z.to_nat (max_retries self))
      (WebScraperWithProgress.details env self index todo keywords
         articles).
Proof.
  induction todo as [|link rest IH]; intros index articles;
    cbn [WebScraperWithProgress.details]; [apply costs_ret|].
  change (length (link :: rest) * Z.to_nat (max_retries self))%nat
    with (Z.to_nat (max_retries self)
          + length rest * Z.to_nat (max_retries self))%nat.
  apply costs_then; [free|]. intros running.
  destruct running;
    [|apply costs_weaken with 0%nat; [lia|free]].
  apply costs_bind; [apply web_parse_article_detail_costs|].
  intros [article|]; [|apply IH].
  destruct (WebScraperWithProgress.kept keywords article); [|apply IH].
  free. apply IH.
Qed.

End Budget.


(* ================================================================== *)
(** * The counters of the job *)
(* ================================================================== *)

Lemma bind_read_is_running (B : Type) (env : environment) (c : checkpoint)
  (k : bool -> M B) (w : world) :
  bind (read_is_running env c) k w
  = k (is_running (scraping_status w) && negb (stop_pressed env c))
      (set_status
         (set_running
            (is_running (scraping_status w) && negb (stop_pressed env c)))
         w).
Proof. reflexivity. Qed.

Lemma bind_logger (B : Type) (l : logline) (k : unit -> M B) (w : world) :
  bind (logger l) k w = k tt (emit (Logged l) w).
Proof. reflexivity. Qed.

Lemma counters_with_weaken (k k' : nat) (w : world) :
  (k' <= k)%nat -> counters_with k w -> counters_with k' w.
Proof. unfold counters_with. intros Hle H. repeat split; lia. Qed.

Lemma counters_with_in_order (k : nat) (w : world) :
  counters_with k w -> counters_in_order w.
Proof. unfold counters_with, counters_in_order. intros H. lia. Qed.

Lemma counters_with_view (k : nat) (w w' : world) :
  counter_view w' = counter_view w ->
  counters_with k w -> counters_with k w'.
Proof.
  unfold counter_view, counters_with.
  intros [= Hsc Hc Hf Ht Hst] H. now rewrite Hsc, Hc, Hf, Ht.
Qed.

Section Counters.
Context {L : Libraries}.
Variable env : environment.
Variable self : scraper.

Lemma job_to_counters (A : Type) (m : M A) :
  preserves job_view m -> preserves counter_view m.
Proof.
  intros Hm w. specialize (Hm w). unfold job_view in Hm.
  unfold counter_view. injection Hm as Hs Hg Hl Hk Ht Hc.
  now rewrite Hs, Ht, Hc.
Qed.

Lemma base_parse_article_detail_job detail_url :
  preserves job_view
    (FixedWebScraper.parse_article_detail env self detail_url).
Proof.
  unfold FixedWebScraper.parse_article_detail.
  apply preserves_bind; [apply make_request_job|].
  intros response.
  destruct (FixedWebScraper.usable response); apply preserves_ret.
Qed.

(** The page stage sets the total to the number of links it has, and
    leaves it at that. *)
Lemma web_pages_total base_url todo :
  forall all_links w,
    total_articles (scraping_status w) = Z.of_nat (length all_links) ->
    0 <= total_articles
           (scraping_status
              (snd (WebScraperWithProgress.pages env self base_url todo
                      all_links w)))
    /\ forall links w',
         WebScraperWithProgress.pages env self base_url todo all_links w
         = (Ok links, w') ->
         total_articles (scraping_status w') = Z.of_nat (length links).
Proof.
  induction todo as [|page rest IH]; intros all_links w Htotal;
    cbn [WebScraperWithProgress.pages].
  - cbn. split; [lia|]. intros links w' [= <- <-]. exact Htotal.
  - rewrite bind_read_is_running.
    destruct (is_running (scraping_status w)
              && negb (stop_pressed env (AtPage page))).
    + rewrite bind_log_message.
      match goal with
      | |- context [bind (FixedWebScraper.fetch_article_links _ _ _ ?u)
                         _ ?w0] =>
          pose proof (fetch_article_links_progress env self true u w0)
            as Hview;
          destruct (FixedWebScraper.fetch_article_links env self true u w0)
            as [[[|link links]|e] w1] eqn:Hfetch
      end;
        unfold progress_view in Hview; cbn [snd] in Hview;
        injection Hview as Hr Ht Hc Hb He Hl Hk Hst Hsc;
        clear Hr Hc Hb He Hl Hk Hst Hsc;
        cbn [scraping_status total_articles add_message set_status
             add_log set_running] in Ht.
      * rewrite bind_run with (1 := Hfetch), bind_log_message.
        apply IH. cbn. congruence.
      * rewrite bind_run with (1 := Hfetch), bind_modify, bind_uniform.
        match goal with
        | |- context [bind (sleep ?d) _ _] =>
            destruct (Qle_bool 0 d) eqn:Hd
        end.
        -- rewrite bind_sleep by exact Hd. apply IH. reflexivity.
        -- rewrite bind_raised with (1 := sleep_raises _ _ Hd).
           cbn. split; [lia|]. intros ? ? [=].
      * rewrite bind_raised with (1 := Hfetch). cbn [snd].
        split; [lia|]. intros ? ? [=].
    + rewrite bind_logger. cbn. split; [lia|].
      intros links w' [= <- <-]. exact Htotal.
Qed.

Lemma web_fetch_multiple_pages_total base_url max_pages w :
  total_articles (scraping_status w) = 0 ->
  0 <= total_articles
         (scraping_status
            (snd (WebScraperWithProgress.fetch_multiple_pages env self
                    base_url max_pages w)))
  /\ forall links w',
       WebScraperWithProgress.fetch_multiple_pages env self base_url
         max_pages w = (Ok links, w') ->
       total_articles (scraping_status w') = Z.of_nat (length links).
Proof.
  intros Hzero. unfold WebScraperWithProgress.fetch_multiple_pages.
  destruct (web_pages_total base_url (range 1 (max_pages + 1)) []
              w Hzero) as [Hpos Hlinks].
  destruct (WebScraperWithProgress.pages env self base_url
              (range 1 (max_pages + 1)) [] w) as [[links|e] w1] eqn:Hpages.
  - rewrite bind_run with (1 := Hpages), bind_log_message.
    cbn. split; [exact Hpos|].
    intros links' w' [= <- <-].
    change (total_articles (scraping_status w1)
            = Z.of_nat (length links)).
    now apply Hlinks.
  - rewrite bind_raised with (1 := Hpages).
    split; [exact Hpos|]. intros ? ? [=].
Qed.

(** Processing a link moves the counter of the current article by one,
    and the counter of the bestsellers by one at most. *)
Lemma web_parse_article_detail_counters detail_url k w :
  counters_with (S k) w ->
  counters_with k
    (snd (WebScraperWithProgress.parse_article_detail env self detail_url
            w)).
Proof.
  intros Hw. unfold WebScraperWithProgress.parse_article_detail.
  rewrite bind_read, bind_modify, bind_read, bind_log_message.
  match goal with
  | |- context [bind (FixedWebScraper.parse_article_detail _ _ _) _ ?w0] =>
      assert (H0 : self_current_article w0
                   = current_article (scraping_status w0)
                   /\ 0 <= bestsellers_found (scraping_status w0)
                   /\ bestsellers_found (scraping_status w0) + 1
                      <= current_article (scraping_status w0)
                   /\ current_article (scraping_status w0) + Z.of_nat k
                      <= total_articles (scraping_status w0))
        by (unfold counters_with in Hw; cbn; lia);
      pose proof (job_to_counters (base_parse_article_detail_job
                                     detail_url) w0) as Hview;
      destruct (FixedWebScraper.parse_article_detail env self detail_url
                  w0) as [[[article|]|e] w1] eqn:Hparse;
      cbn [snd] in Hview; unfold counter_view in Hview;
      injection Hview as Hsc Hc Hf Ht Hst;
      cbn in H0, Hsc, Hc, Hf, Ht; clear Hst
  end.
  - rewrite bind_run with (1 := Hparse).
    destruct (Article.is_bestseller article);
      unfold counters_with; cbn; lia.
  - rewrite bind_run with (1 := Hparse). unfold counters_with; cbn; lia.
  - rewrite bind_raised with (1 := Hparse). unfold counters_with; cbn; lia.
Qed.

Lemma details_counters todo keywords :
  forall index articles w,
    counters_with (length todo) w ->
    counters_with 0
      (snd (WebScraperWithProgress.details env self index todo keywords
              articles w)).
Proof.
  induction todo as [|link rest IH]; intros index articles w Hw;
    cbn [WebScraperWithProgress.details]; [exact Hw|].
  rewrite bind_read_is_running.
  destruct (is_running (scraping_status w)
            && negb (stop_pressed env (AtLink index))).
  - match goal with
    | |- context [bind (WebScraperWithProgress.parse_article_detail
                          _ _ _) _ ?w0] =>
        assert (H0 : counters_with (S (length rest)) w0) by exact Hw;
        pose proof (web_parse_article_detail_counters link H0) as H1;
        destruct (WebScraperWithProgress.parse_article_detail env self
                    link w0) as [[[article|]|e] w1] eqn:Hparse
    end; cbn [snd] in H1.
    + rewrite bind_run with (1 := Hparse).
      destruct (WebScraperWithProgress.kept keywords article);
        [|now apply IH].
      rewrite bind_uniform.
      match goal with
      | |- context [bind (sleep ?d) _ _] =>
          destruct (Qle_bool 0 d) eqn:Hd
      end.
      * rewrite bind_sleep by exact Hd. apply IH. exact H1.
      * rewrite bind_raised with (1 := sleep_raises _ _ Hd).
        apply counters_with_weaken with (length rest); [lia|exact H1].
    + rewrite bind_run with (1 := Hparse). now apply IH.
    + rewrite bind_raised with (1 := Hparse).
      apply counters_with_weaken with (length rest); [lia|exact H1].
  - rewrite bind_log_message.
    apply counters_with_weaken with (S (length rest)); [lia|exact Hw].
Qed.

(** The counters are in order when the [try] block of [run_scraper]
    ends, however it ends. *)
Lemma job_counters (w : world) :
  counters_in_order (snd (WebScraperWithProgress.job env self w)).
Proof.
  pose proof (job_cases env self w) as Hjob.
  destruct (web_fetch_multiple_pages_total (base_url self)
              (max_pages self) (prologue w) eq_refl) as [Hpos Htotal].
  pose proof (web_fetch_multiple_pages_detail env self (base_url self)
                (max_pages self) (prologue w)) as Hview.
  destruct (WebScraperWithProgress.fetch_multiple_pages env self
              (base_url self) (max_pages self) (prologue w))
    as [[links|e] w1]; cbn [snd] in *;
    unfold detail_view in Hview;
    injection Hview as Hc Hb He Hl Hk Hsc;
    clear He Hl Hk;
    cbn in Hc, Hb, Hsc.
  - specialize (Htotal links w1 eq_refl).
    assert (H1 : counters_with (length links) w1)
      by (unfold counters_with; lia).
    destruct links as [|link links].
    + rewrite Hjob. cbn [snd].
      apply counters_with_in_order with 0%nat. exact H1.
    + pose proof (details_counters (link :: links) (current_keywords w1)
                    0 [] H1) as H2.
      destruct (WebScraperWithProgress.details env self 0 (link :: links)
                  (current_keywords w1) [] w1) as [[rows|e] w2];
        cbn [snd] in H2.
      * destruct Hjob as [wj [Hjob [_ [_ [Ht [Hcur [Hfound _]]]]]]].
        rewrite Hjob. cbn [snd].
        unfold counters_in_order. unfold counters_with in H2. lia.
      * rewrite Hjob. now apply counters_with_in_order with 0%nat.
  - rewrite Hjob. cbn [snd]. unfold counters_in_order. lia.
Qed.

End Counters.

(** X17. The total shown in the status is the number of links found:
    when the page stage of the web application starts with a total of 0
    and returns, [total_articles] is the length of the list it returns. *)
Theorem fetch_multiple_pages_total_is_link_count :
  forall (L : Libraries) (env : environment) (self : scraper)
         (base_url : str) (max_pages : Z) (w w' : world)
         (links : list str),
    total_articles (scraping_status w) = 0 ->
    WebScraperWithProgress.fetch_multiple_pages env self base_url
      max_pages w = (Ok links, w') ->
    total_articles (scraping_status w') = Z.of_nat (length links).
Proof.
  intros L env self base_url max_pages w w' links Hzero Hrun.
  now apply (web_fetch_multiple_pages_total env self base_url max_pages
               w Hzero).
Qed.

Lemma fetch_multiple_pages_total_is_link_count_witness :
  total_articles
    (scraping_status
       (snd (WebScraperWithProgress.fetch_multiple_pages (H := Demo.libs)
               Demo.two_page_site Demo.config (base_url Demo.config) 2
               (prologue Demo.initial))))
  = Z.of_nat
      (length
         [lit "https://site.example/a/1"; lit "https://site.example/a/2"]).
Proof.
  apply (@fetch_multiple_pages_total_is_link_count Demo.libs
           Demo.two_page_site Demo.config (base_url Demo.config) 2
           (prologue Demo.initial)).
  - reflexivity.
  - vm_compute. reflexivity.
Defined.

(** X18. The counters of the status are in order when [run_scraper]
    ends, however the job went: the bestsellers found are at most the
    articles processed, and these are at most the total. *)
Theorem run_scraper_counters_in_order :
  forall (L : Libraries) (env : environment) (self : scraper) (w : world),
    counters_in_order
      (snd (WebScraperWithProgress.run_scraper env self w)).
Proof.
  intros L env self w.
  pose proof (job_counters env self w) as Hjob.
  unfold WebScraperWithProgress.run_scraper, try_finally, try_except.
  destruct (WebScraperWithProgress.job env self w) as [[[]|e] w1];
    cbn [snd] in *; exact Hjob.
Qed.

Section JobBudget.
Context {L : Libraries}.
Variable env : environment.
Variable self : scraper.

Lemma job_to_total (A : Type) (m : M A) :
  preserves job_view m ->
  preserves (fun w => total_articles (scraping_status w)) m.
Proof.
  intros Hm w. specialize (Hm w). unfold job_view in Hm.
  injection Hm as Hs Hg Hl Hk Ht Hc. now rewrite Hs.
Qed.

Lemma web_parse_article_detail_total detail_url :
  preserves (fun w => total_articles (scraping_status w))
    (WebScraperWithProgress.parse_article_detail env self detail_url).
Proof.
  unfold WebScraperWithProgress.parse_article_detail.
  apply preserves_bind; [apply preserves_read|]. intros current.
  apply preserves_bind; [now apply preserves_modify|]. intros _.
  apply preserves_bind; [apply preserves_read|]. intros total.
  apply preserves_bind; [now apply preserves_modify|]. intros _.
  apply preserves_bind.
  { apply job_to_total, base_parse_article_detail_job. }
  intros [article|]; [|apply preserves_ret].
  apply preserves_bind; [|intros _; apply preserves_ret].
  destruct (Article.is_bestseller article); [|apply preserves_ret].
  apply preserves_bind; [apply preserves_read|]. intros found.
  apply preserves_bind; [now apply preserves_modify|]. intros _.
  now apply preserves_modify.
Qed.

Lemma details_total todo keywords :
  forall index articles,
    preserves (fun w => total_articles (scraping_status w))
      (WebScraperWithProgress.details env self index todo keywords
         articles).
Proof.
  induction todo as [|link rest IH]; intros index articles;
    cbn [WebScraperWithProgress.details]; [apply preserves_ret|].
  apply preserves_bind; [intros w; reflexivity|]. intros running.
  destruct running.
  - apply preserves_bind; [apply web_parse_article_detail_total|].
    intros [article|]; [|apply IH].
    destruct (WebScraperWithProgress.kept keywords article); [|apply IH].
    apply preserves_bind; [apply job_to_total, uniform_job|].
    intros delay.
    apply preserves_bind; [apply job_to_total, sleep_job|].
    intros _. apply IH.
  - apply preserves_bind; [now apply preserves_modify|]. intros _.
    apply preserves_ret.
Qed.

Lemma web_fetch_multiple_pages_costs base_url max_pages :
  costs (Z.to_nat max_pages * Z.to_nat (max_retries self))
    (WebScraperWithProgress.fetch_multiple_pages env self base_url
       max_pages).
Proof.
  unfold WebScraperWithProgress.fetch_multiple_pages.
  replace (Z.to_nat max_pages)
    with (length (range 1 (max_pages + 1)))
    by (rewrite length_range; f_equal; lia).
  rewrite <- (Nat.add_0_r (_ * _)).
  apply costs_bind; [apply web_pages_costs|]. intros all_links. free.
Qed.

Lemma job_budget (w : world) :
  let w' := snd (WebScraperWithProgress.job env self w) in
  (gets w'
   <= gets w
      + (Z.to_nat (max_pages self)
         + Z.to_nat (total_articles (scraping_status w')))
        * Z.to_nat (max_retries self))%nat.
Proof.
  cbv zeta. pose proof (job_cases env self w) as Hjob.
  destruct (web_fetch_multiple_pages_total env self (base_url self)
              (max_pages self) (prologue w) eq_refl) as [Hpos Htotal].
  pose proof (web_fetch_multiple_pages_costs (base_url self)
                (max_pages self) (prologue w)) as Hcost.
  change (gets (prologue w)) with (gets w) in Hcost.
  destruct (WebScraperWithProgress.fetch_multiple_pages env self
              (base_url self) (max_pages self) (prologue w))
    as [[links|e] w1]; cbn [snd] in *.
  - specialize (Htotal links w1 eq_refl).
    destruct links as [|link links].
    + rewrite Hjob. cbn [snd].
      change (gets (add_message MsgNoLinks w1)) with (gets w1). nia.
    + pose proof (details_costs env self (link :: links)
                    (current_keywords w1) 0 [] w1) as Hcost2.
      pose proof (details_total (link :: links) (current_keywords w1)
                    0 [] w1) as Hsame.
      cbv beta in Hsame.
      destruct (WebScraperWithProgress.details env self 0 (link :: links)
                  (current_keywords w1) [] w1) as [[rows|e] w2];
        cbn [snd] in *.
      * destruct Hjob as [wj [Hjob [Hgets [_ [Ht _]]]]].
        rewrite Hjob. cbn [snd]. rewrite Hgets, Ht, Hsame, Htotal.
        rewrite Nat2Z.id. nia.
      * rewrite Hjob. cbn [snd]. rewrite Hsame, Htotal, Nat2Z.id. nia.
  - rewrite Hjob. cbn [snd]. nia.
Qed.

End JobBudget.


(* ================================================================== *)
(** * The rows of a job *)
(* ================================================================== *)

Section Rows.
Context {L : Libraries}.
Variable env : environment.
Variable self : scraper.

Lemma base_parse_article_detail_result detail_url w result w' :
  FixedWebScraper.parse_article_detail env self detail_url w
  = (Ok result, w') ->
  result = Some (FixedWebScraper.failed_article detail_url)
  \/ exists response,
       result
       = Some (FixedWebScraper.build_article self detail_url response).
Proof.
  unfold FixedWebScraper.parse_article_detail. intros Hrun.
  destruct (FixedWebScraper.make_request env self detail_url w)
    as [[r|e] w1] eqn:Hreq.
  - rewrite bind_run with (1 := Hreq) in Hrun.
    destruct (FixedWebScraper.usable r) as [response|];
      injection Hrun as Hres _; subst result.
    + right. now exists response.
    + now left.
  - rewrite bind_raised with (1 := Hreq) in Hrun. discriminate.
Qed.

Lemma web_parse_article_detail_result detail_url w result w' :
  WebScraperWithProgress.parse_article_detail env self detail_url w
  = (Ok result, w') ->
  result = Some (FixedWebScraper.failed_article detail_url)
  \/ exists response,
       result
       = Some (FixedWebScraper.build_article self detail_url response).
Proof.
  unfold WebScraperWithProgress.parse_article_detail.
  rewrite bind_read, bind_modify, bind_read, bind_log_message.
  intros Hrun.
  match type of Hrun with
  | bind (FixedWebScraper.parse_article_detail _ _ _) _ ?w0 = _ =>
      destruct (FixedWebScraper.parse_article_detail env self detail_url
                  w0) as [[res|e] w1] eqn:Hparse
  end.
  - rewrite bind_run with (1 := Hparse) in Hrun.
    apply base_parse_article_detail_result in Hparse.
    destruct res as [article|].
    + destruct (Article.is_bestseller article);
        cbn in Hrun; injection Hrun as Hres _; now subst result.
    + injection Hrun as Hres _. now subst result.
  - rewrite bind_raised with (1 := Hparse) in Hrun. discriminate.
Qed.

Lemma details_rows todo keywords :
  forall index articles w rows w',
    WebScraperWithProgress.details env self index todo keywords articles w
    = (Ok rows, w') ->
    exists new,
      rows = articles ++ new
      /\ (length new <= length todo)%nat
      /\ Forall
           (fun a =>
              WebScraperWithProgress.kept keywords a = true
              /\ In (Article.detail_url a) todo
              /\ Article.status_code a <> None)
           new.
Proof.
  induction todo as [|link rest IH]; intros index articles w rows w' Hrun;
    cbn [WebScraperWithProgress.details] in Hrun.
  - injection Hrun as Hrows _. exists []. rewrite app_nil_r.
    split; [now subst rows|]. split; [reflexivity|constructor].
  - assert (Hrest : forall articles' w0,
              WebScraperWithProgress.details env self (S index) rest
                keywords articles' w0 = (Ok rows, w') ->
              forall prefix,
                articles' = articles ++ prefix ->
                (length prefix <= 1)%nat ->
                Forall
                  (fun a =>
                     WebScraperWithProgress.kept keywords a = true
                     /\ In (Article.detail_url a) (link :: rest)
                     /\ Article.status_code a <> None)
                  prefix ->
                exists new,
                  rows = articles ++ new
                  /\ (length new <= length (link :: rest))%nat
                  /\ Forall
                       (fun a =>
                          WebScraperWithProgress.kept keywords a = true
                          /\ In (Article.detail_url a) (link :: rest)
                          /\ Article.status_code a <> None)
                       new).
    { intros articles' w0 Hgo prefix Harticles Hlen Hprefix.
      apply IH in Hgo. destruct Hgo as [new [Hrows [Hnew Hall]]].
      exists (prefix ++ new). subst articles'.
      split; [now rewrite app_assoc|].
      split; [rewrite length_app; cbn [length]; lia|].
      apply Forall_app. split; [exact Hprefix|].
      apply Forall_impl with (2 := Hall).
      intros a [Hkept [Hin Hstatus]]. repeat split; auto. now right. }
    rewrite bind_read_is_running in Hrun.
    destruct (is_running (scraping_status w)
              && negb (stop_pressed env (AtLink index))).
    + match type of Hrun with
      | bind (WebScraperWithProgress.parse_article_detail _ _ _) _ ?w0
        = _ =>
          destruct (WebScraperWithProgress.parse_article_detail env self
                      link w0) as [[[article|]|e] w1] eqn:Hparse
      end.
      * rewrite bind_run with (1 := Hparse) in Hrun.
        apply web_parse_article_detail_result in Hparse.
        destruct (WebScraperWithProgress.kept keywords article) eqn:Hkept.
        -- rewrite bind_uniform in Hrun.
           match type of Hrun with
           | bind (sleep ?d) _ _ = _ => destruct (Qle_bool 0 d) eqn:Hd
           end.
           ++ rewrite bind_sleep in Hrun by exact Hd.
              apply Hrest with (prefix := [article]) in Hrun;
                [exact Hrun|reflexivity|reflexivity|].
              constructor; [|constructor].
              split; [exact Hkept|].
              destruct Hparse as [[= Hfailed]|[response [= Hbuilt]]];
                subst article.
              ** discriminate.
              ** split; [now left|discriminate].
           ++ rewrite bind_raised with (1 := sleep_raises _ _ Hd) in Hrun.
              discriminate.
        -- apply Hrest with (prefix := []) in Hrun;
             [exact Hrun|now rewrite app_nil_r|cbn; lia|constructor].
      * rewrite bind_run with (1 := Hparse) in Hrun.
        apply Hrest with (prefix := []) in Hrun;
          [exact Hrun|now rewrite app_nil_r|cbn; lia|constructor].
      * rewrite bind_raised with (1 := Hparse) in Hrun. discriminate.
    + rewrite bind_log_message in Hrun. injection Hrun as Hrows _.
      exists []. rewrite app_nil_r.
      split; [now subst rows|]. split; [cbn; lia|constructor].
Qed.

End Rows.

(** X20. What the detail loop keeps: every row it returns belongs to one
    of the links, was fetched (the record of a failed request is never
    kept), has at least 200 characters of content after stripping, and,
    when keywords are set, contains one of them in its title or content;
    and there are at most as many rows as links. *)
Theorem details_keeps_filtered_rows :
  forall (L : Libraries) (env : environment) (self : scraper)
         (links keywords : list str) (w w' : world)
         (rows : list Article.t),
    WebScraperWithProgress.details env self 0 links keywords [] w
    = (Ok rows, w') ->
    (length rows <= length links)%nat
    /\ Forall
         (fun a =>
            In (Article.detail_url a) links
            /\ Article.status_code a <> None
            /\ 200 <= len (strip (Article.content a))
            /\ (keywords = []
                \/ existsb
                     (contains
                        (WebScraperWithProgress.haystack a
                           (strip (Article.content a))))
                     keywords = true))
         rows.
Proof.
  intros L env self links keywords w w' rows Hrun.
  apply details_rows in Hrun.
  destruct Hrun as [new [Hrows [Hlen Hall]]]. cbn [app] in Hrows.
  subst new. split; [exact Hlen|].
  apply Forall_impl with (2 := Hall).
  intros a [Hkept [Hin Hstatus]]. split; [exact Hin|].
  split; [exact Hstatus|].
  unfold WebScraperWithProgress.kept in Hkept.
  unfold WebScraperWithProgress.min_content_length in Hkept.
  destruct (len (strip (Article.content a)) <? 200) eqn:Hshort;
    [discriminate|].
  apply Z.ltb_ge in Hshort. split; [exact Hshort|].
  destruct keywords; [now left|now right].
Qed.

Lemma details_keeps_filtered_rows_witness :
  (length
     [FixedWebScraper.build_article (H := Demo.libs) Demo.config_one_page
        (lit "https://site.example/a/1")
        (Demo.response 200 Demo.article_page)]
   <= length [lit "https://site.example/a/1"])%nat.
Proof.
  refine (proj1
            (@details_keeps_filtered_rows Demo.libs Demo.stopped_site
               Demo.config_one_page [lit "https://site.example/a/1"] []
               (prologue Demo.initial)
               (snd (WebScraperWithProgress.details (H := Demo.libs)
                       Demo.stopped_site Demo.config_one_page 0
                       [lit "https://site.example/a/1"] [] []
                       (prologue Demo.initial)))
               [FixedWebScraper.build_article (H := Demo.libs)
                  Demo.config_one_page (lit "https://site.example/a/1")
                  (Demo.response 200 Demo.article_page)]
               _)).
  vm_compute. reflexivity.
Defined.

(* ================================================================== *)
(** * The connection test and the stop request *)
(* ================================================================== *)

(** X21. A successful connection test does not mean the page can be
    scraped: [test_connection] reports success for any response, also one
    with an error status.  [make_request] then returns that response at
    its first attempt, after one GET as the test, and
    [parse_article_detail] records it as a failed request when the status
    is between 400 and 599. *)
Theorem connection_test_accepts_error_status :
  forall (L : Libraries) (env : environment) (self : scraper) (url : str)
         (w : world) (response : Response.t),
    0 < max_retries self ->
    net env (gets w) url = Responds response ->
    let test := ConnectionTest.test_connection env url w in
    let request := FixedWebScraper.make_request env self url w in
    fst test
    = Ok {| ConnectionTest.success := true;
            ConnectionTest.status_code :=
              Some (Response.status_code response);
            ConnectionTest.content_length := Response.html_len response;
            ConnectionTest.error := None |}
    /\ fst request = Ok (Some response)
    /\ gets (snd test) = S (gets w)
    /\ gets (snd request) = S (gets w)
    /\ (400 <= Response.status_code response < 600 ->
        fst (FixedWebScraper.parse_article_detail env self url w)
        = Ok (Some (FixedWebScraper.failed_article url))).
Proof.
  intros L env self url w response Hpos Hnet test request.
  pose proof (@make_request_first_response env self url w response Hpos Hnet) as Hreq.
  assert (Htest :
    ConnectionTest.test_connection env url w
    = (Ok {| ConnectionTest.success := true;
             ConnectionTest.status_code :=
               Some (Response.status_code response);
             ConnectionTest.content_length := Response.html_len response;
             ConnectionTest.error := None |},
       emit (Get url) (next_get w))).
  { unfold ConnectionTest.test_connection, bind, session_get.
    now rewrite Hnet. }
  unfold test, request. rewrite Hreq, Htest.
  do 4 (split; [reflexivity|]).
  intros Hstatus. unfold FixedWebScraper.parse_article_detail.
  rewrite bind_run with (1 := Hreq).
  unfold FixedWebScraper.usable, Response.ok.
  replace (400 <=? Response.status_code response) with true
    by (symmetry; apply Z.leb_le; lia).
  replace (Response.status_code response <? 600) with true
    by (symmetry; apply Z.ltb_lt; lia).
  reflexivity.
Qed.

Lemma connection_test_accepts_error_status_witness :
  fst (FixedWebScraper.parse_article_detail (H := Demo.libs)
         (Demo.always (Responds (Demo.response 404 Demo.article_page)))
         Demo.config (lit "https://site.example/a/1") Demo.initial)
  = Ok (Some (FixedWebScraper.failed_article
                (lit "https://site.example/a/1"))).
Proof.
  refine (proj2 (proj2 (proj2 (proj2
            (@connection_test_accepts_error_status Demo.libs
               (Demo.always
                  (Responds (Demo.response 404 Demo.article_page)))
               Demo.config (lit "https://site.example/a/1") Demo.initial
               (Demo.response 404 Demo.article_page) _ _)))) _).
  - reflexivity.
  - reflexivity.
  - vm_compute. split; [discriminate|reflexivity].
Defined.

Lemma stop_scraping_flag (w : world) :
  set_status (set_running false) (snd (WebApp.stop_scraping w))
  = snd (WebApp.stop_scraping w).
Proof.
  unfold WebApp.stop_scraping.
  destruct (is_running (scraping_status w)) eqn:Hrun; cbn [snd].
  - reflexivity.
  - rewrite <- Hrun at 1. apply flag_unchanged.
Qed.

(** X22. A stop request ends both loops at their next check: after
    [stop_scraping], which accepts the request exactly when a job is
    running, the detail loop returns the rows it has without processing
    another link, and the page loop returns the links it has without
    fetching another page; each writes its line and nothing else
    changes. *)
Theorem stop_scraping_ends_loops :
  forall (L : Libraries) (env : environment) (self : scraper) (w : world),
    let w' := snd (WebApp.stop_scraping w) in
    fst (WebApp.stop_scraping w) = is_running (scraping_status w)
    /\ (forall index link rest keywords articles,
          WebScraperWithProgress.details env self index (link :: rest)
            keywords articles w'
          = (Ok articles, add_message MsgStopped w'))
    /\ (forall base_url page rest all_links,
          WebScraperWithProgress.pages env self base_url (page :: rest)
            all_links w'
          = (Ok all_links, emit (Logged StoppedByUser) w')).
Proof.
  intros L env self w w'.
  assert (Hflag : is_running (scraping_status w') = false).
  { unfold w', WebApp.stop_scraping.
    now destruct (is_running (scraping_status w)) eqn:Hrun. }
  split; [|split].
  - unfold WebApp.stop_scraping.
    now destruct (is_running (scraping_status w)).
  - intros index link rest keywords articles.
    cbn [WebScraperWithProgress.details].
    rewrite bind_read_is_running, Hflag. cbn [andb].
    unfold w'. rewrite stop_scraping_flag. reflexivity.
  - intros base_url page rest all_links.
    cbn [WebScraperWithProgress.pages].
    rewrite bind_read_is_running, Hflag. cbn [andb].
    unfold w'. rewrite stop_scraping_flag. reflexivity.
Qed.

(* ================================================================== *)
(** * The counts of a record *)
(* ================================================================== *)

Section Counts.
Context {L : Libraries}.

Lemma int_of_digits_from (digits : str) :
  forall acc,
    0 <= acc ->
    0 <= fold_left
           (fun acc c => 10 * acc + Z.of_N (match digit_value c with
                                           | Some d => d
                                           | None => 0%N
                                           end))
           digits acc.
Proof.
  induction digits as [|c digits IH]; intros acc Hacc; cbn [fold_left].
  - exact Hacc.
  - apply IH. lia.
Qed.

Lemma extract_number_not_negative (self : scraper) (soup : node)
  (f : field) :
  0 <= FixedWebScraper.extract_number self soup f.
Proof.
  unfold FixedWebScraper.extract_number.
  destruct (configured self f) as [selector|]; [|lia].
  destruct (select_one selector soup) as [[element|]|]; try lia.
  cbv zeta. destruct (truthy _); [|lia].
  apply int_of_digits_from. lia.
Qed.

End Counts.

(** X23. The counts of a record are never negative, whatever the page
    holds; so a scraper whose selectors for the like count and the
    collect count are both missing, with a threshold
    [min_interaction_count] that is not negative, marks no article as a
    bestseller. *)
Theorem no_bestseller_without_interaction_selectors :
  forall (L : Libraries) (self : scraper) (detail_url : str)
         (response : Response.t),
    let article := FixedWebScraper.build_article self detail_url response in
    0 <= Article.read_count article
    /\ 0 <= Article.like_count article
    /\ 0 <= Article.collect_count article
    /\ (configured self f_like_count = None ->
        configured self f_collect_count = None ->
        0 <= min_interaction_count self ->
        Article.is_bestseller article = false).
Proof.
  intros L self detail_url response article.
  unfold article, FixedWebScraper.build_article.
  cbn [Article.read_count Article.like_count Article.collect_count
       Article.is_bestseller].
  do 3 (split; [apply extract_number_not_negative|]).
  intros Hlike Hcollect Hmin.
  unfold FixedWebScraper.is_bestseller.
  unfold FixedWebScraper.extract_number at 2 3.
  rewrite Hlike, Hcollect.
  replace (min_interaction_count self <? 0 + 0) with false
    by (symmetry; apply Z.ltb_ge; lia).
  apply andb_false_r.
Qed.

Lemma no_bestseller_without_interaction_selectors_witness :
  Article.is_bestseller
    (FixedWebScraper.build_article (H := Demo.libs) Demo.config_one_page
       (lit "https://site.example/a/1")
       (Demo.response 200 Demo.article_page))
  = false.
Proof.
  refine (proj2 (proj2 (proj2
            (no_bestseller_without_interaction_selectors Demo.libs
               Demo.config_one_page (lit "https://site.example/a/1")
               (Demo.response 200 Demo.article_page)))) _ _ _).
  - reflexivity.
  - reflexivity.
  - vm_compute. discriminate.
Defined.
